(** * Radiometric correction pipeline of HSI_cl: header parser, correction
    engine and header writer of [radiometric_corr.py].

    The development embeds [read_header] and
    [apply_enhanced_radiometric_correction] as Rocq functions:

    - Python [str] values are [string]s whose characters are the code points
      0..255;
    - Python [float] is IEEE binary64 and NumPy [float32] is IEEE binary32,
      both as [spec_float] with the operations of [SpecFloat] (round to
      nearest, ties to even; a NaN carries no payload);
    - the [dict] returned by [read_header] is a [gmap string value];
    - files live in a store [gmap string file]; a function that raises
      returns the exception together with the store it leaves behind.

    What the functions print is left out, except where building the text
    of a report can raise (line 105), and so are failures of the
    operating system other than a missing file. The header reader and the
    mapping of [hyperspectral_viewer.py] and the arithmetic of
    [segmentaion.py] follow in modules of their own. *)

From Stdlib Require Import ZArith QArith String Ascii List Bool Lia.
From Stdlib Require Import Floats.SpecFloat.
From stdpp Require Import gmap strings.

Local Open Scope Z_scope.

(** ** Python [str] primitives *)

Module Py.

Definition code (c : ascii) : Z := Z.of_N (N_of_ascii c).

Definition chr (n : Z) : ascii := ascii_of_N (Z.to_N n).

(** [str.isspace] on one character (code points below 256). *)
Definition isspace (c : ascii) : bool :=
  let n := code c in
  ((9 <=? n) && (n <=? 13)) || ((28 <=? n) && (n <=? 32))
  || (n =? 133) || (n =? 160).

Fixpoint lstrip (s : string) : string :=
  match s with
  | "" => ""
  | String c s' => if isspace c then lstrip s' else s
  end.

Fixpoint rstrip (s : string) : string :=
  match s with
  | "" => ""
  | String c s' =>
      match rstrip s' with
      | "" => if isspace c then "" else String c ""
      | r => String c r
      end
  end.

(** [s.strip()] *)
Definition strip (s : string) : string := rstrip (lstrip s).

(** [c in s] for a one-character [c]. *)
Fixpoint has_char (c : ascii) (s : string) : bool :=
  match s with
  | "" => false
  | String d s' => if Ascii.eqb c d then true else has_char c s'
  end.

Fixpoint starts_with (p s : string) : bool :=
  match p, s with
  | "", _ => true
  | String a p', String b s' => Ascii.eqb a b && starts_with p' s'
  | String _ _, "" => false
  end.

(** [sub in s] *)
Fixpoint contains (sub s : string) : bool :=
  starts_with sub s ||
  match s with
  | "" => false
  | String _ s' => contains sub s'
  end.

(** [s.split(c)] for a one-character separator: never the empty list. *)
Fixpoint split (c : ascii) (s : string) : list string :=
  match s with
  | "" => [""]
  | String d s' =>
      if Ascii.eqb c d then "" :: split c s'
      else match split c s' with
           | [] => [String d ""]
           | w :: ws => String d w :: ws
           end
  end.

(** [s.split(c, 1)]: the text before the first [c] and, when [c] occurs,
    the text after it. *)
Fixpoint split1 (c : ascii) (s : string) : string * option string :=
  match s with
  | "" => ("", None)
  | String d s' =>
      if Ascii.eqb c d then ("", Some s')
      else let '(a, b) := split1 c s' in (String d a, b)
  end.

(** [l[i]] on a list of pieces, with the default for an index out of
    range (the callers index where the piece exists). *)
Definition item (l : list string) (i : nat) : string := nth i l "".

(** [l[-1]] *)
Definition last_item (l : list string) : string := List.last l "".

Definition lower_char (c : ascii) : ascii :=
  let n := code c in
  if ((65 <=? n) && (n <=? 90))
     || ((192 <=? n) && (n <=? 222) && negb (n =? 215))
  then chr (n + 32) else c.

(** [s.lower()] *)
Fixpoint lower (s : string) : string :=
  match s with
  | "" => ""
  | String c s' => String (lower_char c) (lower s')
  end.

(** [sep.join(l)] *)
Fixpoint join (sep : string) (l : list string) : string :=
  match l with
  | [] => ""
  | [x] => x
  | x :: rest => x +:+ sep +:+ join sep rest
  end.

Fixpoint replace_from (old new : string) (skip : nat) (s : string) : string :=
  match s with
  | "" => ""
  | String c s' =>
      match skip with
      | S k => replace_from old new k s'
      | O =>
          if starts_with old s
          then new +:+ replace_from old new (String.length old - 1) s'
          else String c (replace_from old new 0 s')
      end
  end.

(** [s.replace(old, new)] for a non-empty [old]: every occurrence, found
    from the left, occurrences not overlapping. *)
Definition replace (old new s : string) : string := replace_from old new 0 s.

Definition is_digit (c : ascii) : bool :=
  let n := code c in (48 <=? n) && (n <=? 57).

Definition digit_val (c : ascii) : Z := code c - 48.

(** A digit part: digits, single underscores allowed between two digits.
    [prev] tells whether the previous character was a digit; the result
    is the digits read, most significant first. *)
Fixpoint digit_part (prev : bool) (s : string) : option (list Z) :=
  match s with
  | "" => if prev then Some [] else None
  | String c s' =>
      if is_digit c then
        option_map (cons (digit_val c)) (digit_part true s')
      else if Ascii.eqb c "_"%char then
        if prev then
          match s' with
          | String d _ => if is_digit d then digit_part false s' else None
          | "" => None
          end
        else None
      else None
  end.

Definition digits_to_Z (ds : list Z) : Z :=
  fold_left (fun acc d => 10 * acc + d) ds 0.

(** The sign of a numeral and the text after it. *)
Definition take_sign (s : string) : bool * string :=
  match s with
  | String "-"%char r => (true, r)
  | String "+"%char r => (false, r)
  | _ => (false, s)
  end.

(** [sys.get_int_max_str_digits()]: the most digits that [int] reads and
    [str] writes. *)
Definition max_str_digits : nat := 4300.

(** [int(s)] on a [str], base 10: [None] is [ValueError], which a numeral
    of more than [max_str_digits] digits raises too; the sign, the
    underscores and the blanks around the numeral are no digits, a leading
    zero is one. *)
Definition int (s : string) : option Z :=
  let '(neg, r) := take_sign (strip s) in
  match digit_part false r with
  | Some ds =>
      if (length ds <=? max_str_digits)%nat
      then Some (if neg then - digits_to_Z ds else digits_to_Z ds)
      else None
  | None => None
  end.

Definition digit_char (d : Z) : ascii := chr (48 + d).

Fixpoint pos_digits (fuel : nat) (n : Z) (acc : string) : string :=
  match fuel with
  | O => acc
  | S f =>
      let acc' := String (digit_char (n mod 10)) acc in
      if n <? 10 then acc' else pos_digits f (n / 10) acc'
  end.

(** Decimal digits of a natural number, no leading zero. *)
Definition nat_str (n : Z) : string :=
  pos_digits (S (Z.to_nat (Z.log2 n))) n "".

(** The digits of [str(n)] for an [int]. *)
Definition str_int (n : Z) : string :=
  if n <? 0 then String "-" (nat_str (- n)) else nat_str n.

(** [str(n)] and [format(n)] raise [ValueError] for an [int] of more than
    [max_str_digits] digits. *)
Definition str_int_allowed (n : Z) : bool :=
  (String.length (nat_str (Z.abs n)) <=? max_str_digits)%nat.

End Py.


(** ** Floating point: Python [float] (binary64) and NumPy [float32] *)

Module F64.

Definition prec : Z := 53.
Definition emax : Z := 1024.

Definition add := SFadd prec emax.
Definition sub := SFsub prec emax.
Definition div := SFdiv prec emax.
Definition eqb := SFeqb.

(** The float of an integer, as Python converts an [int] operand. *)
Definition of_Z (n : Z) : spec_float := binary_normalize prec emax n 0 false.

Definition inf (neg : bool) : spec_float := S754_infinity neg.

(** The float nearest to [m * 10^e10] for a natural number [m]: the
    product is exact for [e10 >= 0]; otherwise the quotient [m / 10^-e10]
    is rounded once, from its truncation and the position of the
    remainder. *)
Definition of_decimal (neg : bool) (m e10 : Z) : spec_float :=
  if m =? 0 then S754_zero neg
  else if 0 <=? e10 then
    binary_normalize prec emax ((if neg then -1 else 1) * (m * 10 ^ e10)) 0 false
  else
    let '(q, e, l) := SFdiv_core_binary prec emax m 0 (10 ^ (- e10)) 0 in
    binary_round_aux prec emax neg q e l.

(** The digits of [s], or of nothing when [s] is empty. *)
Definition opt_digits (s : string) : option (list Z) :=
  match s with
  | "" => Some []
  | _ => Py.digit_part false s
  end.

(** Splits a numeral at its exponent marker, [e] or [E]. *)
Fixpoint split_exp (s : string) : string * option string :=
  match s with
  | "" => ("", None)
  | String c s' =>
      if Ascii.eqb c "e"%char || Ascii.eqb c "E"%char then ("", Some s')
      else let '(a, b) := split_exp s' in (String c a, b)
  end.

Definition parse_exponent (o : option string) : option Z :=
  match o with
  | None => Some 0
  | Some t =>
      let '(neg, r) := Py.take_sign t in
      match Py.digit_part false r with
      | Some ds => Some (if neg then - Py.digits_to_Z ds else Py.digits_to_Z ds)
      | None => None
      end
  end.

(** [float(s)] on a [str]: [None] is [ValueError]. *)
Definition parse (s : string) : option spec_float :=
  let '(neg, r) := Py.take_sign (Py.strip s) in
  let lr := Py.lower r in
  if String.eqb lr "inf" || String.eqb lr "infinity" then Some (inf neg)
  else if String.eqb lr "nan" then Some S754_nan
  else
    let '(mant, ex) := split_exp r in
    let '(ip, fp) := Py.split1 "." mant in
    let digits :=
      match fp with
      | None => option_map (fun ds => (ds, [])) (Py.digit_part false ip)
      | Some f =>
          match opt_digits ip, opt_digits f with
          | Some a, Some b =>
              match a, b with
              | [], [] => None
              | _, _ => Some (a, b)
              end
          | _, _ => None
          end
      end in
    match digits, parse_exponent ex with
    | Some (a, b), Some e =>
        Some (of_decimal neg (Py.digits_to_Z (a ++ b)) (e - Z.of_nat (length b)))
    | _, _ => None
    end.

(** [n / d] rounded to the nearest integer, ties to even ([0 <= n], [0 < d]). *)
Definition div_half_even (n d : Z) : Z :=
  let q := n / d in
  let r := n mod d in
  match Z.compare (2 * r) d with
  | Lt => q
  | Gt => q + 1
  | Eq => if Z.even q then q else q + 1
  end.

(** [|x| * 10^k] rounded to an integer, for a finite non-zero [x = m * 2^e]. *)
Definition scaled (m : positive) (e : Z) (k : Z) : Z :=
  if 0 <=? e then Z.pos m * 2 ^ e * 10 ^ k
  else div_half_even (Z.pos m * 10 ^ k) (2 ^ (- e)).

Fixpoint zeros (n : nat) : string :=
  match n with
  | O => ""
  | S k => String "0"%char (zeros k)
  end.

(** [s] padded with zeros on the left to [n] characters. *)
Definition zfill (n : nat) (s : string) : string :=
  zeros (n - String.length s) +:+ s.

Definition sign_str (neg : bool) : string := if neg then "-" else "".

Definition fixed6 (neg : bool) (n : Z) : string :=
  sign_str neg +:+ Py.nat_str (n / 1000000) +:+ "." +:+
  zfill 6 (Py.nat_str (n mod 1000000)).

(** [format(x, "0.6f")]: six digits after the point, correctly rounded. *)
Definition format_6f (x : spec_float) : string :=
  match x with
  | S754_nan => "nan"
  | S754_infinity neg => sign_str neg +:+ "inf"
  | S754_zero neg => fixed6 neg 0
  | S754_finite neg m e => fixed6 neg (scaled m e 6)
  end.

(** *** [repr] of a float: the shortest digits that read back as it *)

(** Fractions [n / d] with [0 < d], compared by cross multiplication. *)
Definition fcmp (a b : Z * Z) : comparison :=
  Z.compare (fst a * snd b) (fst b * snd a).

(** [x * 2^e] and [x * 10^k] as fractions. *)
Definition bin_frac (x e : Z) : Z * Z :=
  if 0 <=? e then (x * 2 ^ e, 1) else (x, 2 ^ (- e)).
Definition dec_frac (x k : Z) : Z * Z :=
  if 0 <=? k then (x * 10 ^ k, 1) else (x, 10 ^ (- k)).

(** [floor ((n / d) / 10^k)] *)
Definition floor_dec (v : Z * Z) (k : Z) : Z :=
  if 0 <=? k then fst v / (snd v * 10 ^ k) else (fst v * 10 ^ (- k)) / snd v.

(** Whether the decimal [c * 10^k] reads back as [m * 2^e]: it lies
    between the midpoints to the two neighbouring floats, the midpoints
    themselves counting when [m] is even. *)
Definition reads_back (m : positive) (e : Z) (c k : Z) : bool :=
  let lo :=
    if Pos.eqb m (2 ^ 52) && (- 1074 <? e)
    then bin_frac (4 * Z.pos m - 1) (e - 2)
    else bin_frac (4 * Z.pos m - 2) (e - 2) in
  let hi := bin_frac (4 * Z.pos m + 2) (e - 2) in
  let x := dec_frac c k in
  let even := Z.even (Z.pos m) in
  match fcmp lo x, fcmp x hi with
  | Lt, Lt => true
  | Eq, Lt | Lt, Eq => even
  | _, _ => false
  end.

(** The least [p] with [v < 10^p], searched upwards from [p]. *)
Fixpoint decpt_up (fuel : nat) (v : Z * Z) (p : Z) : Z :=
  match fuel with
  | O => p
  | S f =>
      match fcmp v (dec_frac 1 p) with
      | Lt => p
      | _ => decpt_up f v (p + 1)
      end
  end.

(** The position of the decimal point of [m * 2^e]: the [p] with
    [10^(p-1) <= m * 2^e < 10^p]. The binary logarithm gives an estimate
    below it. *)
Definition decpt (m : positive) (e : Z) : Z :=
  let b := Z.log2 (Z.pos m) + e in
  decpt_up 8 (bin_frac (Z.pos m) e) (b * 30102 / 100000 - 1).

(** The shortest decimal [c * 10^k] that reads back, with [n], [n+1], ...
    significant digits; of two candidates the nearer, the even one on a
    tie. *)
Fixpoint shortest (fuel : nat) (m : positive) (e : Z) (p : Z) (n : Z)
  : Z * Z :=
  let v := bin_frac (Z.pos m) e in
  let k := p - n in
  let c := floor_dec v k in
  match fuel with
  | O => (c, k)
  | S f =>
      let below := reads_back m e c k in
      let above := reads_back m e (c + 1) k in
      if below && above then
        match fcmp (bin_frac (2 * Z.pos m) e) (dec_frac (2 * c + 1) k) with
        | Lt => (c, k)
        | Gt => (c + 1, k)
        | Eq => if Z.even c then (c, k) else (c + 1, k)
        end
      else if below then (c, k)
      else if above then (c + 1, k)
      else shortest f m e p (n + 1)
  end.

(** Drops the zeros at the end of [c], raising the exponent. *)
Fixpoint drop_zeros (fuel : nat) (c k : Z) : Z * Z :=
  match fuel with
  | O => (c, k)
  | S f => if (c mod 10 =? 0) && (0 <? c) then drop_zeros f (c / 10) (k + 1)
           else (c, k)
  end.

Fixpoint take (n : nat) (s : string) : string :=
  match n, s with
  | S k, String c s' => String c (take k s')
  | _, _ => ""
  end.

Fixpoint drop (n : nat) (s : string) : string :=
  match n, s with
  | S k, String _ s' => drop k s'
  | _, _ => s
  end.

(** The digits [ds] with the decimal point after [p] of them, in the
    layout of [repr]: exponent form for [p <= -4] or [16 < p]. *)
Definition layout (ds : string) (p : Z) : string :=
  let nd := Z.of_nat (String.length ds) in
  if (p <=? -4) || (16 <? p) then
    let ex := p - 1 in
    take 1 ds +:+ (if 1 <? nd then "." +:+ drop 1 ds else "") +:+ "e" +:+
    (if ex <? 0 then "-" else "+") +:+ zfill 2 (Py.nat_str (Z.abs ex))
  else if p <=? 0 then "0." +:+ zeros (Z.to_nat (- p)) +:+ ds
  else if nd <=? p then ds +:+ zeros (Z.to_nat (p - nd)) +:+ ".0"
  else take (Z.to_nat p) ds +:+ "." +:+ drop (Z.to_nat p) ds.

(** [repr(x)], which is also [str(x)], for a float. *)
Definition repr (x : spec_float) : string :=
  match x with
  | S754_nan => "nan"
  | S754_infinity neg => sign_str neg +:+ "inf"
  | S754_zero neg => sign_str neg +:+ "0.0"
  | S754_finite neg m e =>
      let '(c, k) := shortest 17 m e (decpt m e) 1 in
      let '(c, k) := drop_zeros 20 c k in
      let ds := Py.nat_str c in
      sign_str neg +:+ layout ds (Z.of_nat (String.length ds) + k)
  end.

End F64.

Module F32.

Definition prec : Z := 24.
Definition emax : Z := 128.

Definition zero : spec_float := S754_zero false.
Definition one : spec_float := binary_normalize prec emax 1 0 false.

(** The float32 nearest to a binary64 value: the conversion NumPy applies
    to a Python [float] operand of a float32 array, whose type the result
    keeps. (Releases before 2.0 widen the result to float64 instead when
    the operand is finite and beyond the float32 range.) *)
Definition of_f64 (x : spec_float) : spec_float :=
  match x with
  | S754_finite neg m e => binary_round prec emax neg m e
  | _ => x
  end.

Definition mul := SFmul prec emax.

Definition is_nan (x : spec_float) : bool :=
  match x with S754_nan => true | _ => false end.

Definition is_finite (x : spec_float) : bool :=
  match x with S754_zero _ | S754_finite _ _ _ => true | _ => false end.

(** [np.clip(x, lo, hi)] on one element, for bounds that are no NaN, as
    the two here: an element below [lo] becomes [lo], an element above
    [hi] becomes [hi], and every other element is kept as it is, a NaN
    and a zero of either sign among them ([-0.0] is not below [0.0]). *)
Definition clip (x lo hi : spec_float) : spec_float :=
  let y := if SFltb x lo then lo else x in
  if SFltb hi y then hi else y.

(** [lo <= x <= hi] as floats compare. *)
Definition within (lo hi x : spec_float) : bool := SFleb lo x && SFleb x hi.

End F32.

(** ** Exceptions *)

Inductive exn : Type :=
  | KeyError (key : string)
  | ValueError (msg : string)
  | TypeError (msg : string)
  | FileNotFoundError (path : string)
  | OSError (msg : string)
  | OverflowError (msg : string).

Inductive result (A : Type) : Type :=
  | Ok (a : A)
  | Raise (e : exn).

Arguments Ok {A} a.
Arguments Raise {A} e.

(** ** Header values

    What [read_header] stores under a key: a [str], an [int], a list of
    floats or a list of [str]. *)

Inductive value : Type :=
  | VStr (s : string)
  | VInt (n : Z)
  | VFloats (l : list spec_float)
  | VStrs (l : list string).

(** ** [read_header] *)

Definition LF : ascii := "010"%char.
Definition CR : ascii := "013"%char.

(** [f.readlines()] of a file opened in text mode: the lines with their
    terminator, every terminator read as a line feed. *)
Fixpoint readlines (s : string) : list string :=
  match s with
  | "" => []
  | String c s' =>
      if Ascii.eqb c LF then String LF "" :: readlines s'
      else if Ascii.eqb c CR then
        match s' with
        | String d s'' =>
            if Ascii.eqb d LF then String LF "" :: readlines s''
            else String LF "" :: readlines s'
        | "" => [String LF ""]
        end
      else
        match readlines s' with
        | [] => [String c ""]
        | l :: ls => String c l :: ls
        end
  end.

(** The variables of the loop of [read_header]. *)
Record reader : Type := mkReader {
  header_info : gmap string value;
  current_array : option string;
  array_data : list string
}.

Definition reader_init : reader :=
  {| header_info := ∅; current_array := None; array_data := [] |}.

(** Truth value of [current_array]: [None] and the empty key are false. *)
Definition collecting (st : reader) : option string :=
  match current_array st with
  | Some k => if String.eqb k "" then None else Some k
  | None => None
  end.

(** [[x.strip() for x in s.split(',')]] *)
Definition split_strip (s : string) : list string :=
  map Py.strip (Py.split "," s).

Definition nonempty (s : string) : bool := negb (String.eqb s "").

(** [[float(x) for x in l]]: [None] when some [float(x)] raises. *)
Fixpoint floats (l : list string) : option (list spec_float) :=
  match l with
  | [] => Some []
  | x :: r =>
      match F64.parse x with
      | Some f => option_map (cons f) (floats r)
      | None => None
      end
  end.

(** Lines 38-41: the collected pieces as floats, the empty ones dropped,
    or the pieces as they are when one of them is no float. *)
Definition close_array (data : list string) : value :=
  match floats (List.filter nonempty data) with
  | Some fs => VFloats fs
  | None => VStrs data
  end.

(** Lines 56-62: a value with both braces on its line. *)
Definition braced_text (val : string) : string :=
  Py.strip (Py.item (Py.split "}" (Py.item (Py.split "{" val) 1)) 0).

Definition inline_array (val : string) : value :=
  let v := braced_text val in
  if Py.has_char "," v then
    let pieces := List.filter nonempty (split_strip v) in
    match floats pieces with
    | Some fs => VFloats fs
    | None => VStrs pieces
    end
  else VStr v.

Definition numeric_keys : list string := ["samples"; "lines"; "bands"; "data type"].

Definition is_numeric_key (key : string) : bool :=
  existsb (String.eqb key) numeric_keys.

(** Lines 65-69: [int(value)] for the numeric keys; a [ValueError] leaves
    the value as it is, while [int] of a list is a [TypeError], which the
    handler does not catch. *)
Definition int_of_list : exn :=
  TypeError "int() argument must be a string, a bytes-like object or a real number, not 'list'".

Definition convert_numeric (key : string) (v : value) : result value :=
  if is_numeric_key key then
    match v with
    | VStr s => match Py.int s with Some n => Ok (VInt n) | None => Ok v end
    | VInt n => Ok v
    | VFloats _ | VStrs _ => Raise int_of_list
    end
  else Ok v.

(** Lines 56-69: the value stored for [key = val] when [val] does not open
    a list that continues on the next lines. *)
Definition decode (key val : string) : result value :=
  convert_numeric key
    (if Py.has_char "{" val && Py.has_char "}" val
     then inline_array val else VStr val).

(** One iteration of the loop over the lines (lines 26-71). *)
Definition read_line (st : reader) (raw : string) : result reader :=
  let line := Py.strip raw in
  if String.eqb line "" then Ok st
  else
    match collecting st with
    | Some cur =>
        if negb (Py.has_char "}" line) then
          Ok {| header_info := header_info st;
                current_array := current_array st;
                array_data := array_data st ++ split_strip line |}
        else
          let data := array_data st ++ split_strip (Py.item (Py.split "}" line) 0) in
          Ok {| header_info := <[cur := close_array data]> (header_info st);
                current_array := None;
                array_data := [] |}
    | None =>
        if Py.has_char "=" line then
          let '(k, v) := Py.split1 "=" line in
          let key := Py.lower (Py.strip k) in
          let val := Py.strip (default "" v) in
          if Py.has_char "{" val && negb (Py.has_char "}" val) then
            Ok {| header_info := header_info st;
                  current_array := Some key;
                  array_data := split_strip (Py.item (Py.split "{" val) 1) |}
          else
            match decode key val with
            | Ok v2 =>
                Ok {| header_info := <[key := v2]> (header_info st);
                      current_array := current_array st;
                      array_data := array_data st |}
            | Raise e => Raise e
            end
        else Ok st
    end.

Fixpoint read_lines (st : reader) (lines : list string) : result reader :=
  match lines with
  | [] => Ok st
  | l :: rest =>
      match read_line st l with
      | Ok st' => read_lines st' rest
      | Raise e => Raise e
      end
  end.

(** [read_header] on the text of the header file. *)
Definition read_header_text (text : string) : result (gmap string value) :=
  match read_lines reader_init (readlines text) with
  | Ok st => Ok (header_info st)
  | Raise e => Raise e
  end.

(** ** Python operations on header values *)

Definition hex_digit (n : Z) : ascii :=
  if n <? 10 then Py.chr (48 + n) else Py.chr (87 + n).

(** Whether [repr] shows the character as it is. *)
Definition printable (c : ascii) : bool :=
  let n := Py.code c in
  ((32 <=? n) && (n <? 127)) || ((161 <=? n) && negb (n =? 173)).

Definition repr_char (quote : ascii) (c : ascii) : string :=
  let n := Py.code c in
  if Ascii.eqb c quote || Ascii.eqb c "\"%char then String "\"%char (String c "")
  else if n =? 9 then "\t"
  else if n =? 10 then "\n"
  else if n =? 13 then "\r"
  else if printable c then String c ""
  else String "\"%char (String "x"%char
         (String (hex_digit (n / 16)) (String (hex_digit (n mod 16)) ""))).

Fixpoint repr_chars (quote : ascii) (s : string) : string :=
  match s with
  | "" => ""
  | String c s' => repr_char quote c +:+ repr_chars quote s'
  end.

(** [repr(s)] for a [str]: single quotes, unless [s] holds a single quote
    and no double quote (code 34). *)
Definition repr_str (s : string) : string :=
  let quote :=
    if Py.has_char "'"%char s && negb (Py.has_char (Py.chr 34) s)
    then Py.chr 34 else "'"%char in
  String quote (repr_chars quote s) +:+ String quote "".

(** [str(v)], as an f-string field shows a header value. *)
Definition str_value (v : value) : string :=
  match v with
  | VStr s => s
  | VInt n => Py.str_int n
  | VFloats l => "[" +:+ Py.join ", " (map F64.repr l) +:+ "]"
  | VStrs l => "[" +:+ Py.join ", " (map repr_str l) +:+ "]"
  end.

(** Truth value of a header value. *)
Definition truthy (v : value) : bool :=
  match v with
  | VStr s => nonempty s
  | VInt n => negb (n =? 0)
  | VFloats l => match l with [] => false | _ => true end
  | VStrs l => match l with [] => false | _ => true end
  end.

(** [len(v)]: an [int] has none. *)
Definition len (v : value) : result nat :=
  match v with
  | VStr s => Ok (String.length s)
  | VInt _ => Raise (TypeError "object of type 'int' has no len()")
  | VFloats l => Ok (length l)
  | VStrs l => Ok (length l)
  end.

Fixpoint list_eqb {A : Type} (eqb : A -> A -> bool) (l1 l2 : list A) : bool :=
  match l1, l2 with
  | [], [] => true
  | x :: r1, y :: r2 => eqb x y && list_eqb eqb r1 r2
  | _, _ => false
  end.

(** [a == b] on header values of two different headers. *)
Definition value_eqb (a b : value) : bool :=
  match a, b with
  | VStr s, VStr t => String.eqb s t
  | VInt n, VInt m => n =? m
  | VFloats l1, VFloats l2 => list_eqb SFeqb l1 l2
  | VStrs l1, VStrs l2 => list_eqb String.eqb l1 l2
  | VFloats [], VStrs [] | VStrs [], VFloats [] => true
  | _, _ => false
  end.

(** [d[key]] *)
Definition getitem (d : gmap string value) (key : string) : result value :=
  match d !! key with
  | Some v => Ok v
  | None => Raise (KeyError key)
  end.

(** ** The file store

    A file is held in the form its writer gave it: a header as its text, a
    cube as the float32 elements in file order. A cube of no element is
    the file of a mapping of an empty shape, which NumPy backs with one
    zero byte; the file of no byte is the empty text. Paths are compared
    as they are written. Reading a file in the other form raises. *)

Inductive file : Type :=
  | Text (s : string)
  | Cube (d : list spec_float).

(** A computation on the store: its outcome and the store it leaves. *)
Definition M (A : Type) : Type := gmap string file -> result A * gmap string file.

Definition ret {A : Type} (a : A) : M A := fun fs => (Ok a, fs).

Definition raise {A : Type} (e : exn) : M A := fun fs => (Raise e, fs).

Definition bind {A B : Type} (k : A -> M B) (c : M A) : M B :=
  fun fs =>
    match c fs with
    | (Ok a, fs') => k a fs'
    | (Raise e, fs') => (Raise e, fs')
    end.

Definition lift {A : Type} (r : result A) : M A := fun fs => (r, fs).

#[global] Instance M_ret : MRet M := @ret.
#[global] Instance M_bind : MBind M := @bind.

(** [for x in l: body(x)] *)
Fixpoint for_each {A : Type} (l : list A) (body : A -> M unit) : M unit :=
  match l with
  | [] => ret tt
  | x :: rest => body x ;; for_each rest body
  end.

(** [read_header(header_file)] *)
Definition read_header (header_file : string) : M (gmap string value) :=
  fun fs =>
    match fs !! header_file with
    | Some (Text t) => (read_header_text t, fs)
    | Some (Cube _) => (Raise (ValueError "not a text file"), fs)
    | None => (Raise (FileNotFoundError header_file), fs)
    end.

(** [np.memmap(path, dtype=np.float32, mode='w+', shape=...)]: the file is
    created or truncated on opening and then sized to the product of the
    dimensions, all elements zero; a shape with a zero in it is mapped as
    any other, and the array of a shape with a negative dimension is
    refused after the file is sized. With a dimension that is no integer
    the size cannot be computed, and the file stays as it was opened.
    Returns the shape. *)
Definition memmap_create (path : string) (nbands nlines nsamples : value)
  : M (Z * Z * Z) :=
  fun fs =>
    match nbands, nlines, nsamples with
    | VInt b, VInt l, VInt s =>
        let fs' := <[path := Cube (repeat F32.zero (Z.to_nat (b * l * s)))]> fs in
        if (b <? 0) || (l <? 0) || (s <? 0)
        then (Raise (ValueError "negative dimensions are not allowed"), fs')
        else (Ok (b, l, s), fs')
    | _, _, _ =>
        (Raise (TypeError "shape is not a tuple of integers"),
         <[path := Text ""]> fs)
    end.

(** [np.memmap(path, dtype=np.float32, mode='r', shape=...)] with [n]
    elements: the file must exist and hold at least [n] elements; a
    mapping of no element is made over any cube, also over one of no
    element, which is no empty file. *)
Definition memmap_open (path : string) (n : nat) : M unit :=
  fun fs =>
    match fs !! path with
    | Some (Cube d) =>
        if (n <=? length d)%nat then (Ok tt, fs)
        else (Raise (ValueError "mmap length is greater than file size"), fs)
    | Some (Text _) => (Raise (ValueError "not a cube file"), fs)
    | None => (Raise (FileNotFoundError path), fs)
    end.

(** Elements [off .. off+n) of a mapped file. *)
Definition read_view (path : string) (off n : nat) : M (list spec_float) :=
  fun fs =>
    match fs !! path with
    | Some (Cube d) => (Ok (firstn n (skipn off d)), fs)
    | _ => (Raise (OSError "file is not mapped"), fs)
    end.

Definition overwrite {A : Type} (d : list A) (off : nat) (new : list A) : list A :=
  firstn off d ++ new ++ skipn (off + length new) d.

(** Assignment to elements [off ..) of a mapped file, flushed. *)
Definition write_view (path : string) (off : nat) (new : list spec_float) : M unit :=
  fun fs =>
    match fs !! path with
    | Some (Cube d) => (Ok tt, <[path := Cube (overwrite d off new)]> fs)
    | _ => (Raise (OSError "file is not mapped"), fs)
    end.

(** [open(path, 'w')] followed by the writes and the close. *)
Definition write_text (path : string) (text : string) : M unit :=
  fun fs => (Ok tt, <[path := Text text]> fs).

(** ** [range] *)

Fixpoint range_up (fuel : nat) (start stop step : Z) : list Z :=
  match fuel with
  | O => []
  | S f => if start <? stop then start :: range_up f (start + step) stop step
           else []
  end.

Fixpoint range_down (fuel : nat) (start stop step : Z) : list Z :=
  match fuel with
  | O => []
  | S f => if stop <? start then start :: range_down f (start + step) stop step
           else []
  end.

(** [range(start, stop, step)] *)
Definition range (start stop step : Z) : result (list Z) :=
  if step =? 0 then Raise (ValueError "range() arg 3 must not be zero")
  else if 0 <? step then Ok (range_up (Z.to_nat (stop - start)) start stop step)
  else Ok (range_down (Z.to_nat (start - stop)) start stop step).

(** ** [apply_enhanced_radiometric_correction] *)

(** The [dict]s [reflectance_files] and [radiance_files], with their keys
    ['data'] and ['header']. *)
Record files : Type := mkFiles { data : string; header : string }.

Definition dimension_mismatch : exn :=
  ValueError "Dimension mismatch between reflectance and radiance data".

(** Lines 96-99: the three comparisons, left to right, the first
    difference raising. *)
Definition check_dimensions (refl_header rad_header : gmap string value) : result unit :=
  match getitem refl_header "samples", getitem rad_header "samples" with
  | Raise e, _ | Ok _, Raise e => Raise e
  | Ok s1, Ok s2 =>
      if negb (value_eqb s1 s2) then Raise dimension_mismatch
      else
        match getitem refl_header "lines", getitem rad_header "lines" with
        | Raise e, _ | Ok _, Raise e => Raise e
        | Ok l1, Ok l2 =>
            if negb (value_eqb l1 l2) then Raise dimension_mismatch
            else
              match getitem refl_header "bands", getitem rad_header "bands" with
              | Raise e, _ | Ok _, Raise e => Raise e
              | Ok b1, Ok b2 =>
                  if negb (value_eqb b1 b2) then Raise dimension_mismatch
                  else Ok tt
              end
        end
  end.

(** Line 105: the three dimensions are formatted for the report, which
    raises for an [int] of more digits than [str] writes; a text and a
    list are formatted whatever they hold. *)
Definition formattable (v : value) : bool :=
  match v with
  | VInt n => Py.str_int_allowed n
  | _ => true
  end.

Definition too_many_digits : exn :=
  ValueError "Exceeds the limit (4300 digits) for integer string conversion; use sys.set_int_max_str_digits() to increase the limit".

Definition report_dimensions (nbands nlines nsamples : value) : result unit :=
  if formattable nbands && formattable nlines && formattable nsamples
  then Ok tt
  else Raise too_many_digits.

(** Lines 109-110: [len(wavelengths)] is evaluated when the table is true. *)
Definition report_wavelengths (wavelengths : option value) : result unit :=
  match wavelengths with
  | Some w => if truthy w then
                match len w with Ok _ => Ok tt | Raise e => Raise e end
              else Ok tt
  | None => Ok tt
  end.

Definition default_scale : spec_float := F64.of_Z 1000.

(** Lines 126-132 on the lowered text of the description. *)
Definition scale_of_text (desc : string) : spec_float :=
  if Py.contains "mw" desc && Py.has_char "*" desc then
    let scale_str :=
      Py.strip (Py.item (Py.split "]" (Py.last_item (Py.split "*" desc))) 0) in
    match F64.parse scale_str with
    | Some f => f
    | None => default_scale
    end
  else default_scale.

(** Lines 121-142: the radiance scale factor of the radiance header. *)
Definition radiance_scale (rad_header : gmap string value) : spec_float :=
  match rad_header !! "description" with
  | Some (VStr desc) => scale_of_text (Py.lower desc)
  | Some (VFloats desc) =>
      scale_of_text (Py.lower (Py.join " " (map F64.repr desc)))
  | Some (VStrs desc) => scale_of_text (Py.lower (Py.join " " desc))
  | Some (VInt _) | None => default_scale
  end.

Definition f64_one : spec_float := F64.of_Z 1.

(** [1.0 + (wavelength - 500) / 1000.0] *)
Definition wavelength_factor (wavelength : spec_float) : spec_float :=
  F64.add f64_one (F64.div (F64.sub wavelength (F64.of_Z 500)) (F64.of_Z 1000)).

Definition not_a_number : exn :=
  TypeError "unsupported operand type(s) for -: 'str' and 'int'".

(** Lines 153-158: the correction factor of a band. *)
Definition correction_factor (wavelengths : option value) (band : nat)
  : result spec_float :=
  match wavelengths with
  | None => Ok f64_one
  | Some w =>
      if truthy w then
        match len w with
        | Raise e => Raise e
        | Ok n =>
            if (band <? n)%nat then
              match w with
              | VFloats l => Ok (wavelength_factor (nth band l S754_nan))
              | _ => Raise not_a_number
              end
            else Ok f64_one
        end
      else Ok f64_one
  end.

(** Lines 167-170 on one element: the product with the factor, as float32,
    clipped to [0, 1]. *)
Definition correct_element (correction_factor : spec_float) (x : spec_float)
  : spec_float :=
  F32.clip (F32.mul x (F32.of_f64 correction_factor)) F32.zero F32.one.

(** Line 161: [min(chunk_start + chunk_size, nlines)] *)
Definition chunk_end (chunk_start chunk_size nlines : Z) : Z :=
  Z.min (chunk_start + chunk_size) nlines.

(** Lines 161-176: one chunk of a band, read from the input view and
    assigned to the same rows of the output view. *)
Definition process_chunk (input output : string) (nlines nsamples : Z)
    (band : Z) (correction_factor : spec_float) (chunk_size chunk_start : Z)
  : M unit :=
  let chunk_end := chunk_end chunk_start chunk_size nlines in
  let off := Z.to_nat ((band * nlines + chunk_start) * nsamples) in
  let n := Z.to_nat ((chunk_end - chunk_start) * nsamples) in
  chunk ← read_view input off n;
  write_view output off (map (correct_element correction_factor) chunk).

(** Lines 150-176: one band. *)
Definition process_band (input output : string) (nlines nsamples : Z)
    (wavelengths : option value) (chunk_size : Z) (band : Z) : M unit :=
  factor ← lift (correction_factor wavelengths (Z.to_nat band));
  starts ← lift (range 0 nlines chunk_size);
  for_each starts (process_chunk input output nlines nsamples band factor chunk_size).

Definition nl : string := String LF "".

(** One [f.write(f"key = {v}\n")]. *)
Definition field_line (key : string) (v : string) : string :=
  key +:+ " = " +:+ v +:+ nl.

(** The field of [rad_header] under [key], when present (lines 200-207). *)
Definition optional_field (rad_header : gmap string value) (key : string) : string :=
  match rad_header !! key with
  | Some v => field_line key (str_value v)
  | None => ""
  end.

(** Lines 183-192. *)
Definition fixed_fields (nsamples nlines nbands : Z) : string :=
  "ENVI" +:+ nl +:+
  "description = {Radiometrically corrected reflectance data}" +:+ nl +:+
  field_line "samples" (Py.str_int nsamples) +:+
  field_line "lines" (Py.str_int nlines) +:+
  field_line "bands" (Py.str_int nbands) +:+
  "header offset = 0" +:+ nl +:+
  "file type = ENVI Standard" +:+ nl +:+
  "data type = 4" +:+ nl +:+
  "interleave = bsq" +:+ nl +:+
  "byte order = 0" +:+ nl.

(** Lines 195-198: what is written for the wavelengths, and the exception
    that stops the writing, if any: only floats take the format [0.6f]. *)
Definition wavelength_field (wavelengths : option value) : string * option exn :=
  match wavelengths with
  | None => ("", None)
  | Some w =>
      if truthy w then
        match w with
        | VFloats l =>
            ("wavelength = {" +:+ nl +:+
             Py.join ("," +:+ nl) (map (fun x => " " +:+ F64.format_6f x) l) +:+
             "}" +:+ nl, None)
        | VInt _ =>
            ("wavelength = {" +:+ nl, Some (TypeError "'int' object is not iterable"))
        | _ =>
            ("wavelength = {" +:+ nl,
             Some (ValueError "Unknown format code 'f' for object of type 'str'"))
        end
      else ("", None)
  end.

(** Lines 200-207. *)
Definition copied_fields (rad_header : gmap string value) : string :=
  optional_field rad_header "wavelength units" +:+
  optional_field rad_header "acquisition date" +:+
  optional_field rad_header "sensor type".

(** Lines 183-207: the text of the output header, as far as the writing
    gets, and the exception that stops it, if any. *)
Definition header_text (nsamples nlines nbands : Z)
    (wavelengths : option value) (rad_header : gmap string value)
  : string * option exn :=
  let '(wl, stop) := wavelength_field wavelengths in
  match stop with
  | Some e => (fixed_fields nsamples nlines nbands +:+ wl, Some e)
  | None =>
      (fixed_fields nsamples nlines nbands +:+ wl +:+ copied_fields rad_header,
       None)
  end.

(** Lines 182-207: the header of the output. *)
Definition write_header (output_header : string) (nsamples nlines nbands : Z)
    (wavelengths : option value) (rad_header : gmap string value) : M unit :=
  let '(text, stop) := header_text nsamples nlines nbands wavelengths rad_header in
  write_text output_header text;;
  match stop with
  | Some e => raise e
  | None => mret tt
  end.

(** [range(nbands)] *)
Definition band_indices (nbands : Z) : list Z :=
  map Z.of_nat (seq 0 (Z.to_nat nbands)).

(** Lines 95-210: the function after the two headers are read. *)
Definition correct (refl_header rad_header : gmap string value)
    (reflectance_data : string) (chunk_size : Z) : M string :=
  lift (check_dimensions refl_header rad_header);;
  nbands ← lift (getitem refl_header "bands");
  nlines ← lift (getitem refl_header "lines");
  nsamples ← lift (getitem refl_header "samples");
  lift (report_dimensions nbands nlines nsamples);;
  let wavelengths := rad_header !! "wavelength" in
  lift (report_wavelengths wavelengths);;
  let output_file := Py.replace "reflectance" "radcorr" reflectance_data in
  '(nb, nl, ns) ← memmap_create output_file nbands nlines nsamples;
  let radiance_scale := radiance_scale rad_header in
  memmap_open reflectance_data (Z.to_nat (nb * nl * ns));;
  for_each (band_indices nb)
    (process_band reflectance_data output_file nl ns wavelengths chunk_size);;
  let output_header := output_file +:+ ".hdr" in
  write_header output_header ns nl nb wavelengths rad_header;;
  mret output_file.

Definition apply_enhanced_radiometric_correction
    (reflectance_files radiance_files : files) (chunk_size : Z) : M string :=
  refl_header ← read_header (header reflectance_files);
  rad_header ← read_header (header radiance_files);
  correct refl_header rad_header (data reflectance_files) chunk_size.

(** * [hyperspectral_viewer.py]

    The class [HyperspectralViewer] up to the creation of its window: the
    header reader of the viewer and the mapping of the cube. The scripts
    of the repository give it the output of the correction,
    [afx102_1_2026_radcorr.dat] and its header. *)

Module Viewer.

(** The header under construction and the two variables of the loop of
    [load_header]. *)
Record loader : Type := mkLoader {
  header : gmap string value;
  current_key : option string;
  current_value : list string
}.

Definition loader_init : loader :=
  {| header := ∅; current_key := None; current_value := [] |}.

(** Truth value of [current_key]: [None] and the empty key are false. *)
Definition pending (st : loader) : option string :=
  match current_key st with
  | Some k => if String.eqb k "" then None else Some k
  | None => None
  end.

(** [process_value] (lines 56-66): the pieces joined with a comma and a
    blank; with a comma in the text, the floats of its non-blank parts,
    otherwise its [int]; the text itself when the conversion raises
    [ValueError]. *)
Definition process_value (value_list : list string) : value :=
  let val := Py.strip (Py.join ", " value_list) in
  if Py.has_char "," val then
    match floats (map Py.strip
                    (List.filter (fun x => nonempty (Py.strip x))
                       (Py.split "," val))) with
    | Some fs => VFloats fs
    | None => VStr val
    end
  else
    match Py.int val with
    | Some n => VInt n
    | None => VStr val
    end.

(** Lines 32-34: a key that is still pending when the next [key = value]
    line comes is stored with the pieces collected so far. *)
Definition flush (st : loader) : loader :=
  match pending st with
  | Some cur =>
      {| header := <[cur := process_value (current_value st)]> (header st);
         current_key := current_key st;
         current_value := [] |}
  | None => st
  end.

(** One iteration of the loop over the lines (lines 26-54). The list
    [current_value] is emptied by [flush] only. *)
Definition load_line (st : loader) (raw : string) : loader :=
  let line := Py.strip raw in
  if String.eqb line "" then st
  else if Py.has_char "=" line then
    let st1 := flush st in
    let '(k, v) := Py.split1 "=" line in
    let key := Py.lower (Py.strip k) in
    let val := Py.strip (default "" v) in
    if Py.has_char "{" val && Py.has_char "}" val then
      {| header := <[key := process_value [braced_text val]]> (header st1);
         current_key := None;
         current_value := current_value st1 |}
    else if Py.has_char "{" val then
      {| header := header st1;
         current_key := Some key;
         current_value := current_value st1 ++ [Py.item (Py.split "{" val) 1] |}
    else
      {| header := <[key := process_value [val]]> (header st1);
         current_key := None;
         current_value := current_value st1 |}
  else
    match pending st with
    | Some cur =>
        if Py.has_char "}" line then
          let pieces := current_value st ++ [Py.item (Py.split "}" line) 0] in
          {| header := <[cur := process_value pieces]> (header st);
             current_key := None;
             current_value := pieces |}
        else
          {| header := header st;
             current_key := current_key st;
             current_value := current_value st ++ [line] |}
    | None => st
    end.

Definition load_lines (st : loader) (lines : list string) : loader :=
  fold_left load_line lines st.

(** [load_header] on the text of the header file: [self.header]. *)
Definition load_header_text (text : string) : gmap string value :=
  header (load_lines loader_init (readlines text)).

(** [load_header(header_file)] *)
Definition load_header (header_file : string) : M (gmap string value) :=
  fun fs =>
    match fs !! header_file with
    | Some (Text t) => (Ok (load_header_text t), fs)
    | Some (Cube _) => (Raise (ValueError "not a text file"), fs)
    | None => (Raise (FileNotFoundError header_file), fs)
    end.

(** [np.memmap(path, dtype=np.float32, mode='r', shape=...)] on header
    values: the file is opened first; the size of a shape that is not
    three integers cannot be computed; no mapping has a negative length;
    the file must hold the elements of the shape, of which there may be
    none; the array of a shape with a negative dimension is refused.
    Returns the shape. *)
Definition memmap_read (path : string) (nbands nlines nsamples : value)
  : M (Z * Z * Z) :=
  fun fs =>
    match fs !! path with
    | None => (Raise (FileNotFoundError path), fs)
    | Some _ =>
        match nbands, nlines, nsamples with
        | VInt b, VInt l, VInt s =>
            if b * l * s <? 0
            then (Raise (OverflowError "memory mapped length must be positive"), fs)
            else
              (memmap_open path (Z.to_nat (b * l * s));;
               if (b <? 0) || (l <? 0) || (s <? 0)
               then raise (ValueError "negative dimensions are not allowed")
               else mret (b, l, s)) fs
        | _, _, _ => (Raise (TypeError "shape is not a tuple of integers"), fs)
        end
    end.

(** [self.wavelengths]: the table of the header, whatever it holds, or
    [np.arange(self.bands)]. *)
Inductive axis : Type :=
  | FromHeader (v : value)
  | Arange (n : Z).

(** The attributes [load_data] sets. *)
Record viewer : Type := mkViewer {
  samples : Z;
  lines : Z;
  bands : Z;
  data : string;
  wavelengths : axis
}.

(** [load_data] (lines 68-78) *)
Definition load_data (h : gmap string value) (data_file : string) : M viewer :=
  nsamples ← lift (getitem h "samples");
  nlines ← lift (getitem h "lines");
  nbands ← lift (getitem h "bands");
  '(b, l, s) ← memmap_read data_file nbands nlines nsamples;
  mret {| samples := s; lines := l; bands := b; data := data_file;
          wavelengths := match h !! "wavelength" with
                         | Some w => FromHeader w
                         | None => Arange b
                         end |}.

(** [__init__] before [create_gui]. *)
Definition init (data_file header_file : string) : M viewer :=
  h ← load_header header_file;
  load_data h data_file.

End Viewer.

(** * [segmentaion.py]

    The arithmetic of [load_subset_hyperspectral] and the function
    [reconstruct_image]; the clustering between them is the work of
    libraries. *)

Module Segmentation.

(** Lines 20-25: the size of the subset and the corner of the centred
    window, from the requested size and the rows and columns of the
    image. *)
Definition subset_window (subset_size : Z * Z) (rows cols : Z)
  : (Z * Z) * (Z * Z) :=
  let subset_rows := Z.min (fst subset_size) rows in
  let subset_cols := Z.min (snd subset_size) cols in
  let start_row := (rows - subset_rows) / 2 in
  let start_col := (cols - subset_cols) / 2 in
  ((subset_rows, subset_cols), (start_row, start_col)).

(** A bound of a slice along an axis of [n] elements: a negative bound
    counts from the end, and a bound beyond an end is that end. *)
Definition slice_bound (n i : Z) : Z :=
  if i <? 0 then Z.max (i + n) 0 else Z.min i n.

(** The number of elements of [a[start:stop]] along that axis (lines
    31-32). *)
Definition slice_length (n start stop : Z) : Z :=
  Z.max 0 (slice_bound n stop - slice_bound n start).

(** The exceptions of NumPy that [reconstruct_image] can meet. *)
Inductive error : Type :=
  | IndexError (msg : string)
  | ValueError (msg : string).

(** [a[mask]] on an array of one dimension (line 43): the elements where
    the mask is true. *)
Fixpoint select {A : Type} (mask : list bool) (a : list A) : list A :=
  match mask, a with
  | true :: m, x :: r => x :: select m r
  | false :: m, _ :: r => select m r
  | _, _ => []
  end.

(** The number of true elements of a mask. *)
Definition count (mask : list bool) : nat := length (List.filter id mask).

(** The elements of [a], those where the mask is true replaced by the
    values in their order. *)
Fixpoint put_masked {A : Type} (a : list A) (mask : list bool) (values : list A)
  : list A :=
  match a, mask with
  | x :: r, true :: m =>
      match values with
      | v :: vs => v :: put_masked r m vs
      | [] => x :: put_masked r m []
      end
  | x :: r, false :: m => x :: put_masked r m values
  | _, _ => a
  end.

(** [a[mask] = values] on arrays of one dimension (line 86): the mask has
    the length of [a]; the values are as many as the mask has true
    elements, or a single value, which goes to each of them. *)
Definition assign_masked {A : Type} (a : list A) (mask : list bool)
    (values : list A) : list A + error :=
  if negb (length mask =? length a)%nat then
    inr (IndexError "boolean index did not match indexed array along axis 0")
  else if (length values =? count mask)%nat then inl (put_masked a mask values)
  else
    match values with
    | [v] => inl (put_masked a mask (repeat v (count mask)))
    | _ => inr (ValueError "NumPy boolean array indexing assignment cannot assign the input values to the output values where the mask is true")
    end.

(** [a.reshape(nrows, ncols)] as the list of its rows. *)
Fixpoint rows_of {A : Type} (nrows ncols : nat) (a : list A) : list (list A) :=
  match nrows with
  | O => []
  | S r => firstn ncols a :: rows_of r ncols (skipn ncols a)
  end.

(** [reconstruct_image] (lines 80-90) on the labels of a clustering, which
    are integers, the two dimensions of the image and the mask of the
    valid pixels; the exceptions are raised again as they are. *)
Definition reconstruct_image (labels : list Z) (image_shape : Z * Z)
    (valid_pixels : list bool) : list (list spec_float) + error :=
  let '(nrows, ncols) := image_shape in
  if nrows * ncols <? 0 then inr (ValueError "negative dimensions are not allowed")
  else
    let full_labels := repeat (S754_zero false) (Z.to_nat (nrows * ncols)) in
    match assign_masked full_labels valid_pixels (map F64.of_Z labels) with
    | inr e => inr e
    | inl full_labels =>
        if (nrows <? 0) || (ncols <? 0)
        then inr (ValueError "cannot reshape array into this shape")
        else inl (rows_of (Z.to_nat nrows) (Z.to_nat ncols) full_labels)
    end.

End Segmentation.

(** * Vocabulary of the statements *)

(** The floats 500.0, 1500.0 and 2.0. *)
Definition f64_500 : spec_float := F64.of_Z 500.

Definition f64_1500 : spec_float := F64.of_Z 1500.

Definition f64_two : spec_float := F64.of_Z 2.

(** The float32 value 0.5. *)
Definition f32_half : spec_float := binary_normalize F32.prec F32.emax 1 (-1) false.

(** The header has the three dimension keys. *)
Definition declares_dimensions (h : gmap string value) : Prop :=
  is_Some (h !! "samples") /\ is_Some (h !! "lines") /\ is_Some (h !! "bands").

(** The two headers give different values under [key]. *)
Definition differ_on (refl_header rad_header : gmap string value) (key : string) : Prop :=
  match refl_header !! key, rad_header !! key with
  | Some a, Some b => value_eqb a b = false
  | _, _ => False
  end.

(** The store is as the two mappings leave it: the output file has
    [total] elements, the input file at least as many. *)
Definition mapped (input output : string) (total : nat)
    (fs : gmap string file) : Prop :=
  exists din dout,
    fs !! input = Some (Cube din) /\ fs !! output = Some (Cube dout) /\
    length dout = total /\ (total <= length din)%nat.

(** Where row [row] of band [band] starts in the file. *)
Definition row_offset (nlines nsamples band row : Z) : nat :=
  Z.to_nat ((band * nlines + row) * nsamples).

(** The rows from [row] to the end of the band, corrected in one
    assignment. *)
Definition rest_of_band (input output : string) (nlines nsamples band : Z)
    (factor : spec_float) (row : Z) (fs : gmap string file)
  : gmap string file :=
  match fs !! input, fs !! output with
  | Some (Cube din), Some (Cube dout) =>
      <[output := Cube (overwrite dout (row_offset nlines nsamples band row)
           (map (correct_element factor)
              (firstn (Z.to_nat ((nlines - row) * nsamples))
                 (skipn (row_offset nlines nsamples band row) din))))]> fs
  | _, _ => fs
  end.

(** A band in one assignment: what [process_band] does for every chunk
    size from 1 on. *)
Definition whole_band (input output : string) (nlines nsamples : Z)
    (wavelengths : option value) (band : Z) : M unit :=
  fun fs =>
    match correction_factor wavelengths (Z.to_nat band) with
    | Ok factor => (Ok tt, rest_of_band input output nlines nsamples band factor 0 fs)
    | Raise e => (Raise e, fs)
    end.

(** The heights of the chunks of a band, as lines 160 and 161 give
    them. *)
Definition chunk_heights (nlines chunk_size : Z) (starts : list Z) : list Z :=
  map (fun start => chunk_end start chunk_size nlines - start) starts.

(** Whether [val] has both braces on its line. *)
Definition braced (val : string) : bool :=
  Py.has_char "{" val && Py.has_char "}" val.

(** The text that is decoded: what stands between the braces, or the
    whole value. *)
Definition payload (val : string) : string :=
  if braced val then braced_text val else val.

(** Value coercion as the specification words it, for comparison: a comma
    gives the float list or the text, anything else the integer or the
    text, under every key. *)
Definition spec_coercion (val : string) : value :=
  if Py.has_char "," val then
    match floats (split_strip val) with
    | Some fs => VFloats fs
    | None => VStr val
    end
  else
    match Py.int val with
    | Some n => VInt n
    | None => VStr val
    end.

(** A reader inside the list of [wavelength], one field read before. *)
Definition reader_in_list : reader :=
  {| header_info := {[ "samples" := VInt 3 ]};
     current_array := Some "wavelength";
     array_data := [""] |}.

(** The float32 value 0.25. *)
Definition f32_quarter : spec_float :=
  binary_normalize F32.prec F32.emax 1 (-2) false.

(** Headers of a cube of one band, two lines and one sample. *)
Definition small_header : string :=
  "samples = 1" +:+ nl +:+ "lines = 2" +:+ nl +:+ "bands = 1" +:+ nl.

(** The same with a wavelength table. *)
Definition small_header_1500 : string :=
  small_header +:+ "wavelength = {1500, 1500}" +:+ nl.

(** The same with an infinite wavelength. *)
Definition small_header_inf : string :=
  small_header +:+ "wavelength = {inf, 500}" +:+ nl.

(** A header of another width. *)
Definition wide_header : string :=
  "samples = 2" +:+ nl +:+ "lines = 2" +:+ nl +:+ "bands = 1" +:+ nl.

(** The parsed header of that cube, and a store with the cube alone. *)
Definition small_dims : gmap string value :=
  {[ "samples" := VInt 1; "lines" := VInt 2; "bands" := VInt 1 ]}.

Definition small_store : gmap string file :=
  {[ "a_reflectance.dat" := Cube [f32_half; f32_quarter] ]}.

(** That header with a description. *)
Definition described (text : string) : gmap string value :=
  <["description" := VStr text]> small_dims.

(** The float that comes back for [w] from its six-decimal text. *)
Definition reread (w : spec_float) : spec_float :=
  match F64.parse (F64.format_6f w) with
  | Some f => f
  | None => S754_nan
  end.

(** The text the header writer produces for a model. *)
Definition serialize (nsamples nlines nbands : Z) (rad_header : gmap string value)
  : string :=
  fst (header_text nsamples nlines nbands (rad_header !! "wavelength") rad_header).

(** The float of 0.1234567. *)
Definition w_seven_decimals : spec_float := F64.of_decimal false 1234567 (-7).

(** The reader run over a text. *)
Definition feed (st : reader) (text : string) : result reader :=
  read_lines st (readlines text).

(** The reader after [key = v] outside a list. *)
Definition assign (st : reader) (key : string) (v : value) : reader :=
  {| header_info := <[key := v]> (header_info st);
     current_array := current_array st;
     array_data := array_data st |}.

(** A key as the writer writes it: it starts with no blank, has no [=] and
    is its own lowered and trimmed form. *)
Definition written_key (k : string) : Prop :=
  Py.lstrip k = k /\ k <> "" /\ Py.has_char "=" k = false
  /\ Py.lower (Py.strip (k +:+ " ")) = k.

(** A text field as the parser stores it: trimmed, on one line, without an
    opening brace. *)
Definition plain (v : string) : Prop :=
  Py.lstrip v = v /\ Py.rstrip v = v
  /\ Py.has_char LF v = false /\ Py.has_char CR v = false
  /\ Py.has_char "{" v = false.

(** One step of reading a numeral from the left. *)
Definition read_digit (acc d : Z) : Z := 10 * acc + d.

(** The characters of a numeral: digits and the minus sign. *)
Definition numeral_char (c : ascii) : bool :=
  Py.is_digit c || Ascii.eqb c "-".

(** The characters of [format(x, "0.6f")]. *)
Definition float_char (c : ascii) : bool :=
  Py.is_digit c || Py.has_char c "-.infa".

(** The reader after a list under [cur] is closed with [data]. *)
Definition closed (st : reader) (cur : string) (data : list string) : reader :=
  {| header_info := <[cur := close_array data]> (header_info st);
     current_array := None;
     array_data := [] |}.

(** One line of the wavelength list, before its separator. *)
Definition wl_line (x : spec_float) : string := " " +:+ F64.format_6f x.

(** The map with [key] set to what [o] holds, if anything. *)
Definition put (key : string) (o : option value) (m : gmap string value)
  : gmap string value :=
  match o with
  | Some v => <[key := v]> m
  | None => m
  end.

(** An optional text field of a well-formed model. *)
Definition text_field (o : option value) : Prop :=
  match o with
  | None => True
  | Some (VStr s) => plain s
  | Some _ => False
  end.

(** The optional wavelength table of a well-formed model: floats, at least
    one. *)
Definition float_table (o : option value) : Prop :=
  match o with
  | None => True
  | Some (VFloats (_ :: _)) => True
  | Some _ => False
  end.

(** A table as it comes back from its six-decimal text. *)
Definition reread_table (v : value) : value :=
  match v with
  | VFloats l => VFloats (map reread l)
  | _ => v
  end.

(** What the parser holds after the fixed fields of a written header. *)
Definition fixed_map (nsamples nlines nbands : Z) : gmap string value :=
  <["byte order" := VStr "0"]>
  (<["interleave" := VStr "bsq"]>
  (<["data type" := VInt 4]>
  (<["file type" := VStr "ENVI Standard"]>
  (<["header offset" := VStr "0"]>
  (<["bands" := VInt nbands]>
  (<["lines" := VInt nlines]>
  (<["samples" := VInt nsamples]>
  (<["description" := VStr "Radiometrically corrected reflectance data"]> ∅)))))))).

(** The reader outside a list, holding [m]. *)
Definition idle (m : gmap string value) : reader :=
  {| header_info := m; current_array := None; array_data := [] |}.

(** A line of a list laid out over lines: a text without a line break and
    without a closing brace. *)
Definition list_line (s : string) : Prop :=
  Py.has_char LF s = false /\ Py.has_char CR s = false
  /\ Py.has_char "}" s = false.

(** The pieces a line adds to the list that is collected: those between
    its commas, trimmed; none when the line is blank. *)
Definition line_pieces (s : string) : list string :=
  if String.eqb (Py.strip s) "" then [] else split_strip (Py.strip s).

(** The lines [lines], each with its terminator, in front of [rest]. *)
Definition lines_text (lines : list string) (rest : string) : string :=
  fold_right (fun l text => l +:+ nl +:+ text) rest lines.

(** A list laid out over lines: the key and the opening brace with the
    text [first] behind it, the lines [middle], and the line [last] with
    the closing brace and the text [tail] behind it. *)
Definition laid_out_list (key first : string) (middle : list string)
    (last tail : string) : string :=
  (key +:+ " = " +:+ String "{" first) +:+ nl +:+
  lines_text middle ((last +:+ String "}" tail) +:+ nl).

(** A value on the line of its key: trimmed, on one line, and not the
    opening of a list that goes on over the next lines. *)
Definition one_line_value (val : string) : Prop :=
  Py.lstrip val = val /\ Py.rstrip val = val
  /\ Py.has_char LF val = false /\ Py.has_char CR val = false
  /\ Py.has_char "{" val && negb (Py.has_char "}" val) = false.

(** A model with two wavelengths and one text field. *)
Definition model_rad : gmap string value :=
  {[ "wavelength" := VFloats [F64.of_Z 500; F64.of_Z 1500];
     "sensor type" := VStr "AFX10" ]}.

(** The computation changes no file outside [paths]. *)
Definition touches_only {A : Type} (paths : list string) (c : M A) : Prop :=
  forall fs p, ~ In p paths -> snd (c fs) !! p = fs !! p.

(** The header as far as it is written when the wavelengths cannot be
    formatted: the fixed fields and the line that opens the list. *)
Definition partial_header (nsamples nlines nbands : Z) : string :=
  fixed_fields nsamples nlines nbands +:+ "wavelength = {" +:+ nl.

(** The factor of a band; 1.0 where the table gives none. *)
Definition factor_at (wavelengths : option value) (band : nat) : spec_float :=
  match correction_factor wavelengths band with
  | Ok f => f
  | Raise _ => f64_one
  end.

(** Band [band] of a cube in file order. *)
Definition band_of (nlines nsamples : Z) (d : list spec_float) (band : nat)
  : list spec_float :=
  firstn (Z.to_nat (nlines * nsamples))
    (skipn (band * Z.to_nat (nlines * nsamples)) d).

(** Every band of the cube with its elements corrected by the factor of
    the band. *)
Definition corrected_cube (nbands nlines nsamples : Z)
    (wavelengths : option value) (d : list spec_float) : list spec_float :=
  flat_map
    (fun band => map (correct_element (factor_at wavelengths band))
                   (band_of nlines nsamples d band))
    (seq 0 (Z.to_nat nbands)).

(** That header with a wavelength of 1500 for its band. *)
Definition small_dims_1500 : gmap string value :=
  <["wavelength" := VFloats [F64.of_Z 1500]]> small_dims.

(** The header of a cube of no band. *)
Definition no_band_dims : gmap string value :=
  {[ "samples" := VInt 1; "lines" := VInt 2; "bands" := VInt 0 ]}.

(** The zero-filled cube of a shape. *)
Definition zero_cube (nbands nlines nsamples : Z) : file :=
  Cube (repeat F32.zero (Z.to_nat (nbands * nlines * nsamples))).

(** The header lacks one of the three dimension keys. *)
Definition lacks_dimension (h : gmap string value) : Prop :=
  h !! "samples" = None \/ h !! "lines" = None \/ h !! "bands" = None.

(** The cube that a run leaves when it reads its input from the file it
    has just created: every band holds the correction of 0.0 by its
    factor. *)
Definition corrected_zeros (nbands nlines nsamples : Z)
    (wavelengths : option value) : list spec_float :=
  flat_map
    (fun band => repeat (correct_element (factor_at wavelengths band) F32.zero)
                   (Z.to_nat (nlines * nsamples)))
    (seq 0 (Z.to_nat nbands)).

(** A NaN, or a value of [0, 1]. *)
Definition clipped (x : spec_float) : bool :=
  F32.is_nan x || F32.within F32.zero F32.one x.

(** The file at [path] is a cube of NaNs and values of [0, 1]. *)
Definition cube_clipped (path : string) (fs : gmap string file) : Prop :=
  exists d, fs !! path = Some (Cube d) /\ Forall (fun x => clipped x = true) d.

(** The loader of the viewer run over a text. *)
Definition vfeed (st : Viewer.loader) (text : string) : Viewer.loader :=
  Viewer.load_lines st (readlines text).

(** The loader after [key = v] with [v] on the line. *)
Definition vassign (st : Viewer.loader) (key : string) (v : value)
  : Viewer.loader :=
  {| Viewer.header := <[key := v]> (Viewer.header st);
     Viewer.current_key := None;
     Viewer.current_value := Viewer.current_value st |}.

(** The loader after the line that opens a list under [key]. *)
Definition vopened (st : Viewer.loader) (key piece : string) : Viewer.loader :=
  {| Viewer.header := Viewer.header st;
     Viewer.current_key := Some key;
     Viewer.current_value := Viewer.current_value st ++ [piece] |}.

(** The loader after the line that closes the list under [cur]. *)
Definition vclosed (st : Viewer.loader) (cur : string) (pieces : list string)
  : Viewer.loader :=
  {| Viewer.header := <[cur := Viewer.process_value pieces]> (Viewer.header st);
     Viewer.current_key := None;
     Viewer.current_value := pieces |}.

(** [[x.strip() for x in s.split(',') if x.strip()]] *)
Definition comma_parts (s : string) : list string :=
  map Py.strip (List.filter (fun x => nonempty (Py.strip x)) (Py.split "," s)).

(** What the viewer holds after the fixed fields of a written header. *)
Definition viewer_fixed_map (nsamples nlines nbands : Z) : gmap string value :=
  <["byte order" := VInt 0]>
  (<["interleave" := VStr "bsq"]>
  (<["data type" := VInt 4]>
  (<["file type" := VStr "ENVI Standard"]>
  (<["header offset" := VInt 0]>
  (<["bands" := VInt nbands]>
  (<["lines" := VInt nlines]>
  (<["samples" := VInt nsamples]>
  (<["description" := VStr "Radiometrically corrected reflectance data"]> ∅)))))))).

(** The loader outside a list, holding [m], with the pieces [pieces] left
    in [current_value]. *)
Definition vidle (m : gmap string value) (pieces : list string) : Viewer.loader :=
  {| Viewer.header := m; Viewer.current_key := None; Viewer.current_value := pieces |}.

(** The map with [key] set to what the viewer makes of the text field
    [o], if there is one. *)
Definition viewer_put (key : string) (o : option value) (m : gmap string value)
  : gmap string value :=
  match o with
  | Some v => <[key := Viewer.process_value [str_value v]]> m
  | None => m
  end.

(** A list as the header writer lays it out (lines 195-198): the key and
    the opening brace, one element to a line, the closing brace behind
    the last. *)
Definition written_list (key : string) (l : list spec_float) : string :=
  key +:+ " = {" +:+ nl +:+ Py.join ("," +:+ nl) (map wl_line l) +:+ "}" +:+ nl.

(** Every key of the map is its own lowered form. *)
Definition lowered_keys (m : gmap string value) : Prop :=
  forall k, is_Some (m !! k) -> Py.lower k = k.

(** The reader holds lowered keys, in its map and as the key of the list
    it collects. *)
Definition reader_lowered (st : reader) : Prop :=
  lowered_keys (header_info st)
  /\ forall cur, current_array st = Some cur -> Py.lower cur = cur.

(** The loader of the viewer holds lowered keys. *)
Definition loader_lowered (st : Viewer.loader) : Prop :=
  lowered_keys (Viewer.header st)
  /\ forall cur, Viewer.current_key st = Some cur -> Py.lower cur = cur.

(** The characters of a list of six-decimal texts joined with a comma and
    a blank. *)
Definition inline_char (c : ascii) : bool :=
  float_char c || Py.has_char c ", ".

(** The elements of a list on one line. *)
Definition inline_elements (l : list spec_float) : string :=
  Py.join ", " (map F64.format_6f l).

(** The value of a list on one line. *)
Definition inline_value (x : spec_float) (xs : list spec_float) : value :=
  match xs with
  | [] => VStr (F64.format_6f x)
  | _ => VFloats (map reread (x :: xs))
  end.

(** * Properties *)

(** ** The functions on concrete inputs *)

Example int_examples :
  Py.int " -1_000 " = Some (-1000) /\ Py.int "007" = Some 7
  /\ Py.int "1__0" = None /\ Py.int "1,2" = None /\ Py.int "" = None.
Proof. repeat split. Qed.

(** [int] reads a numeral of 4300 digits and refuses one of 4301. *)
Example int_limit_examples :
  Py.int (F64.zeros 4300) = Some 0 /\ Py.int (F64.zeros 4301) = None
  /\ Py.int (String "-" (F64.zeros 4300)) = Some 0.
Proof. vm_compute. repeat split. Qed.

Example float_examples :
  F64.parse "0.1" = Some (S754_finite false 7205759403792794 (-56))
  /\ F64.parse " 5e2 " = Some (F64.of_Z 500)
  /\ F64.parse "-Infinity" = Some (S754_infinity true)
  /\ F64.parse "1e400" = Some (S754_infinity false)
  /\ F64.parse "1e" = None /\ F64.parse "." = None.
Proof. vm_compute. repeat split. Qed.

Example format_examples :
  F64.format_6f (F64.of_decimal false 39766 (-2)) = "397.660000"
  /\ F64.format_6f (F64.of_decimal true 1 (-7)) = "-0.000000"
  /\ F64.repr (F64.of_decimal false 1 (-1)) = "0.1"
  /\ F64.repr (F64.of_decimal false 1 23) = "1e+23"
  /\ F64.repr (F64.of_Z 500) = "500.0".
Proof. vm_compute. repeat split. Qed.

Example replace_example :
  Py.replace "reflectance" "radcorr" "afx102_1_2026_reflectance.dat"
  = "afx102_1_2026_radcorr.dat".
Proof. reflexivity. Qed.

(** A list on three lines with a blank line between them reads as the same
    list on one line. *)
Example list_over_lines :
  read_header_text
    ("wavelength = { 400.5," +:+ nl +:+ nl +:+ " 500," +:+ nl +:+ nl +:+ " 600.25 }" +:+ nl)
  = read_header_text ("wavelength = { 400.5, 500, 600.25 }" +:+ nl).
Proof. vm_compute. reflexivity. Qed.

Example radiance_scale_example :
  radiance_scale {[ "description" := VStrs [""; "Radiance [mW/(cm^2*sr*um)*1000]"] ]}
  = F64.of_Z 1000
  /\ radiance_scale {[ "description" := VStr "Radiance [mW * 2.5]" ]}
     = F64.of_decimal false 25 (-1)
  /\ radiance_scale {[ "description" := VStr "no factor" ]} = F64.of_Z 1000.
Proof. vm_compute. repeat split. Qed.

(** A cube of two bands, four lines and three samples, all 0.5, with the
    wavelengths 500 and 1500: the first band is written as it is, the
    second is doubled to 1.0. *)
Example two_bands :
  let fs : gmap string file :=
    {[ "a_reflectance.dat" := Cube (repeat f32_half 24);
       "a_reflectance.hdr" := Text ("samples = 3" +:+ nl +:+ "lines = 4" +:+ nl +:+
                                    "bands = 2" +:+ nl);
       "a_radiance.hdr" := Text ("samples = 3" +:+ nl +:+ "lines = 4" +:+ nl +:+
                                 "bands = 2" +:+ nl +:+
                                 "wavelength = {500, 1500}" +:+ nl) ]} in
  let run := apply_enhanced_radiometric_correction
               (mkFiles "a_reflectance.dat" "a_reflectance.hdr")
               (mkFiles "a_radiance.dat" "a_radiance.hdr") 3 fs in
  fst run = Ok "a_radcorr.dat"
  /\ snd run !! "a_radcorr.dat"
     = Some (Cube (repeat f32_half 12 ++ repeat F32.one 12)).
Proof. vm_compute. split; reflexivity. Qed.

(** ** The correction factor of a band *)

Lemma len_floats_truthy (ws : list spec_float) (band : nat) :
  (band < length ws)%nat -> truthy (VFloats ws) = true.
Proof. destruct ws; simpl; [lia | reflexivity]. Qed.

(** C1: the factor of band [b] is [1.0 + (wavelength[b] - 500) / 1000.0]
    when the wavelength table is present and [b] is below its length, and
    [1.0] when the table is absent or [b] is at or beyond its length; a
    wavelength of 500.0 gives exactly 1.0, one of 1500.0 gives 2.0. *)
Theorem correction_factor_of_band (ws : list spec_float) (band : nat) :
  correction_factor (Some (VFloats ws)) band =
    Ok (if (band <? length ws)%nat
        then F64.add f64_one
               (F64.div (F64.sub (nth band ws S754_nan) f64_500) (F64.of_Z 1000))
        else f64_one)
  /\ correction_factor None band = Ok f64_one
  /\ (forall pre post,
        correction_factor (Some (VFloats (pre ++ f64_500 :: post))) (length pre)
        = Ok f64_one)
  /\ (forall pre post,
        correction_factor (Some (VFloats (pre ++ f64_1500 :: post))) (length pre)
        = Ok f64_two).
Proof.
  assert (Hgen : forall l b,
    correction_factor (Some (VFloats l)) b =
    Ok (if (b <? length l)%nat then wavelength_factor (nth b l S754_nan) else f64_one)).
  { intros l b. unfold correction_factor.
    destruct (b <? length l)%nat eqn:E.
    - apply Nat.ltb_lt in E. rewrite (len_floats_truthy l b E). simpl.
      apply Nat.ltb_lt in E. rewrite E. reflexivity.
    - destruct (truthy (VFloats l)); simpl; [rewrite E|]; reflexivity. }
  split; [apply Hgen|]. split; [reflexivity|].
  assert (Hat : forall pre post w,
    correction_factor (Some (VFloats (pre ++ w :: post))) (length pre)
    = Ok (wavelength_factor w)).
  { intros pre post w. rewrite Hgen.
    assert (E : (length pre <? length (pre ++ w :: post))%nat = true).
    { apply Nat.ltb_lt. rewrite length_app. simpl. lia. }
    rewrite E. rewrite app_nth2 by lia. rewrite Nat.sub_diag. reflexivity. }
  split; intros pre post; rewrite Hat; vm_compute; reflexivity.
Qed.

(** The factor is 1.0 at 500.0 and also next to it: the float after 500.0
    gives 1.0 as well. *)
Remark factor_one_beside_500 :
  wavelength_factor (SFsucc F64.prec F64.emax f64_500) = f64_one
  /\ SFeqb (SFsucc F64.prec F64.emax f64_500) f64_500 = false.
Proof. vm_compute. split; reflexivity. Qed.

(** ** Range of the corrected values *)

Section RoundNonNegative.
Variables prec emax : Z.

Lemma shr_1_nonneg (mrs : shr_record) :
  0 <= shr_m mrs -> 0 <= shr_m (shr_1 mrs).
Proof.
  destruct mrs as [m r s]. simpl. intros H.
  destruct m as [|p|p]; simpl; try lia; destruct p; simpl; lia.
Qed.

Lemma iter_shr_1_nonneg (p : positive) : forall mrs,
  0 <= shr_m mrs -> 0 <= shr_m (SpecFloat.iter_pos shr_1 p mrs).
Proof.
  induction p as [p IH|p IH|]; intros mrs H; simpl.
  - apply IH, IH, shr_1_nonneg, H.
  - apply IH, IH, H.
  - apply shr_1_nonneg, H.
Qed.

Lemma shr_fexp_nonneg (m e : Z) (l : location) :
  0 <= m -> 0 <= shr_m (fst (shr_fexp prec emax m e l)).
Proof.
  intros H. unfold shr_fexp, shr.
  assert (H0 : 0 <= shr_m (shr_record_of_loc m l))
    by (destruct l as [|[]]; simpl; exact H).
  destruct (fexp prec emax (Zdigits2 m + e) - e); simpl; auto.
  apply iter_shr_1_nonneg, H0.
Qed.

Lemma round_nearest_even_nonneg (m : Z) (l : location) :
  0 <= m -> 0 <= round_nearest_even m l.
Proof.
  intros H. destruct l as [|[]]; simpl; try lia.
  destruct (Z.even m); lia.
Qed.

(** Rounding a non-negative mantissa gives a zero, a finite number or an
    infinity. *)
Lemma binary_round_aux_not_nan (s : bool) (m e : Z) (l : location) :
  0 <= m -> binary_round_aux prec emax s m e l <> S754_nan.
Proof.
  intros H. unfold binary_round_aux.
  pose proof (shr_fexp_nonneg m e l H) as H1.
  destruct (shr_fexp prec emax m e l) as [mrs' e'] eqn:E1. simpl in H1.
  pose proof (shr_fexp_nonneg _ e' loc_Exact
                (round_nearest_even_nonneg _ (loc_of_shr_record mrs') H1)) as H2.
  destruct (shr_fexp prec emax
              (round_nearest_even (shr_m mrs') (loc_of_shr_record mrs'))
              e' loc_Exact) as [mrs'' e''] eqn:E2.
  simpl in H2.
  destruct (shr_m mrs'') as [|p|p]; try discriminate; try lia.
  destruct (e'' <=? emax - prec); discriminate.
Qed.

Lemma SFmul_finite_not_nan (x y : spec_float) :
  F32.is_finite x = true -> F32.is_finite y = true ->
  SFmul prec emax x y <> S754_nan.
Proof.
  destruct x, y; simpl; try discriminate; intros _ _.
  apply binary_round_aux_not_nan. lia.
Qed.
End RoundNonNegative.

Lemma SFltb_SFleb (x y : spec_float) : SFltb x y = true -> SFleb x y = true.
Proof. unfold SFltb, SFleb. destruct (SFcompare x y) as [[]|]; congruence. Qed.

Lemma SFcompare_antisym (x y : spec_float) :
  SFcompare y x = option_map CompOpp (SFcompare x y).
Proof.
  destruct x as [sx|sx| |sx mx ex], y as [sy|sy| |sy my ey]; simpl;
    try reflexivity; try (destruct sx; reflexivity); try (destruct sy; reflexivity);
    try (destruct sx, sy; reflexivity).
  destruct sx, sy; simpl; try reflexivity;
    rewrite (Z.compare_antisym ex ey); destruct (ex ?= ey); simpl; try reflexivity;
    change (Pcompare my mx Eq) with (my ?= mx)%positive;
    change (Pcompare mx my Eq) with (mx ?= my)%positive;
    rewrite (Pos.compare_antisym mx my); destruct (mx ?= my)%positive; reflexivity.
Qed.

(** Of two floats that are no NaN, the first is below the second or the
    second is at most the first. *)
Lemma SFleb_of_not_SFltb (x y : spec_float) :
  x <> S754_nan -> y <> S754_nan -> SFltb x y = false -> SFleb y x = true.
Proof.
  intros Hx Hy. unfold SFltb, SFleb. rewrite (SFcompare_antisym x y).
  destruct (SFcompare x y) as [[]|] eqn:E; simpl; try congruence.
  destruct x, y; simpl in E; congruence.
Qed.

(** [np.clip] to [0, 1] of anything but a NaN lies in [0, 1]. *)
Lemma clip_within (y : spec_float) :
  y <> S754_nan -> F32.within F32.zero F32.one (F32.clip y F32.zero F32.one) = true.
Proof.
  intros Hy. unfold F32.clip, F32.within.
  destruct (SFltb y F32.zero) eqn:E0; [reflexivity|].
  apply SFleb_of_not_SFltb in E0; [|exact Hy|discriminate].
  destruct (SFltb F32.one y) eqn:E1; [reflexivity|].
  apply SFleb_of_not_SFltb in E1; [|discriminate|exact Hy].
  rewrite E0, E1. reflexivity.
Qed.

(** [np.clip] keeps a NaN and a zero of either sign. *)
Lemma clip_keeps :
  F32.clip S754_nan F32.zero F32.one = S754_nan
  /\ F32.clip (S754_zero true) F32.zero F32.one = S754_zero true
  /\ F32.clip (S754_zero false) F32.zero F32.one = S754_zero false.
Proof. repeat split. Qed.

(** C2, as the code has it: a finite input, multiplied by a factor that is
    finite as a float32, is written as a value of [0, 1]. *)
Theorem correct_element_within (factor x : spec_float) :
  F32.is_finite x = true ->
  F32.is_finite (F32.of_f64 factor) = true ->
  F32.within F32.zero F32.one (correct_element factor x) = true.
Proof.
  intros Hx Hf. unfold correct_element. apply clip_within.
  apply SFmul_finite_not_nan; assumption.
Qed.

Lemma correct_element_within_witness :
  F32.is_finite f32_half = true /\
  F32.is_finite (F32.of_f64 (wavelength_factor (F64.of_Z 1500))) = true /\
  F32.within F32.zero F32.one
    (correct_element (wavelength_factor (F64.of_Z 1500)) f32_half) = true.
Proof.
  split; [reflexivity|]. split; [reflexivity|].
  apply (correct_element_within (wavelength_factor (F64.of_Z 1500)) f32_half);
    reflexivity.
Defined.

(** C2, as stated, fails where the factor is not finite: the wavelength
    [inf] gives the factor [inf], and the input [0.0] is written as a NaN. *)
Lemma correct_element_nan :
  F64.parse "inf" = Some (F64.inf false) /\
  F32.is_finite F32.zero = true /\
  correct_element (wavelength_factor (F64.inf false)) F32.zero = S754_nan /\
  F32.within F32.zero F32.one
    (correct_element (wavelength_factor (F64.inf false)) F32.zero) = false.
Proof. vm_compute. repeat split. Qed.

(** ** Dimension check *)

Lemma check_dimensions_mismatch (refl_header rad_header : gmap string value) :
  declares_dimensions refl_header -> declares_dimensions rad_header ->
  differ_on refl_header rad_header "samples"
  \/ differ_on refl_header rad_header "lines"
  \/ differ_on refl_header rad_header "bands" ->
  check_dimensions refl_header rad_header = Raise dimension_mismatch.
Proof.
  intros ([s1 Hs1] & [l1 Hl1] & [b1 Hb1]) ([s2 Hs2] & [l2 Hl2] & [b2 Hb2]) Hd.
  unfold differ_on in Hd. rewrite Hs1, Hs2, Hl1, Hl2, Hb1, Hb2 in Hd.
  unfold check_dimensions, getitem. rewrite Hs1, Hs2, Hl1, Hl2, Hb1, Hb2.
  destruct (value_eqb s1 s2); simpl; [|reflexivity].
  destruct (value_eqb l1 l2); simpl; [|reflexivity].
  destruct (value_eqb b1 b2); simpl; [|reflexivity].
  destruct Hd as [Hd|[Hd|Hd]]; discriminate.
Qed.

(** C4: when the parsed headers disagree on samples, lines or bands, the
    run raises the dimension mismatch and leaves the file store as it was:
    no output cube and no output header exist afterwards unless they did
    before. *)
Theorem dimension_mismatch_writes_nothing
    (reflectance_files radiance_files : files) (chunk_size : Z)
    (fs : gmap string file) (refl_header rad_header : gmap string value) :
  read_header (header reflectance_files) fs = (Ok refl_header, fs) ->
  read_header (header radiance_files) fs = (Ok rad_header, fs) ->
  declares_dimensions refl_header -> declares_dimensions rad_header ->
  differ_on refl_header rad_header "samples"
  \/ differ_on refl_header rad_header "lines"
  \/ differ_on refl_header rad_header "bands" ->
  apply_enhanced_radiometric_correction reflectance_files radiance_files chunk_size fs
  = (Raise dimension_mismatch, fs).
Proof.
  intros Hr1 Hr2 Hd1 Hd2 Hdiff.
  unfold apply_enhanced_radiometric_correction, mbind, M_bind, bind.
  rewrite Hr1, Hr2. unfold correct, mbind, M_bind, bind, lift.
  rewrite (check_dimensions_mismatch _ _ Hd1 Hd2 Hdiff). reflexivity.
Qed.

(** ** What [correct] reads of the two headers *)

(** The reflectance header is consulted for its dimensions only. *)
Lemma correct_reads_refl_dimensions
    (refl1 refl2 rad_header : gmap string value)
    (reflectance_data : string) (chunk_size : Z) (fs : gmap string file) :
  refl1 !! "samples" = refl2 !! "samples" ->
  refl1 !! "lines" = refl2 !! "lines" ->
  refl1 !! "bands" = refl2 !! "bands" ->
  correct refl1 rad_header reflectance_data chunk_size fs
  = correct refl2 rad_header reflectance_data chunk_size fs.
Proof.
  intros Hs Hl Hb. unfold correct, check_dimensions, getitem.
  rewrite Hs, Hl, Hb. reflexivity.
Qed.

(** Of the radiance header, the dimensions, the wavelengths and the three
    copied fields are consulted. *)
Lemma correct_reads_rad_fields
    (refl_header rad1 rad2 : gmap string value)
    (reflectance_data : string) (chunk_size : Z) (fs : gmap string file) :
  rad1 !! "samples" = rad2 !! "samples" ->
  rad1 !! "lines" = rad2 !! "lines" ->
  rad1 !! "bands" = rad2 !! "bands" ->
  rad1 !! "wavelength" = rad2 !! "wavelength" ->
  rad1 !! "wavelength units" = rad2 !! "wavelength units" ->
  rad1 !! "acquisition date" = rad2 !! "acquisition date" ->
  rad1 !! "sensor type" = rad2 !! "sensor type" ->
  correct refl_header rad1 reflectance_data chunk_size fs
  = correct refl_header rad2 reflectance_data chunk_size fs.
Proof.
  intros Hs Hl Hb Hw Hu Ha Ht.
  unfold correct, check_dimensions, getitem, write_header, header_text,
    copied_fields, optional_field.
  rewrite Hs, Hl, Hb, Hw, Hu, Ha, Ht. reflexivity.
Qed.

(** C10: two radiance headers that differ in their description only give
    the same outcome and the same files, the output cube among them. *)
Theorem description_does_not_influence_output
    (refl_header rad1 rad2 : gmap string value)
    (reflectance_data : string) (chunk_size : Z) (fs : gmap string file) :
  (forall key, key <> "description" -> rad1 !! key = rad2 !! key) ->
  correct refl_header rad1 reflectance_data chunk_size fs
  = correct refl_header rad2 reflectance_data chunk_size fs.
Proof.
  intros H. apply correct_reads_rad_fields; apply H; discriminate.
Qed.

(** ** Chunked processing *)

Section Overwrite.
Context {A : Type}.
Implicit Types d new a b : list A.

Lemma overwrite_length d off new :
  (off + length new <= length d)%nat ->
  length (overwrite d off new) = length d.
Proof.
  intros H. unfold overwrite.
  rewrite !length_app, length_firstn, length_skipn. lia.
Qed.

Lemma overwrite_nil d off : overwrite d off [] = d.
Proof.
  unfold overwrite. simpl. rewrite Nat.add_0_r. apply firstn_skipn.
Qed.

Lemma skipn_overwrite d off new :
  (off + length new <= length d)%nat ->
  skipn (off + length new) (overwrite d off new) = skipn (off + length new) d.
Proof.
  intros H. unfold overwrite.
  rewrite skipn_app, length_firstn.
  replace (Nat.min off (length d)) with off by lia.
  rewrite (skipn_all2 (firstn off d)) by (rewrite length_firstn; lia).
  replace (off + length new - off)%nat with (length new) by lia.
  rewrite skipn_app, skipn_all, Nat.sub_diag. reflexivity.
Qed.

Lemma overwrite_twice d off a b :
  (off + length a <= length d)%nat ->
  overwrite (overwrite d off a) (off + length a) b
  = overwrite d off (a ++ b).
Proof.
  intros H. unfold overwrite at 1.
  assert (Hf : firstn (off + length a) (overwrite d off a) = firstn off d ++ a).
  { unfold overwrite. rewrite app_assoc.
    rewrite firstn_app.
    rewrite firstn_all2 by (rewrite length_app, length_firstn; lia).
    rewrite length_app, length_firstn.
    replace (off + length a - (Nat.min off (length d) + length a))%nat with 0%nat by lia.
    rewrite firstn_O, app_nil_r. reflexivity. }
  rewrite Hf.
  assert (Hs : skipn (off + length a + length b) (overwrite d off a)
               = skipn (off + length (a ++ b)) d).
  { replace (off + length a + length b)%nat with (length b + (off + length a))%nat by lia.
    rewrite <- skipn_skipn. rewrite skipn_overwrite by exact H.
    rewrite skipn_skipn. f_equal. rewrite length_app. lia. }
  rewrite Hs. unfold overwrite. rewrite <- !app_assoc. reflexivity.
Qed.

Lemma firstn_add (n m : nat) (l : list A) :
  firstn (n + m) l = firstn n l ++ firstn m (skipn n l).
Proof.
  revert l. induction n as [|n IH]; intros [|x l]; simpl; try reflexivity.
  - destruct m; reflexivity.
  - rewrite IH. reflexivity.
Qed.
End Overwrite.

Section Band.
Variables (input output : string) (nlines nsamples band : Z).
Variable factor : spec_float.
Variable total : nat.

Hypothesis nlines_nonneg : 0 <= nlines.
Hypothesis nsamples_nonneg : 0 <= nsamples.
Hypothesis band_nonneg : 0 <= band.
Hypothesis band_fits :
  (Z.to_nat ((band * nlines + nlines) * nsamples) <= total)%nat.

Local Abbreviation offset := (row_offset nlines nsamples band).
Local Abbreviation rest_from :=
  (rest_of_band input output nlines nsamples band factor).
Local Abbreviation ready := (mapped input output total).

Lemma row_offset_add (row k : Z) :
  0 <= row -> 0 <= k ->
  offset (row + k) = (offset row + Z.to_nat (k * nsamples))%nat.
Proof.
  intros Hr Hk. unfold row_offset.
  replace ((band * nlines + (row + k)) * nsamples)
    with ((band * nlines + row) * nsamples + k * nsamples) by ring.
  apply Z2Nat.inj_add; nia.
Qed.

Lemma rest_of_band_mapped (row : Z) (fs : gmap string file) :
  0 <= row -> ready fs ->
  mapped input output total
    (rest_from row fs).
Proof.
  intros Hr (din & dout & Hi & Ho & Hl & Hd). unfold rest_of_band.
  rewrite Hi, Ho.
  set (new := map _ _).
  destruct (Z_lt_le_dec row nlines) as [Hlt|Hge].
  - assert (Hn : length new = Z.to_nat ((nlines - row) * nsamples)).
    { unfold new. rewrite length_map, length_firstn, length_skipn.
      pose proof (row_offset_add row (nlines - row) Hr ltac:(lia)) as Ha.
      replace (row + (nlines - row)) with nlines in Ha by ring.
      unfold row_offset in Ha at 1. lia. }
    assert (Hfit : (offset row + length new <= length dout)%nat).
    { pose proof (row_offset_add row (nlines - row) Hr ltac:(lia)) as Ha.
      replace (row + (nlines - row)) with nlines in Ha by ring.
      unfold row_offset in Ha at 1. lia. }
    destruct (decide (input = output)) as [Heq|Hne].
    + exists (overwrite dout (offset row) new),
        (overwrite dout (offset row) new).
      rewrite Heq, lookup_insert_eq, overwrite_length by exact Hfit.
      repeat split; try reflexivity; lia.
    + exists din, (overwrite dout (offset row) new).
      rewrite lookup_insert_ne by congruence. rewrite lookup_insert_eq.
      rewrite overwrite_length by exact Hfit. repeat split; auto.
  - assert (new = []) as ->.
    { unfold new. replace (Z.to_nat ((nlines - row) * nsamples)) with 0%nat by nia.
      reflexivity. }
    rewrite overwrite_nil. rewrite insert_id by exact Ho.
    exists din, dout. auto.
Qed.

Lemma rest_of_band_past_end (row : Z) (fs : gmap string file) :
  nlines <= row -> ready fs -> rest_from row fs = fs.
Proof.
  intros Hr (din & dout & Hi & Ho & Hl & Hd). unfold rest_of_band.
  rewrite Hi, Ho.
  replace (Z.to_nat ((nlines - row) * nsamples)) with 0%nat by nia.
  simpl. rewrite overwrite_nil. apply insert_id, Ho.
Qed.

(** The chunks from [start] on, whatever their height, amount to that one
    assignment. *)
Lemma chunks_rest_of_band (chunk_size : Z) (Hcs : 1 <= chunk_size) :
  forall (fuel : nat) (start : Z) (fs : gmap string file),
    0 <= start -> (Z.to_nat (nlines - start) <= fuel)%nat ->
    ready fs ->
    for_each (range_up fuel start nlines chunk_size)
      (process_chunk input output nlines nsamples band factor chunk_size) fs
    = (Ok tt, rest_from start fs).
Proof.
  induction fuel as [|fuel IH]; intros start fs Hs Hfuel Hm.
  - simpl. unfold mret, M_ret, ret.
    rewrite rest_of_band_past_end by (auto; lia). reflexivity.
  - simpl. destruct (start <? nlines) eqn:E.
    + apply Z.ltb_lt in E.
      pose proof Hm as (din & dout & Hi & Ho & Hl & Hd).
      simpl. unfold mbind, M_bind, bind.
      unfold process_chunk at 1.
      unfold chunk_end, mbind, M_bind, bind, read_view, write_view.
      rewrite Hi, Ho.
      fold (offset start).
      set (n0 := Z.to_nat ((Z.min (start + chunk_size) nlines - start) * nsamples)).
      set (a := map (correct_element factor)
                  (firstn n0 (skipn (offset start) din))).
      set (fs1 := <[output := Cube (overwrite dout (offset start) a)]> fs).
      pose proof (row_offset_add start (nlines - start) Hs ltac:(lia)) as Hend.
      replace (start + (nlines - start)) with nlines in Hend by ring.
      unfold row_offset in Hend at 1.
      assert (Hn0 : (n0 <= Z.to_nat ((nlines - start) * nsamples))%nat)
        by (unfold n0; nia).
      assert (Ha : length a = n0).
      { unfold a. rewrite length_map, length_firstn, length_skipn. lia. }
      assert (Hfit : (offset start + length a <= length dout)%nat) by lia.
      assert (Hm1 : ready fs1).
      { unfold fs1. destruct (decide (input = output)) as [Heq|Hne].
        - exists (overwrite dout (offset start) a),
            (overwrite dout (offset start) a).
          rewrite Heq, lookup_insert_eq, overwrite_length by exact Hfit.
          repeat split; try reflexivity; lia.
        - exists din, (overwrite dout (offset start) a).
          rewrite lookup_insert_ne by congruence.
          rewrite lookup_insert_eq, overwrite_length by exact Hfit. auto. }
      rewrite (IH (start + chunk_size) fs1 ltac:(lia) ltac:(lia) Hm1).
      f_equal. unfold rest_of_band. rewrite Hi, Ho.
      destruct (Z_lt_le_dec (start + chunk_size) nlines) as [Hlt|Hge].
      * (* more chunks follow *)
        assert (Hn0' : n0 = Z.to_nat (chunk_size * nsamples)).
        { unfold n0. rewrite Z.min_l by lia. f_equal. ring. }
        pose proof (row_offset_add start chunk_size Hs ltac:(lia)) as Hoff.
        rewrite <- Hn0' in Hoff.
        assert (Hlen : Z.to_nat ((nlines - start) * nsamples)
                       = (n0 + Z.to_nat ((nlines - (start + chunk_size)) * nsamples))%nat).
        { rewrite Hn0'. rewrite <- Z2Nat.inj_add by nia. f_equal. ring. }
        assert (Hi1 : exists din1, fs1 !! input = Some (Cube din1) /\
                  skipn (offset start + n0) din1
                  = skipn (offset start + n0) din).
        { unfold fs1. destruct (decide (input = output)) as [Heq|Hne].
          - exists (overwrite dout (offset start) a).
            rewrite Heq, lookup_insert_eq. split; [reflexivity|].
            assert (din = dout) as -> by (rewrite Heq in Hi; congruence).
            rewrite <- Ha. apply skipn_overwrite. exact Hfit.
          - exists din. rewrite lookup_insert_ne by congruence. auto. }
        destruct Hi1 as (din1 & Hi1 & Hskip).
        rewrite Hi1. unfold fs1 at 1. rewrite lookup_insert_eq.
        unfold fs1. rewrite insert_insert_eq. f_equal. f_equal.
        rewrite Hoff, Hskip. rewrite <- Ha at 1.
        rewrite overwrite_twice by exact Hfit.
        f_equal. unfold a. rewrite <- map_app. f_equal.
        rewrite Hlen, firstn_add. f_equal.
        rewrite skipn_skipn. f_equal. f_equal. lia.
      * (* this was the last chunk *)
        assert (Hn0' : n0 = Z.to_nat ((nlines - start) * nsamples)).
        { unfold n0. rewrite Z.min_r by lia. reflexivity. }
        assert (Hi1 : exists din1, fs1 !! input = Some (Cube din1)).
        { destruct Hm1 as (d1 & ? & ? & _). eauto. }
        destruct Hi1 as (din1 & Hi1). rewrite Hi1.
        unfold fs1 at 1. rewrite lookup_insert_eq.
        replace (Z.to_nat ((nlines - (start + chunk_size)) * nsamples)) with 0%nat by nia.
        simpl. rewrite overwrite_nil. unfold fs1. rewrite insert_insert_eq.
        f_equal. f_equal. f_equal. unfold a. rewrite Hn0'. reflexivity.
    + apply Z.ltb_ge in E. unfold mret, M_ret, ret.
      rewrite rest_of_band_past_end by auto. reflexivity.
Qed.
End Band.

(** Two loop bodies that agree on the stores of an invariant run the same
    loop. *)
Lemma for_each_agree {A : Type} (inv : gmap string file -> Prop)
    (f g : A -> M unit) (l : list A) :
  (forall x fs, In x l -> inv fs -> f x fs = g x fs /\ inv (snd (g x fs))) ->
  forall fs, inv fs -> for_each l f fs = for_each l g fs.
Proof.
  induction l as [|x l IH]; intros H fs Hinv; [reflexivity|].
  simpl. unfold mbind, M_bind, bind.
  destruct (H x fs (or_introl eq_refl) Hinv) as [Heq Hinv'].
  rewrite Heq. destruct (g x fs) as [[[]|e] fs']; [|reflexivity].
  apply IH; [|exact Hinv'].
  intros y fs0 Hy. apply H. right. exact Hy.
Qed.

Lemma process_band_whole (input output : string) (nlines nsamples : Z)
    (wavelengths : option value) (chunk_size band : Z) (total : nat)
    (fs : gmap string file) :
  0 <= nlines -> 0 <= nsamples -> 0 <= band -> 1 <= chunk_size ->
  (Z.to_nat ((band * nlines + nlines) * nsamples) <= total)%nat ->
  mapped input output total fs ->
  process_band input output nlines nsamples wavelengths chunk_size band fs
  = whole_band input output nlines nsamples wavelengths band fs.
Proof.
  intros Hl Hs Hb Hc Hfit Hm. unfold process_band, whole_band.
  unfold mbind, M_bind, bind, lift.
  destruct (correction_factor wavelengths (Z.to_nat band)) as [factor|e];
    [|reflexivity].
  unfold range. replace (chunk_size =? 0) with false by (symmetry; apply Z.eqb_neq; lia).
  replace (0 <? chunk_size) with true by (symmetry; apply Z.ltb_lt; lia).
  apply (chunks_rest_of_band input output nlines nsamples band factor total
           Hl Hs Hb Hfit chunk_size Hc); [lia|lia|exact Hm].
Qed.

Lemma whole_band_mapped (input output : string) (nlines nsamples : Z)
    (wavelengths : option value) (band : Z) (total : nat) (fs : gmap string file) :
  0 <= nlines -> 0 <= nsamples -> 0 <= band ->
  (Z.to_nat ((band * nlines + nlines) * nsamples) <= total)%nat ->
  mapped input output total fs ->
  mapped input output total
    (snd (whole_band input output nlines nsamples wavelengths band fs)).
Proof.
  intros Hl Hs Hb Hfit Hm. unfold whole_band.
  destruct (correction_factor wavelengths (Z.to_nat band)); simpl; [|exact Hm].
  apply rest_of_band_mapped; auto. lia.
Qed.

Lemma band_indices_range (nbands b : Z) :
  In b (band_indices nbands) -> 0 <= b < nbands.
Proof.
  unfold band_indices. rewrite in_map_iff. intros (n & <- & Hn).
  apply in_seq in Hn. lia.
Qed.

(** The loop over the bands does not depend on the chunk size. *)
Lemma bands_any_chunk_size (input output : string) (nbands nlines nsamples : Z)
    (wavelengths : option value) (c1 c2 : Z) (fs : gmap string file) :
  0 <= nlines -> 0 <= nsamples -> 1 <= c1 -> 1 <= c2 ->
  mapped input output (Z.to_nat (nbands * nlines * nsamples)) fs ->
  for_each (band_indices nbands)
    (process_band input output nlines nsamples wavelengths c1) fs
  = for_each (band_indices nbands)
    (process_band input output nlines nsamples wavelengths c2) fs.
Proof.
  intros Hl Hs H1 H2 Hm.
  set (total := Z.to_nat (nbands * nlines * nsamples)) in *.
  assert (Hfit : forall b, In b (band_indices nbands) ->
            0 <= b /\ (Z.to_nat ((b * nlines + nlines) * nsamples) <= total)%nat).
  { intros b Hb. apply band_indices_range in Hb. split; [lia|].
    unfold total.
    assert (Hp : 0 <= nlines * nsamples) by nia.
    replace ((b * nlines + nlines) * nsamples) with ((b + 1) * (nlines * nsamples)) by ring.
    replace (nbands * nlines * nsamples) with (nbands * (nlines * nsamples)) by ring.
    apply Z2Nat.inj_le; [nia|nia|].
    apply Z.mul_le_mono_nonneg_r; lia. }
  transitivity (for_each (band_indices nbands)
                  (whole_band input output nlines nsamples wavelengths) fs).
  - apply (for_each_agree (mapped input output total)); [|exact Hm].
    intros b fs0 Hb Hm0. destruct (Hfit b Hb) as [Hb0 Hbf]. split.
    + apply (process_band_whole _ _ _ _ _ _ _ total); auto.
    + apply whole_band_mapped; auto.
  - symmetry. apply (for_each_agree (mapped input output total)); [|exact Hm].
    intros b fs0 Hb Hm0. destruct (Hfit b Hb) as [Hb0 Hbf]. split.
    + apply (process_band_whole _ _ _ _ _ _ _ total); auto.
    + apply whole_band_mapped; auto.
Qed.

Lemma memmap_create_ok (path : string) (nbands nlines nsamples : value)
    (fs fs' : gmap string file) (b l s : Z) :
  memmap_create path nbands nlines nsamples fs = (Ok (b, l, s), fs') ->
  nlines = VInt l /\ 0 <= b /\ 0 <= l /\ 0 <= s /\
  fs' = <[path := Cube (repeat F32.zero (Z.to_nat (b * l * s)))]> fs.
Proof.
  unfold memmap_create. destruct nbands, nlines, nsamples; try discriminate.
  destruct ((n <? 0) || (n0 <? 0) || (n1 <? 0)) eqn:E; [discriminate|].
  intros [= <- <- <- <-].
  apply orb_false_elim in E as [E Es]. apply orb_false_elim in E as [Eb El].
  apply Z.ltb_ge in Eb, El, Es. auto.
Qed.

Lemma memmap_open_ok (path : string) (n : nat) (fs fs' : gmap string file) :
  memmap_open path n fs = (Ok tt, fs') ->
  fs' = fs /\ exists d, fs !! path = Some (Cube d) /\ (n <= length d)%nat.
Proof.
  unfold memmap_open. destruct (fs !! path) as [[t|d]|]; try discriminate.
  destruct (n <=? length d)%nat eqn:E; [|discriminate].
  intros [= <-]. split; [reflexivity|]. exists d. split; [reflexivity|].
  apply Nat.leb_le, E.
Qed.

(** With chunk sizes from 1 on, [correct] does not depend on the chunk
    size. *)
Lemma correct_any_chunk_size (refl_header rad_header : gmap string value)
    (reflectance_data : string) (c1 c2 : Z) (fs : gmap string file) :
  1 <= c1 -> 1 <= c2 ->
  correct refl_header rad_header reflectance_data c1 fs
  = correct refl_header rad_header reflectance_data c2 fs.
Proof.
  intros H1 H2. unfold correct, mbind, M_bind, bind, lift.
  destruct (check_dimensions refl_header rad_header); [|reflexivity].
  destruct (getitem refl_header "bands") as [nbands|]; [|reflexivity].
  destruct (getitem refl_header "lines") as [nlines|]; [|reflexivity].
  destruct (getitem refl_header "samples") as [nsamples|]; [|reflexivity].
  destruct (report_dimensions nbands nlines nsamples); [|reflexivity].
  destruct (report_wavelengths (rad_header !! "wavelength")); [|reflexivity].
  set (out := Py.replace "reflectance" "radcorr" reflectance_data).
  destruct (memmap_create out nbands nlines nsamples fs) as [[[[b l] s]|e] fs1] eqn:Ec;
    [|reflexivity].
  apply memmap_create_ok in Ec as (_ & Hb & Hl & Hs & Hfs1).
  destruct (memmap_open reflectance_data (Z.to_nat (b * l * s)) fs1) as [[[]|e] fs2] eqn:Eo;
    [|reflexivity].
  apply memmap_open_ok in Eo as (-> & d & Hd & Hlen).
  rewrite (bands_any_chunk_size reflectance_data out b l s
             (rad_header !! "wavelength") c1 c2 fs1 Hl Hs H1 H2); [reflexivity|].
  exists d, (repeat F32.zero (Z.to_nat (b * l * s))).
  split; [exact Hd|]. split; [rewrite Hfs1; apply lookup_insert_eq|].
  split; [apply repeat_length|exact Hlen].
Qed.

Lemma range_up_chunks (nlines chunk_size : Z) (Hc : 1 <= chunk_size) :
  forall (fuel : nat) (s0 : Z),
    0 <= s0 -> (Z.to_nat (nlines - s0) <= fuel)%nat ->
    Forall (fun start => s0 <= start < nlines
                         /\ start < chunk_end start chunk_size nlines)
      (range_up fuel s0 nlines chunk_size)
    /\ fold_right Z.add 0
         (chunk_heights nlines chunk_size (range_up fuel s0 nlines chunk_size))
       = Z.max 0 (nlines - s0).
Proof.
  induction fuel as [|fuel IH]; intros s0 Hs0 Hfuel; simpl.
  - split; [constructor|]. lia.
  - destruct (s0 <? nlines) eqn:E.
    + apply Z.ltb_lt in E.
      destruct (IH (s0 + chunk_size) ltac:(lia) ltac:(lia)) as [Hall Hsum].
      split.
      * constructor; [unfold chunk_end; lia|].
        eapply List.Forall_impl; [|exact Hall]. simpl. intros a Ha. lia.
      * simpl. fold (chunk_heights nlines chunk_size
                       (range_up fuel (s0 + chunk_size) nlines chunk_size)).
        rewrite Hsum. unfold chunk_end. lia.
    + apply Z.ltb_ge in E. split; [constructor|]. simpl. lia.
Qed.

(** C3: for every input and every chunk size from 1 on, the run gives the
    outcome and the files, the output cube among them, of a run whose
    chunk size is at least the number of lines, which processes each band
    as a single chunk starting at line 0; the chunks of a band start
    inside the band, none is empty, the last ends at the last line, and
    their heights add up to the number of lines. *)
Theorem chunked_run_equals_single_chunk_run
    (refl_header rad_header : gmap string value) (reflectance_data : string)
    (nlines chunk_size whole : Z) (fs : gmap string file) :
  refl_header !! "lines" = Some (VInt nlines) ->
  1 <= chunk_size -> 1 <= whole -> nlines <= whole ->
  correct refl_header rad_header reflectance_data chunk_size fs
  = correct refl_header rad_header reflectance_data whole fs
  /\ (0 < nlines -> range 0 nlines whole = Ok [0])
  /\ exists starts,
       range 0 nlines chunk_size = Ok starts
       /\ Forall (fun start => 0 <= start < nlines
                               /\ start < chunk_end start chunk_size nlines <= nlines)
            starts
       /\ fold_right Z.add 0 (chunk_heights nlines chunk_size starts)
          = Z.max 0 nlines.
Proof.
  intros Hlines Hc Hw1 Hw. split; [|split].
  - apply correct_any_chunk_size; lia.
  - intros Hpos. unfold range.
    replace (whole =? 0) with false by (symmetry; apply Z.eqb_neq; lia).
    replace (0 <? whole) with true by (symmetry; apply Z.ltb_lt; lia).
    rewrite Z.sub_0_r. destruct (Z.to_nat nlines) as [|n] eqn:En; [lia|].
    simpl. replace (0 <? nlines) with true by (symmetry; apply Z.ltb_lt; lia).
    destruct n; simpl; [reflexivity|].
    replace (0 + whole <? nlines) with false by (symmetry; apply Z.ltb_ge; lia).
    reflexivity.
  - unfold range.
    replace (chunk_size =? 0) with false by (symmetry; apply Z.eqb_neq; lia).
    replace (0 <? chunk_size) with true by (symmetry; apply Z.ltb_lt; lia).
    eexists. split; [reflexivity|].
    destruct (range_up_chunks nlines chunk_size Hc (Z.to_nat (nlines - 0)) 0
                ltac:(lia) ltac:(lia)) as [Hall Hsum].
    split.
    + eapply List.Forall_impl; [|exact Hall]. simpl. intros a Ha.
      unfold chunk_end in *. lia.
    + rewrite Hsum. f_equal. lia.
Qed.

(** The same for the whole function. *)
Corollary run_any_chunk_size (reflectance_files radiance_files : files)
    (c1 c2 : Z) (fs : gmap string file) :
  1 <= c1 -> 1 <= c2 ->
  apply_enhanced_radiometric_correction reflectance_files radiance_files c1 fs
  = apply_enhanced_radiometric_correction reflectance_files radiance_files c2 fs.
Proof.
  intros H1 H2. unfold apply_enhanced_radiometric_correction, mbind, M_bind, bind.
  destruct (read_header (header reflectance_files) fs) as [[refl|e] fs1];
    [|reflexivity].
  destruct (read_header (header radiance_files) fs1) as [[rad|e] fs2];
    [|reflexivity].
  apply correct_any_chunk_size; assumption.
Qed.

(** ** The parser *)

Lemma has_char_cons (c d : ascii) (s : string) :
  Py.has_char c (String d s) = Ascii.eqb c d || Py.has_char c s.
Proof. simpl. destruct (Ascii.eqb c d); reflexivity. Qed.

Lemma has_char_lstrip (c : ascii) (s : string) :
  Py.isspace c = false -> Py.has_char c (Py.lstrip s) = Py.has_char c s.
Proof.
  intros Hc. induction s as [|d s IH]; [reflexivity|].
  simpl Py.lstrip. destruct (Py.isspace d) eqn:Ed; [|reflexivity].
  rewrite IH, has_char_cons.
  destruct (Ascii.eqb c d) eqn:E; [|reflexivity].
  apply Ascii.eqb_eq in E. congruence.
Qed.

Lemma has_char_rstrip (c : ascii) (s : string) :
  Py.isspace c = false -> Py.has_char c (Py.rstrip s) = Py.has_char c s.
Proof.
  intros Hc. induction s as [|d s IH]; [reflexivity|].
  rewrite has_char_cons. simpl Py.rstrip.
  destruct (Py.rstrip s) as [|e r] eqn:Er.
  - rewrite <- IH. simpl.
    destruct (Py.isspace d) eqn:Ed; simpl.
    + destruct (Ascii.eqb c d) eqn:E; [|reflexivity].
      apply Ascii.eqb_eq in E. congruence.
    + destruct (Ascii.eqb c d); reflexivity.
  - rewrite has_char_cons, <- IH. reflexivity.
Qed.

Lemma has_char_strip (c : ascii) (s : string) :
  Py.isspace c = false -> Py.has_char c (Py.strip s) = Py.has_char c s.
Proof.
  intros Hc. unfold Py.strip. rewrite has_char_rstrip, has_char_lstrip; auto.
Qed.

Lemma digit_part_no_comma (s : string) : forall prev ds,
  Py.digit_part prev s = Some ds -> Py.has_char "," s = false.
Proof.
  induction s as [|c s IH]; intros prev ds H; [reflexivity|].
  simpl in H. rewrite has_char_cons.
  destruct (Py.is_digit c) eqn:Ed.
  - destruct (Py.digit_part true s) eqn:E; [|discriminate].
    rewrite (IH _ _ E), orb_false_r.
    destruct (Ascii.eqb "," c) eqn:Ec; [|reflexivity].
    apply Ascii.eqb_eq in Ec. subst c. discriminate.
  - destruct (Ascii.eqb c "_") eqn:Eu; [|discriminate].
    apply Ascii.eqb_eq in Eu. subst c.
    destruct prev; [|discriminate].
    destruct s as [|d s']; [discriminate|].
    destruct (Py.is_digit d); [|discriminate].
    rewrite (IH _ _ H). reflexivity.
Qed.

(** [int] accepts no text with a comma in it. *)
Lemma int_no_comma (s : string) (n : Z) :
  Py.int s = Some n -> Py.has_char "," s = false.
Proof.
  unfold Py.int. intros H.
  rewrite <- (has_char_strip "," s) by reflexivity.
  destruct (Py.take_sign (Py.strip s)) as [neg r] eqn:Et.
  assert (Hr : Py.has_char "," r = false).
  { destruct (Py.digit_part false r) as [ds|] eqn:E; [|discriminate].
    eapply digit_part_no_comma, E. }
  clear H. destruct (Py.strip s) as [|c t]; [reflexivity|].
  unfold Py.take_sign in Et.
  destruct c as [[] [] [] [] [] [] [] []]; injection Et as <- <-;
    first [exact Hr|rewrite has_char_cons; exact Hr].
Qed.

(** C5, as stated, fails: the integer path is taken under four keys only,
    and a comma counts only between braces. *)
Lemma coercion_depends_on_key :
  decode "header offset" "0" = Ok (VStr "0")
  /\ spec_coercion "0" = VInt 0
  /\ decode "map info" "1.5, 2.5" = Ok (VStr "1.5, 2.5")
  /\ spec_coercion "1.5, 2.5" = VFloats [binary_normalize 53 1024 3 (-1) false;
                                        binary_normalize 53 1024 5 (-1) false]
  /\ decode "band names" "{a, b}" = Ok (VStrs ["a"; "b"])
  /\ spec_coercion "a, b" = VStr "a, b".
Proof. vm_compute. repeat split. Qed.

Lemma read_line_raises (st : reader) (raw : string) (e : exn) :
  read_line st raw = Raise e -> e = int_of_list.
Proof.
  unfold read_line.
  destruct (String.eqb (Py.strip raw) ""); [discriminate|].
  destruct (collecting st).
  - destruct (negb _); discriminate.
  - destruct (Py.has_char "=" (Py.strip raw)); [|discriminate].
    destruct (Py.split1 "=" (Py.strip raw)) as [k v].
    destruct (_ && _); [discriminate|].
    destruct (decode _ _) as [v2|e'] eqn:Ed; [discriminate|].
    intros [= <-]. unfold decode, convert_numeric in Ed.
    destruct (is_numeric_key _); [|discriminate].
    destruct (if _ && _ then _ else _); try discriminate;
      try (destruct (Py.int _); discriminate);
      injection Ed as <-; reflexivity.
Qed.

Lemma read_lines_raises (lines : list string) : forall st e,
  read_lines st lines = Raise e -> e = int_of_list.
Proof.
  induction lines as [|l lines IH]; intros st e; simpl; [discriminate|].
  destruct (read_line st l) as [st'|e'] eqn:El.
  - apply IH.
  - intros [= <-]. eapply read_line_raises, El.
Qed.

(** Inside a list, lines without the closing brace only extend the pending
    list. *)
Lemma collecting_keeps_map (lines : list string) : forall st cur,
  collecting st = Some cur ->
  Forall (fun l => Py.has_char "}" (Py.strip l) = false) lines ->
  exists st', read_lines st lines = Ok st'
              /\ header_info st' = header_info st
              /\ collecting st' = Some cur.
Proof.
  induction lines as [|l lines IH]; intros st cur Hc Hall.
  - exists st. auto.
  - inversion Hall as [|? ? Hl Hrest]; subst. simpl.
    unfold read_line. destruct (String.eqb (Py.strip l) "").
    + apply IH; assumption.
    + rewrite Hc, Hl. simpl.
      set (st1 := {| header_info := header_info st;
                     current_array := current_array st;
                     array_data := array_data st ++ split_strip (Py.strip l) |}).
      destruct (IH st1 cur) as (st' & H1 & H2 & H3); [exact Hc|exact Hrest|].
      exists st'. auto.
Qed.

(** C6, as stated, fails: a text that ends inside a list, and a line
    without [=], are read without an exception. *)
Lemma malformed_header_is_read :
  read_header_text ("samples = 3" +:+ nl +:+ "wavelength = {" +:+ nl +:+ " 400, 500" +:+ nl)
  = Ok {[ "samples" := VInt 3 ]}
  /\ read_header_text ("ENVI" +:+ nl +:+ "samples = 3" +:+ nl)
  = Ok {[ "samples" := VInt 3 ]}.
Proof. vm_compute. split; reflexivity. Qed.

(** C6, as the code has it: [read_header] has no syntax error. A non-blank
    line outside a list that has no [=] is skipped; when the text ends
    inside a list, the pending list is dropped and the fields completed so
    far are returned; the one exception of the parser is the [TypeError] of
    [int] on a list under a numeric key. *)
Theorem read_header_has_no_syntax_error :
  (forall st raw,
     collecting st = None -> Py.has_char "=" (Py.strip raw) = false ->
     read_line st raw = Ok st)
  /\ (forall st cur lines,
     collecting st = Some cur ->
     Forall (fun l => Py.has_char "}" (Py.strip l) = false) lines ->
     exists st', read_lines st lines = Ok st'
                 /\ header_info st' = header_info st)
  /\ (forall text st,
     read_lines reader_init (readlines text) = Ok st ->
     read_header_text text = Ok (header_info st))
  /\ (forall text e, read_header_text text = Raise e -> e = int_of_list).
Proof.
  split; [|split; [|split]].
  - intros st raw Hc He. unfold read_line. rewrite Hc, He.
    destruct (String.eqb (Py.strip raw) ""); reflexivity.
  - intros st cur lines Hc Hall.
    destruct (collecting_keeps_map lines st cur Hc Hall) as (st' & H1 & H2 & _).
    exists st'. auto.
  - intros text st H. unfold read_header_text. rewrite H. reflexivity.
  - intros text e. unfold read_header_text.
    destruct (read_lines reader_init (readlines text)) as [st|e'] eqn:E;
      [discriminate|].
    intros [= <-]. eapply read_lines_raises, E.
Qed.

Lemma read_header_has_no_syntax_error_witness :
  read_line reader_init "ENVI" = Ok reader_init
  /\ (exists st', read_lines reader_in_list [" 400, 500"] = Ok st'
                  /\ header_info st' = header_info reader_in_list)
  /\ read_header_text "ENVI" = Ok ∅.
Proof.
  destruct read_header_has_no_syntax_error as (H1 & H2 & H3 & _).
  split; [|split].
  - apply H1; reflexivity.
  - apply (H2 reader_in_list "wavelength"); [reflexivity|].
    repeat constructor.
  - apply (H3 "ENVI" reader_init). reflexivity.
Defined.

(** ** Runs on concrete stores *)

(** C9 fails on the code at a data path without the text [reflectance]:
    the output path is then the data path, and creating the output cube
    overwrites the input cube with zeros. *)
Lemma input_cube_overwritten :
  let fs : gmap string file :=
    {[ "cube.dat" := Cube [f32_half; f32_quarter];
       "cube.hdr" := Text small_header;
       "rad.hdr" := Text small_header ]} in
  let run := apply_enhanced_radiometric_correction
               (mkFiles "cube.dat" "cube.hdr") (mkFiles "rad.dat" "rad.hdr") 500 fs in
  fst run = Ok "cube.dat"
  /\ fs !! "cube.dat" = Some (Cube [f32_half; f32_quarter])
  /\ snd run !! "cube.dat" = Some (Cube [F32.zero; F32.zero]).
Proof. vm_compute. repeat split. Qed.

(** C2, as stated, fails in a run: with the wavelength [inf] in the
    radiance header, the finite inputs [0.0] are written as NaN. *)
Lemma run_writes_nan :
  let fs : gmap string file :=
    {[ "a_reflectance.dat" := Cube [F32.zero; F32.zero];
       "a_reflectance.hdr" := Text small_header;
       "a_radiance.hdr" := Text small_header_inf ]} in
  let run := apply_enhanced_radiometric_correction
               (mkFiles "a_reflectance.dat" "a_reflectance.hdr")
               (mkFiles "a_radiance.dat" "a_radiance.hdr") 500 fs in
  fst run = Ok "a_radcorr.dat"
  /\ snd run !! "a_radcorr.dat" = Some (Cube [S754_nan; S754_nan])
  /\ F32.is_finite F32.zero = true
  /\ F32.within F32.zero F32.one S754_nan = false.
Proof. vm_compute. repeat split. Qed.

(** C8, as stated, fails: when only the reflectance header declares the
    wavelengths, no table is used; the values are written with the factor
    1.0 (the table would double them), and the output header has no
    wavelength. *)
Lemma wavelength_of_reflectance_header_ignored :
  let fs : gmap string file :=
    {[ "a_reflectance.dat" := Cube [f32_quarter; f32_quarter];
       "a_reflectance.hdr" := Text small_header_1500;
       "a_radiance.hdr" := Text small_header ]} in
  let run := apply_enhanced_radiometric_correction
               (mkFiles "a_reflectance.dat" "a_reflectance.hdr")
               (mkFiles "a_radiance.dat" "a_radiance.hdr") 500 fs in
  fst run = Ok "a_radcorr.dat"
  /\ snd run !! "a_radcorr.dat" = Some (Cube [f32_quarter; f32_quarter])
  /\ map (correct_element (wavelength_factor (F64.of_Z 1500))) [f32_quarter; f32_quarter]
     = [f32_half; f32_half]
  /\ match snd run !! "a_radcorr.dat.hdr" with
     | Some (Text t) =>
         match read_header_text t with
         | Ok h => h !! "wavelength"
         | Raise _ => Some (VStr "")
         end
     | _ => Some (VStr "")
     end = None.
Proof. vm_compute. repeat split. Qed.

Lemma dimension_mismatch_writes_nothing_witness :
  let fs : gmap string file :=
    {[ "a_reflectance.dat" := Cube [f32_half; f32_quarter];
       "a_reflectance.hdr" := Text small_header;
       "a_radiance.hdr" := Text wide_header ]} in
  apply_enhanced_radiometric_correction
    (mkFiles "a_reflectance.dat" "a_reflectance.hdr")
    (mkFiles "a_radiance.dat" "a_radiance.hdr") 500 fs
  = (Raise dimension_mismatch, fs).
Proof.
  intros fs.
  apply (dimension_mismatch_writes_nothing
           (mkFiles "a_reflectance.dat" "a_reflectance.hdr")
           (mkFiles "a_radiance.dat" "a_radiance.hdr") 500 fs
           {[ "samples" := VInt 1; "lines" := VInt 2; "bands" := VInt 1 ]}
           {[ "samples" := VInt 2; "lines" := VInt 2; "bands" := VInt 1 ]}).
  - vm_compute. reflexivity.
  - vm_compute. reflexivity.
  - repeat split; vm_compute; eauto.
  - repeat split; vm_compute; eauto.
  - left. vm_compute. reflexivity.
Defined.

Lemma chunked_run_equals_single_chunk_run_witness :
  small_dims !! "lines" = Some (VInt 2)
  /\ correct small_dims small_dims "a_reflectance.dat" 1 small_store
     = correct small_dims small_dims "a_reflectance.dat" 2 small_store.
Proof.
  split; [reflexivity|].
  apply (chunked_run_equals_single_chunk_run small_dims small_dims
           "a_reflectance.dat" 2 1 2 small_store); [reflexivity|lia|lia|lia].
Defined.

Lemma description_does_not_influence_output_witness :
  radiance_scale (described "radiance [mW * 10]") = F64.of_Z 10
  /\ radiance_scale (described "no scale given") = F64.of_Z 1000
  /\ correct small_dims (described "radiance [mW * 10]")
       "a_reflectance.dat" 500 small_store
     = correct small_dims (described "no scale given")
       "a_reflectance.dat" 500 small_store.
Proof.
  split; [reflexivity|]. split; [reflexivity|].
  apply (description_does_not_influence_output small_dims
           (described "radiance [mW * 10]") (described "no scale given")).
  intros key Hkey. unfold described.
  rewrite !lookup_insert_ne by congruence. reflexivity.
Defined.

(** C7, as stated, fails on a wavelength with more than six decimals:
    0.1234567 is written as 0.123457 and read back as another float. *)
Lemma wavelength_not_reproduced :
  F64.parse "0.1234567" = Some w_seven_decimals
  /\ match read_header_text
           (serialize 1 2 1 {[ "wavelength" := VFloats [w_seven_decimals] ]}) with
     | Ok h => h !! "wavelength"
     | Raise _ => None
     end = Some (VFloats [F64.of_decimal false 123457 (-6)])
  /\ SFeqb w_seven_decimals (F64.of_decimal false 123457 (-6)) = false.
Proof. vm_compute. repeat split. Qed.

(** ** Texts and lines *)

(** [P] holds of every character of [s]. *)
Fixpoint all_chars (P : ascii -> bool) (s : string) : bool :=
  match s with
  | "" => true
  | String c s' => P c && all_chars P s'
  end.

Lemma app_cons (c : ascii) (s t : string) : String c s +:+ t = String c (s +:+ t).
Proof. reflexivity. Qed.

Lemma app_assoc_str (a b c : string) : (a +:+ b) +:+ c = a +:+ b +:+ c.
Proof. induction a as [|x a IH]; [reflexivity|]. rewrite !app_cons, IH. reflexivity. Qed.

Lemma app_empty_r (a : string) : a +:+ "" = a.
Proof. induction a as [|x a IH]; [reflexivity|]. rewrite app_cons, IH. reflexivity. Qed.

Lemma app_nonempty_r (a b : string) : b <> "" -> a +:+ b <> "".
Proof. destruct a; [auto|]. rewrite app_cons. discriminate. Qed.

Lemma all_chars_app (P : ascii -> bool) (a b : string) :
  all_chars P (a +:+ b) = all_chars P a && all_chars P b.
Proof.
  induction a as [|x a IH]; [reflexivity|].
  rewrite app_cons. simpl. rewrite IH, andb_assoc. reflexivity.
Qed.

Lemma all_chars_impl (P Q : ascii -> bool) (s : string) :
  (forall c, P c = true -> Q c = true) ->
  all_chars P s = true -> all_chars Q s = true.
Proof.
  intros H. induction s as [|x s IH]; [reflexivity|]. simpl.
  intros [Hx Hs]%andb_prop. rewrite (H _ Hx), (IH Hs). reflexivity.
Qed.

Lemma all_chars_has_char (P : ascii -> bool) (c : ascii) (s : string) :
  all_chars P s = true -> P c = false -> Py.has_char c s = false.
Proof.
  intros Hs Hc. induction s as [|x s IH]; [reflexivity|].
  simpl in Hs. apply andb_prop in Hs as [Hx Hs]. rewrite has_char_cons, (IH Hs).
  destruct (Ascii.eqb c x) eqn:E; [|reflexivity].
  apply Ascii.eqb_eq in E. congruence.
Qed.

Lemma has_char_app (c : ascii) (a b : string) :
  Py.has_char c (a +:+ b) = Py.has_char c a || Py.has_char c b.
Proof.
  induction a as [|x a IH]; [reflexivity|].
  rewrite app_cons, !has_char_cons, IH, orb_assoc. reflexivity.
Qed.

Lemma rstrip_cons (c : ascii) (s : string) :
  Py.isspace c = false -> Py.rstrip (String c s) = String c (Py.rstrip s).
Proof. intros H. simpl. rewrite H. destruct (Py.rstrip s); reflexivity. Qed.

Lemma rstrip_cons_nonempty (c : ascii) (s : string) :
  Py.rstrip s <> "" -> Py.rstrip (String c s) = String c (Py.rstrip s).
Proof. intros H. simpl. destruct (Py.rstrip s); [contradiction|reflexivity]. Qed.

Lemma rstrip_app (a b : string) :
  Py.rstrip b <> "" -> Py.rstrip (a +:+ b) = a +:+ Py.rstrip b.
Proof.
  intros H. induction a as [|x a IH]; [reflexivity|].
  rewrite !app_cons, rstrip_cons_nonempty, IH; [reflexivity|].
  rewrite IH. apply app_nonempty_r, H.
Qed.

Lemma rstrip_app_space (s t : string) :
  all_chars Py.isspace t = true -> Py.rstrip (s +:+ t) = Py.rstrip s.
Proof.
  intros Ht.
  assert (Hb : Py.rstrip t = "").
  { induction t as [|x t IH]; [reflexivity|]. simpl in Ht.
    apply andb_prop in Ht as [Hx Ht]. simpl. rewrite (IH Ht), Hx. reflexivity. }
  induction s as [|x s IH]; [exact Hb|].
  rewrite app_cons. simpl. rewrite IH. reflexivity.
Qed.

Lemma rstrip_no_space (s : string) :
  all_chars (fun c => negb (Py.isspace c)) s = true -> Py.rstrip s = s.
Proof.
  induction s as [|x s IH]; [reflexivity|]. simpl all_chars.
  intros [Hx Hs]%andb_prop. apply negb_true_iff in Hx.
  rewrite rstrip_cons, (IH Hs); auto.
Qed.

Lemma split1_app (c : ascii) (a t : string) :
  Py.has_char c a = false -> Py.split1 c (a +:+ String c t) = (a, Some t).
Proof.
  induction a as [|x a IH]; intros H.
  - simpl. rewrite Ascii.eqb_refl. reflexivity.
  - rewrite has_char_cons in H. apply orb_false_elim in H as [Hx Ha].
    rewrite app_cons. simpl. rewrite Hx, (IH Ha). reflexivity.
Qed.

Lemma split_app (c : ascii) (a t : string) :
  Py.has_char c a = false -> Py.split c (a +:+ String c t) = a :: Py.split c t.
Proof.
  induction a as [|x a IH]; intros H.
  - simpl. rewrite Ascii.eqb_refl. reflexivity.
  - rewrite has_char_cons in H. apply orb_false_elim in H as [Hx Ha].
    rewrite app_cons. simpl. rewrite Hx, (IH Ha). reflexivity.
Qed.

Lemma split_none (c : ascii) (s : string) :
  Py.has_char c s = false -> Py.split c s = [s].
Proof.
  induction s as [|x s IH]; intros H; [reflexivity|].
  rewrite has_char_cons in H. apply orb_false_elim in H as [Hx Hs].
  simpl. rewrite Hx, (IH Hs). reflexivity.
Qed.

Lemma readlines_line (s rest : string) :
  Py.has_char LF s = false -> Py.has_char CR s = false ->
  readlines (s +:+ nl +:+ rest) = (s +:+ nl) :: readlines rest.
Proof.
  induction s as [|x s IH]; intros Hl Hc.
  - reflexivity.
  - rewrite has_char_cons in Hl, Hc.
    apply orb_false_elim in Hl as [Hxl Hl]. apply orb_false_elim in Hc as [Hxc Hc].
    rewrite !app_cons. simpl readlines.
    rewrite (Ascii.eqb_sym x LF), Hxl, (Ascii.eqb_sym x CR), Hxc.
    rewrite (IH Hl Hc). reflexivity.
Qed.

Lemma feed_line (st : reader) (s rest : string) :
  Py.has_char LF s = false -> Py.has_char CR s = false ->
  feed st (s +:+ nl +:+ rest) =
    match read_line st (s +:+ nl) with
    | Ok st' => feed st' rest
    | Raise e => Raise e
    end.
Proof. intros Hl Hc. unfold feed. rewrite readlines_line by assumption. reflexivity. Qed.

Lemma lstrip_app (k rest : string) :
  Py.lstrip k = k -> k <> "" -> Py.lstrip (k +:+ rest) = k +:+ rest.
Proof.
  destruct k as [|c k]; [contradiction|]. intros H _. simpl in H.
  rewrite app_cons. simpl. destruct (Py.isspace c) eqn:E; [|reflexivity].
  exfalso.
  assert (Hlen : forall s, (String.length (Py.lstrip s) <= String.length s)%nat).
  { induction s as [|x s IH]; simpl; [lia|]. destruct (Py.isspace x); simpl; lia. }
  pose proof (Hlen k) as Hk. rewrite H in Hk. simpl in Hk. lia.
Qed.

Lemma strip_line (k rest : string) :
  Py.lstrip k = k -> k <> "" ->
  Py.strip ((k +:+ rest) +:+ nl) = Py.rstrip (k +:+ rest).
Proof.
  intros H1 H2. unfold Py.strip. rewrite app_assoc_str, lstrip_app by assumption.
  rewrite <- app_assoc_str. apply rstrip_app_space. reflexivity.
Qed.

Lemma strip_after_blank (v : string) :
  Py.lstrip v = v -> Py.rstrip v = v -> Py.strip (Py.rstrip (String " " v)) = v.
Proof.
  intros Hl Hr. simpl Py.rstrip. rewrite Hr. destruct v as [|c v]; [reflexivity|].
  unfold Py.strip. change (Py.lstrip (String " " (String c v))) with (Py.lstrip (String c v)).
  rewrite Hl, Hr. reflexivity.
Qed.

(** A line [key = v] outside a list opens a list under the key when [v]
    has an opening brace and no closing one, and stores the decoded value
    under the key otherwise. *)
Lemma read_line_key (st : reader) (k v : string) :
  collecting st = None -> written_key k ->
  Py.lstrip v = v -> Py.rstrip v = v ->
  read_line st ((k +:+ " = " +:+ v) +:+ nl) =
    if Py.has_char "{" v && negb (Py.has_char "}" v) then
      Ok {| header_info := header_info st;
            current_array := Some k;
            array_data := split_strip (Py.item (Py.split "{" v) 1) |}
    else
      match decode k v with
      | Ok x => Ok (assign st k x)
      | Raise e => Raise e
      end.
Proof.
  intros Hst (Hk1 & Hk2 & Hk3 & Hk4) Hv1 Hv2. unfold read_line.
  rewrite strip_line by assumption.
  assert (Hline : Py.rstrip (k +:+ " = " +:+ v)
                  = (k +:+ " ") +:+ String "=" (Py.rstrip (String " " v))).
  { change (k +:+ " = " +:+ v) with (k +:+ " " +:+ String "=" (String " " v)).
    rewrite <- app_assoc_str. rewrite rstrip_app.
    - rewrite rstrip_cons by reflexivity. reflexivity.
    - rewrite rstrip_cons by reflexivity. discriminate. }
  rewrite Hline.
  assert (Hne : String.eqb ((k +:+ " ") +:+ String "=" (Py.rstrip (String " " v))) "" = false).
  { apply String.eqb_neq. apply app_nonempty_r. discriminate. }
  rewrite Hne, Hst.
  rewrite has_char_app, has_char_cons, Ascii.eqb_refl, orb_true_r.
  rewrite split1_app by (rewrite has_char_app, Hk3; reflexivity).
  rewrite Hk4. cbn [default from_option id]. rewrite strip_after_blank by assumption.
  reflexivity.
Qed.

(** A line [key = v] outside a list stores the decoded value under the key,
    unless [v] opens a list. *)
Lemma read_line_field (st : reader) (k v : string) :
  collecting st = None -> written_key k ->
  Py.lstrip v = v -> Py.rstrip v = v ->
  Py.has_char "{" v && negb (Py.has_char "}" v) = false ->
  read_line st ((k +:+ " = " +:+ v) +:+ nl) =
    match decode k v with
    | Ok x => Ok (assign st k x)
    | Raise e => Raise e
    end.
Proof.
  intros Hst Hk Hv1 Hv2 Hv3. rewrite read_line_key by assumption.
  rewrite Hv3. reflexivity.
Qed.

(** ** Numerals *)

Fixpoint digit_list (s : string) : list Z :=
  match s with
  | "" => []
  | String c s' => Py.digit_val c :: digit_list s'
  end.

Lemma digit_char_spec (d : Z) :
  0 <= d < 10 ->
  Py.is_digit (Py.digit_char d) = true /\ Py.digit_val (Py.digit_char d) = d.
Proof.
  intros H.
  assert (Hd : d = 0 \/ d = 1 \/ d = 2 \/ d = 3 \/ d = 4 \/ d = 5 \/ d = 6
               \/ d = 7 \/ d = 8 \/ d = 9) by lia.
  repeat (destruct Hd as [->|Hd]; [split; reflexivity|]). subst d. split; reflexivity.
Qed.

Lemma digit_part_digits (s : string) : forall prev,
  all_chars Py.is_digit s = true -> prev = true \/ s <> "" ->
  Py.digit_part prev s = Some (digit_list s).
Proof.
  induction s as [|c s IH]; intros prev Hs Hp.
  - destruct Hp as [->|Hp]; [reflexivity|contradiction].
  - simpl in Hs. apply andb_prop in Hs as [Hc Hs]. simpl. rewrite Hc.
    rewrite (IH true Hs (or_introl eq_refl)). reflexivity.
Qed.

Lemma pos_digits_digits (fuel : nat) : forall n acc,
  0 <= n -> all_chars Py.is_digit acc = true ->
  all_chars Py.is_digit (Py.pos_digits fuel n acc) = true.
Proof.
  induction fuel as [|fuel IH]; intros n acc Hn Hacc; [exact Hacc|].
  simpl.
  assert (Hd : all_chars Py.is_digit (String (Py.digit_char (n mod 10)) acc) = true).
  { simpl. rewrite Hacc, andb_true_r.
    apply digit_char_spec. apply Z.mod_pos_bound. lia. }
  destruct (n <? 10); [exact Hd|].
  apply IH; [apply Z.div_pos; lia|exact Hd].
Qed.

Lemma pos_digits_nonempty (fuel : nat) : forall n acc,
  Py.pos_digits (S fuel) n acc <> "".
Proof.
  induction fuel as [|fuel IH]; intros n acc.
  - simpl. destruct (n <? 10); discriminate.
  - change (Py.pos_digits (S (S fuel)) n acc) with
      (let acc' := String (Py.digit_char (n mod 10)) acc in
       if n <? 10 then acc' else Py.pos_digits (S fuel) (n / 10) acc').
    simpl. destruct (n <? 10); [discriminate|]. apply IH.
Qed.

Lemma pos_digits_value (fuel : nat) : forall n acc,
  0 <= n < 10 ^ Z.of_nat fuel ->
  fold_left read_digit (digit_list (Py.pos_digits fuel n acc)) 0
  = fold_left read_digit (digit_list acc) n.
Proof.
  induction fuel as [|fuel IH]; intros n acc Hn.
  - simpl in *. replace n with 0 by lia. reflexivity.
  - change (Py.pos_digits (S fuel) n acc) with
      (let acc' := String (Py.digit_char (n mod 10)) acc in
       if n <? 10 then acc' else Py.pos_digits fuel (n / 10) acc').
    cbv zeta.
    assert (Hm : 0 <= n mod 10 < 10) by (apply Z.mod_pos_bound; lia).
    destruct (digit_char_spec _ Hm) as [_ Hv].
    destruct (n <? 10) eqn:E.
    + apply Z.ltb_lt in E. simpl. rewrite Hv. unfold read_digit at 2.
      rewrite Z.mod_small by lia. reflexivity.
    + apply Z.ltb_ge in E. rewrite IH.
      * simpl. rewrite Hv. unfold read_digit at 2.
        f_equal. pose proof (Z.div_mod n 10 ltac:(lia)). lia.
      * split; [apply Z.div_pos; lia|].
        apply Z.div_lt_upper_bound; [lia|].
        rewrite Nat2Z.inj_succ, Z.pow_succ_r in Hn by lia. lia.
Qed.

Lemma nat_str_fuel (n : Z) : 0 <= n -> n < 10 ^ Z.of_nat (S (Z.to_nat (Z.log2 n))).
Proof.
  intros Hn. destruct (Z.eq_dec n 0) as [->|Hne]; [reflexivity|].
  pose proof (Z.log2_nonneg n) as Hl.
  rewrite Nat2Z.inj_succ, Z2Nat.id by lia.
  pose proof (Z.log2_spec n ltac:(lia)) as [_ Hlt].
  eapply Z.lt_le_trans; [exact Hlt|].
  apply Z.pow_le_mono_l. lia.
Qed.

Lemma nat_str_digits (n : Z) :
  0 <= n -> all_chars Py.is_digit (Py.nat_str n) = true /\ Py.nat_str n <> "".
Proof.
  intros Hn. split.
  - apply pos_digits_digits; auto.
  - apply pos_digits_nonempty.
Qed.

Lemma nat_str_value (n : Z) :
  0 <= n -> Py.digits_to_Z (digit_list (Py.nat_str n)) = n.
Proof.
  intros Hn. unfold Py.digits_to_Z, Py.nat_str.
  change (fun acc d : Z => 10 * acc + d) with read_digit.
  rewrite pos_digits_value by (split; [lia|apply nat_str_fuel; lia]).
  reflexivity.
Qed.

Lemma digit_not_space (c : ascii) : Py.is_digit c = true -> Py.isspace c = false.
Proof.
  unfold Py.is_digit, Py.isspace. intros H.
  apply andb_prop in H as [H1 H2]. apply Z.leb_le in H1, H2.
  repeat match goal with
         | |- context [?a <=? ?b] => destruct (Z.leb_spec a b); try lia
         | |- context [?a =? ?b] => destruct (Z.eqb_spec a b); try lia
         end; reflexivity.
Qed.

Lemma numeral_char_not_space (c : ascii) :
  numeral_char c = true -> negb (Py.isspace c) = true.
Proof.
  unfold numeral_char. intros [H|H]%orb_prop.
  - rewrite digit_not_space by exact H. reflexivity.
  - apply Ascii.eqb_eq in H. subst c. reflexivity.
Qed.

Lemma str_int_chars (n : Z) :
  all_chars numeral_char (Py.str_int n) = true /\ Py.str_int n <> "".
Proof.
  unfold Py.str_int. destruct (n <? 0) eqn:E.
  - apply Z.ltb_lt in E. destruct (nat_str_digits (- n)) as [Hd _]; [lia|].
    split; [|discriminate]. simpl.
    apply (all_chars_impl Py.is_digit); [|exact Hd].
    intros c Hc. unfold numeral_char. rewrite Hc. reflexivity.
  - apply Z.ltb_ge in E. destruct (nat_str_digits n E) as [Hd Hne].
    split; [|exact Hne].
    apply (all_chars_impl Py.is_digit); [|exact Hd].
    intros c Hc. unfold numeral_char. rewrite Hc. reflexivity.
Qed.

Lemma lstrip_no_space (s : string) :
  all_chars (fun c => negb (Py.isspace c)) s = true -> Py.lstrip s = s.
Proof.
  destruct s as [|c s]; [reflexivity|]. simpl.
  intros [Hc _]%andb_prop. apply negb_true_iff in Hc. rewrite Hc. reflexivity.
Qed.

Lemma digit_list_length (s : string) : length (digit_list s) = String.length s.
Proof. induction s as [|c s IH]; simpl; [reflexivity|]. rewrite IH. reflexivity. Qed.

(** [int(str(n)) == n] for an [int] that [str] writes. *)
Lemma int_str_int (n : Z) :
  Py.str_int_allowed n = true -> Py.int (Py.str_int n) = Some n.
Proof.
  intros Ha. unfold Py.str_int_allowed in Ha.
  destruct (str_int_chars n) as [Hc Hne].
  pose proof (all_chars_impl _ _ _ numeral_char_not_space Hc) as Hs.
  unfold Py.int, Py.strip. rewrite lstrip_no_space, rstrip_no_space by exact Hs.
  unfold Py.str_int in *. destruct (n <? 0) eqn:E.
  - apply Z.ltb_lt in E. destruct (nat_str_digits (- n)) as [Hd Hn]; [lia|].
    simpl Py.take_sign. cbv iota beta.
    rewrite (digit_part_digits _ false Hd (or_intror Hn)).
    rewrite digit_list_length.
    replace (Z.abs n) with (- n) in Ha by lia. rewrite Ha.
    rewrite nat_str_value by lia. f_equal. lia.
  - apply Z.ltb_ge in E. destruct (nat_str_digits n E) as [Hd Hn].
    replace (Z.abs n) with n in Ha by lia.
    destruct (Py.nat_str n) as [|c s] eqn:Es; [contradiction|].
    assert (Hsign : Py.take_sign (String c s) = (false, String c s)).
    { simpl in Hd. apply andb_prop in Hd as [Hcd _].
      unfold Py.take_sign.
      destruct (Ascii.eqb c "-") eqn:E1;
        [apply Ascii.eqb_eq in E1; subst c; discriminate|].
      destruct (Ascii.eqb c "+") eqn:E2;
        [apply Ascii.eqb_eq in E2; subst c; discriminate|].
      destruct c as [[] [] [] [] [] [] [] []]; try reflexivity; discriminate. }
    rewrite Hsign.
    rewrite (digit_part_digits _ false Hd (or_intror Hn)).
    rewrite digit_list_length, Ha.
    rewrite <- Es, nat_str_value by lia. reflexivity.
Qed.

(** ** Six-decimal texts *)

Lemma zeros_digits (n : nat) : all_chars Py.is_digit (F64.zeros n) = true.
Proof. induction n as [|n IH]; [reflexivity|]. simpl. exact IH. Qed.

Lemma zfill_digits (n : nat) (s : string) :
  all_chars Py.is_digit s = true -> s <> "" ->
  all_chars Py.is_digit (F64.zfill n s) = true /\ F64.zfill n s <> "".
Proof.
  intros Hs Hne. unfold F64.zfill. split.
  - rewrite all_chars_app, zeros_digits, Hs. reflexivity.
  - apply app_nonempty_r, Hne.
Qed.

Lemma div_half_even_nonneg (n d : Z) : 0 <= n -> 0 < d -> 0 <= F64.div_half_even n d.
Proof.
  intros Hn Hd. unfold F64.div_half_even.
  pose proof (Z.div_pos n d Hn Hd).
  destruct (2 * (n mod d) ?= d); [destruct (Z.even (n / d))|..]; lia.
Qed.

Lemma scaled_nonneg (m : positive) (e k : Z) : 0 <= k -> 0 <= F64.scaled m e k.
Proof.
  intros Hk. unfold F64.scaled. destruct (0 <=? e) eqn:E.
  - apply Z.leb_le in E.
    apply Z.mul_nonneg_nonneg; [apply Z.mul_nonneg_nonneg|]; try lia;
      apply Z.pow_nonneg; lia.
  - apply Z.leb_gt in E. apply div_half_even_nonneg.
    + apply Z.mul_nonneg_nonneg; [lia|apply Z.pow_nonneg; lia].
    + apply Z.pow_pos_nonneg; lia.
Qed.

(** The two digit strings of a fixed-point text. *)
Lemma fixed6_parts (n : Z) :
  0 <= n ->
  let ip := Py.nat_str (n / 1000000) in
  let fp := F64.zfill 6 (Py.nat_str (n mod 1000000)) in
  (all_chars Py.is_digit ip = true /\ ip <> "")
  /\ (all_chars Py.is_digit fp = true /\ fp <> "").
Proof.
  intros Hn ip fp. split.
  - apply nat_str_digits. apply Z.div_pos; lia.
  - destruct (nat_str_digits (n mod 1000000)) as [Hd Hne].
    { apply Z.mod_pos_bound. lia. }
    apply zfill_digits; assumption.
Qed.

Lemma digit_float_char (c : ascii) : Py.is_digit c = true -> float_char c = true.
Proof. intros H. unfold float_char. rewrite H. reflexivity. Qed.

Lemma sign_str_chars (neg : bool) : all_chars float_char (F64.sign_str neg) = true.
Proof. destruct neg; reflexivity. Qed.

Lemma fixed6_chars (neg : bool) (n : Z) :
  0 <= n -> all_chars float_char (F64.fixed6 neg n) = true /\ F64.fixed6 neg n <> "".
Proof.
  intros Hn. destruct (fixed6_parts n Hn) as [[Hi Hin] [Hf Hfn]].
  unfold F64.fixed6. split.
  - rewrite !all_chars_app, sign_str_chars.
    rewrite (all_chars_impl _ _ _ digit_float_char Hi).
    rewrite (all_chars_impl _ _ _ digit_float_char Hf). reflexivity.
  - apply app_nonempty_r, app_nonempty_r. discriminate.
Qed.

Lemma format_6f_chars (x : spec_float) :
  all_chars float_char (F64.format_6f x) = true /\ F64.format_6f x <> "".
Proof.
  destruct x as [s|s| |s m e]; simpl.
  - apply fixed6_chars. lia.
  - destruct s; split; try reflexivity; discriminate.
  - split; [reflexivity|discriminate].
  - apply fixed6_chars, scaled_nonneg. lia.
Qed.

Lemma float_char_not_space (c : ascii) :
  float_char c = true -> negb (Py.isspace c) = true.
Proof.
  unfold float_char. intros [H|H]%orb_prop.
  - rewrite digit_not_space by exact H. reflexivity.
  - destruct c as [[] [] [] [] [] [] [] []]; try discriminate H; reflexivity.
Qed.

Lemma split_exp_none (s : string) :
  Py.has_char "e" s = false -> Py.has_char "E" s = false ->
  F64.split_exp s = (s, None).
Proof.
  induction s as [|c s IH]; intros He HE; [reflexivity|].
  rewrite has_char_cons in He, HE.
  apply orb_false_elim in He as [He1 He]. apply orb_false_elim in HE as [HE1 HE].
  simpl. rewrite (Ascii.eqb_sym c "e"), He1, (Ascii.eqb_sym c "E"), HE1.
  simpl. rewrite (IH He HE). reflexivity.
Qed.

Lemma digit_head (c : ascii) (s : string) :
  Py.is_digit c = true ->
  Py.take_sign (String c s) = (false, String c s)
  /\ String.eqb (Py.lower (String c s)) "inf" = false
  /\ String.eqb (Py.lower (String c s)) "infinity" = false
  /\ String.eqb (Py.lower (String c s)) "nan" = false.
Proof.
  intros H.
  destruct c as [[] [] [] [] [] [] [] []]; try discriminate H; repeat split.
Qed.

(** [float] reads a fixed-point text. *)
Lemma parse_fixed (neg : bool) (ip fp : string) :
  all_chars Py.is_digit ip = true -> ip <> "" ->
  all_chars Py.is_digit fp = true -> fp <> "" ->
  F64.parse (F64.sign_str neg +:+ ip +:+ "." +:+ fp)
  = Some (F64.of_decimal neg (Py.digits_to_Z (digit_list ip ++ digit_list fp))
            (0 - Z.of_nat (length (digit_list fp)))).
Proof.
  intros Hi Hin Hf Hfn.
  assert (Hd : forall c, Py.is_digit c = true ->
                 negb (Py.isspace c) = true) by
    (intros c Hc; rewrite digit_not_space by exact Hc; reflexivity).
  assert (Hbody : all_chars float_char (ip +:+ "." +:+ fp) = true).
  { rewrite !all_chars_app, (all_chars_impl _ _ _ digit_float_char Hi),
      (all_chars_impl _ _ _ digit_float_char Hf). reflexivity. }
  assert (Hall : all_chars float_char (F64.sign_str neg +:+ ip +:+ "." +:+ fp) = true).
  { rewrite all_chars_app, sign_str_chars. exact Hbody. }
  pose proof (all_chars_impl _ _ _ float_char_not_space Hall) as Hns.
  unfold F64.parse, Py.strip.
  rewrite lstrip_no_space, rstrip_no_space by exact Hns.
  destruct ip as [|c ip']; [contradiction|].
  assert (Hc : Py.is_digit c = true) by (simpl in Hi; apply andb_prop in Hi as [? _]; auto).
  destruct (digit_head c (ip' +:+ "." +:+ fp) Hc) as (Hsign & H1 & H2 & H3).
  assert (Hts : Py.take_sign (F64.sign_str neg +:+ String c ip' +:+ "." +:+ fp)
                = (neg, String c ip' +:+ "." +:+ fp)).
  { destruct neg; [reflexivity|]. exact Hsign. }
  rewrite Hts. cbv beta iota zeta.
  change (String c ip' +:+ "." +:+ fp) with (String c (ip' +:+ "." +:+ fp)).
  rewrite H1, H2, H3. cbv beta iota zeta. simpl orb. cbv beta iota.
  change (String c (ip' +:+ "." +:+ fp)) with (String c ip' +:+ String "." fp).
  rewrite split_exp_none.
  2:{ apply (all_chars_has_char float_char); [exact Hbody|reflexivity]. }
  2:{ apply (all_chars_has_char float_char); [exact Hbody|reflexivity]. }
  cbv beta iota zeta.
  rewrite split1_app by (apply (all_chars_has_char Py.is_digit); [exact Hi|reflexivity]).
  cbv beta iota zeta.
  unfold F64.opt_digits.
  rewrite (digit_part_digits _ false Hi (or_intror Hin)).
  destruct fp as [|d fp']; [contradiction|].
  rewrite (digit_part_digits _ false Hf (or_intror Hfn)).
  reflexivity.
Qed.

(** Every six-decimal text is read as a float. *)
Lemma parse_format_6f (x : spec_float) : exists f, F64.parse (F64.format_6f x) = Some f.
Proof.
  assert (Hfix : forall neg n, 0 <= n -> exists f, F64.parse (F64.fixed6 neg n) = Some f).
  { intros neg n Hn. destruct (fixed6_parts n Hn) as [[Hi Hin] [Hf Hfn]].
    unfold F64.fixed6. rewrite (parse_fixed neg _ _ Hi Hin Hf Hfn). eauto. }
  destruct x as [s|s| |s m e]; simpl.
  - apply Hfix. lia.
  - destruct s; vm_compute; eauto.
  - vm_compute. eauto.
  - apply Hfix, scaled_nonneg. lia.
Qed.

Lemma reread_spec (x : spec_float) : F64.parse (F64.format_6f x) = Some (reread x).
Proof. unfold reread. destruct (parse_format_6f x) as [f ->]. reflexivity. Qed.

(** ** Reading the written header *)

(** The pieces collected from the lines of a written list. *)
Fixpoint pieces (x : spec_float) (xs : list spec_float) : list string :=
  match xs with
  | [] => [F64.format_6f x]
  | y :: ys => F64.format_6f x :: "" :: pieces y ys
  end.

Lemma feed_nil (st : reader) : feed st "" = Ok st.
Proof. reflexivity. Qed.

Lemma feed_skip (st : reader) (s rest : string) :
  collecting st = None ->
  Py.has_char LF s = false -> Py.has_char CR s = false ->
  Py.has_char "=" (Py.strip (s +:+ nl)) = false ->
  feed st (s +:+ nl +:+ rest) = feed st rest.
Proof.
  intros Hst Hl Hc He. rewrite feed_line by assumption.
  unfold read_line. rewrite Hst, He.
  destruct (String.eqb (Py.strip (s +:+ nl)) ""); reflexivity.
Qed.

Lemma feed_field (st : reader) (k v rest : string) :
  collecting st = None -> written_key k ->
  Py.has_char LF k = false -> Py.has_char CR k = false ->
  Py.lstrip v = v -> Py.rstrip v = v ->
  Py.has_char LF v = false -> Py.has_char CR v = false ->
  Py.has_char "{" v && negb (Py.has_char "}" v) = false ->
  feed st (field_line k v +:+ rest) =
    match decode k v with
    | Ok x => feed (assign st k x) rest
    | Raise e => Raise e
    end.
Proof.
  intros Hst Hk Hkl Hkc Hv1 Hv2 Hvl Hvc Hv3. unfold field_line.
  replace ((k +:+ " = " +:+ v +:+ nl) +:+ rest)
    with ((k +:+ " = " +:+ v) +:+ nl +:+ rest) by (rewrite !app_assoc_str; reflexivity).
  rewrite feed_line.
  - rewrite read_line_field by assumption. destruct (decode k v); reflexivity.
  - rewrite !has_char_app, Hkl, Hvl. reflexivity.
  - rewrite !has_char_app, Hkc, Hvc. reflexivity.
Qed.

Lemma collecting_assign (st : reader) (k : string) (x : value) :
  collecting (assign st k x) = collecting st.
Proof. reflexivity. Qed.

(** The text of a float between a blank and a closing character [c]. *)
Lemma strip_element (f : string) (c : ascii) :
  all_chars float_char f = true -> f <> "" -> Py.isspace c = false ->
  Py.strip ((" " +:+ f +:+ String c "") +:+ nl) = f +:+ String c "".
Proof.
  intros Hf Hne Hc.
  pose proof (all_chars_impl _ _ _ float_char_not_space Hf) as Hs.
  assert (Hfc : all_chars (fun a => negb (Py.isspace a)) (f +:+ String c "") = true).
  { rewrite all_chars_app, Hs. simpl. rewrite Hc. reflexivity. }
  unfold Py.strip.
  change ((" " +:+ f +:+ String c "") +:+ nl)
    with (String " " ((f +:+ String c "") +:+ nl)).
  change (Py.lstrip (String " " ((f +:+ String c "") +:+ nl)))
    with (Py.lstrip ((f +:+ String c "") +:+ nl)).
  rewrite lstrip_app.
  - rewrite rstrip_app_space by reflexivity. apply rstrip_no_space, Hfc.
  - apply lstrip_no_space, Hfc.
  - apply app_nonempty_r. discriminate.
Qed.

Lemma float_text_facts (f : string) :
  all_chars float_char f = true ->
  Py.strip f = f /\ Py.has_char "," f = false /\ Py.has_char "}" f = false
  /\ Py.has_char LF f = false /\ Py.has_char CR f = false.
Proof.
  intros Hf. pose proof (all_chars_impl _ _ _ float_char_not_space Hf) as Hs.
  split; [unfold Py.strip; rewrite lstrip_no_space, rstrip_no_space; auto|].
  repeat split; apply (all_chars_has_char float_char); auto.
Qed.

Lemma read_line_element (st : reader) (cur f : string) :
  collecting st = Some cur -> all_chars float_char f = true -> f <> "" ->
  read_line st ((" " +:+ f +:+ ",") +:+ nl)
  = Ok {| header_info := header_info st;
          current_array := current_array st;
          array_data := array_data st ++ [f; ""] |}.
Proof.
  intros Hst Hf Hne. destruct (float_text_facts f Hf) as (Hs & Hc & Hb & _).
  unfold read_line. rewrite (strip_element f ",") by auto.
  replace (String.eqb (f +:+ ",") "") with false
    by (symmetry; apply String.eqb_neq, app_nonempty_r; discriminate).
  rewrite Hst, has_char_app, Hb. cbn [Py.has_char Ascii.eqb orb negb].
  unfold split_strip. rewrite split_app by exact Hc.
  cbn [map Py.split]. rewrite Hs. reflexivity.
Qed.

Lemma read_line_last (st : reader) (cur f : string) :
  collecting st = Some cur -> all_chars float_char f = true -> f <> "" ->
  read_line st ((" " +:+ f +:+ "}") +:+ nl) = Ok (closed st cur (array_data st ++ [f])).
Proof.
  intros Hst Hf Hne. destruct (float_text_facts f Hf) as (Hs & Hc & Hb & _).
  unfold read_line. rewrite (strip_element f "}") by auto.
  replace (String.eqb (f +:+ "}") "") with false
    by (symmetry; apply String.eqb_neq, app_nonempty_r; discriminate).
  rewrite Hst, has_char_app.
  replace (Py.has_char "}" "}") with true by reflexivity.
  rewrite orb_true_r. cbn [negb].
  rewrite split_app by exact Hb. unfold Py.item. cbn [nth].
  unfold split_strip. rewrite split_none by exact Hc. cbn [map]. rewrite Hs.
  reflexivity.
Qed.

(** The lines of a written list, read inside the list, close it with the
    pieces of its elements. *)
Lemma feed_elements (rest : string) (xs : list spec_float) :
  forall (x : spec_float) (st : reader) (cur : string),
    collecting st = Some cur ->
    feed st (Py.join ("," +:+ nl) (map wl_line (x :: xs)) +:+ "}" +:+ nl +:+ rest)
    = feed (closed st cur (array_data st ++ pieces x xs)) rest.
Proof.
  induction xs as [|y ys IH]; intros x st cur Hst;
    destruct (format_6f_chars x) as [Hf Hne];
    destruct (float_text_facts _ Hf) as (_ & _ & _ & Hl & Hc).
  - cbn [map Py.join pieces]. unfold wl_line.
    replace ((" " +:+ F64.format_6f x) +:+ "}" +:+ nl +:+ rest)
      with ((" " +:+ F64.format_6f x +:+ "}") +:+ nl +:+ rest)
      by (rewrite !app_assoc_str; reflexivity).
    rewrite feed_line.
    + rewrite (read_line_last st cur) by auto. reflexivity.
    + rewrite !has_char_app, Hl. reflexivity.
    + rewrite !has_char_app, Hc. reflexivity.
  - change (Py.join ("," +:+ nl) (map wl_line (x :: y :: ys)))
      with (wl_line x +:+ ("," +:+ nl) +:+ Py.join ("," +:+ nl) (map wl_line (y :: ys))).
    unfold wl_line at 1.
    replace (((" " +:+ F64.format_6f x) +:+ ("," +:+ nl) +:+
              Py.join ("," +:+ nl) (map wl_line (y :: ys))) +:+ "}" +:+ nl +:+ rest)
      with ((" " +:+ F64.format_6f x +:+ ",") +:+ nl +:+
            (Py.join ("," +:+ nl) (map wl_line (y :: ys)) +:+ "}" +:+ nl +:+ rest)).
    2:{ rewrite !app_assoc_str. reflexivity. }
    rewrite feed_line.
    + rewrite (read_line_element st cur) by auto.
      rewrite (IH y _ cur) by exact Hst.
      unfold closed. cbn [header_info array_data pieces].
      rewrite <- app_assoc. reflexivity.
    + rewrite !has_char_app, Hl. reflexivity.
    + rewrite !has_char_app, Hc. reflexivity.
Qed.

Lemma nonempty_format_6f (x : spec_float) : nonempty (F64.format_6f x) = true.
Proof.
  destruct (format_6f_chars x) as [_ Hne]. unfold nonempty.
  apply negb_true_iff, String.eqb_neq, Hne.
Qed.

Lemma filter_pieces (xs : list spec_float) : forall x,
  List.filter nonempty (pieces x xs) = map F64.format_6f (x :: xs).
Proof.
  induction xs as [|y ys IH]; intros x.
  - cbn [pieces List.filter]. rewrite nonempty_format_6f. reflexivity.
  - change (pieces x (y :: ys)) with (F64.format_6f x :: "" :: pieces y ys).
    change (List.filter nonempty (F64.format_6f x :: "" :: pieces y ys))
      with (if nonempty (F64.format_6f x)
            then F64.format_6f x :: List.filter nonempty (pieces y ys)
            else List.filter nonempty (pieces y ys)).
    rewrite nonempty_format_6f, IH. reflexivity.
Qed.

Lemma floats_format_6f (l : list spec_float) :
  floats (map F64.format_6f l) = Some (map reread l).
Proof.
  induction l as [|x l IH]; [reflexivity|].
  simpl. rewrite reread_spec, IH. reflexivity.
Qed.

Lemma floats_pieces (x : spec_float) (xs : list spec_float) :
  close_array ("" :: pieces x xs) = VFloats (map reread (x :: xs)).
Proof.
  unfold close_array.
  change (List.filter nonempty ("" :: pieces x xs)) with (List.filter nonempty (pieces x xs)).
  rewrite filter_pieces, floats_format_6f. reflexivity.
Qed.

Lemma feed_literal (st : reader) (line k v rest : string) :
  line = k +:+ " = " +:+ v ->
  feed st (line +:+ nl +:+ rest) = feed st (field_line k v +:+ rest).
Proof. intros ->. unfold field_line. rewrite !app_assoc_str. reflexivity. Qed.

Lemma str_int_plain (n : Z) :
  Py.lstrip (Py.str_int n) = Py.str_int n /\ Py.rstrip (Py.str_int n) = Py.str_int n
  /\ Py.has_char LF (Py.str_int n) = false /\ Py.has_char CR (Py.str_int n) = false
  /\ Py.has_char "{" (Py.str_int n) = false.
Proof.
  destruct (str_int_chars n) as [Hc _].
  pose proof (all_chars_impl _ _ _ numeral_char_not_space Hc) as Hs.
  split; [apply lstrip_no_space, Hs|]. split; [apply rstrip_no_space, Hs|].
  repeat split; apply (all_chars_has_char numeral_char); auto.
Qed.

Lemma decode_dimension (k : string) (n : Z) :
  is_numeric_key k = true -> Py.str_int_allowed n = true ->
  decode k (Py.str_int n) = Ok (VInt n).
Proof.
  intros Hk Ha. destruct (str_int_plain n) as (_ & _ & _ & _ & Hb).
  unfold decode, convert_numeric. rewrite Hb, Hk. simpl andb. cbv iota.
  rewrite int_str_int by exact Ha. reflexivity.
Qed.

Lemma decode_text (k v : string) :
  is_numeric_key k = false -> Py.has_char "{" v = false ->
  decode k v = Ok (VStr v).
Proof.
  intros Hk Hb. unfold decode, convert_numeric. rewrite Hb, Hk. reflexivity.
Qed.

Ltac written_key_tac :=
  split; [reflexivity|split; [discriminate|split; reflexivity]].

Lemma feed_dimension (st : reader) (k rest : string) (n : Z) :
  collecting st = None -> written_key k ->
  Py.has_char LF k = false -> Py.has_char CR k = false ->
  is_numeric_key k = true -> Py.str_int_allowed n = true ->
  feed st (field_line k (Py.str_int n) +:+ rest) = feed (assign st k (VInt n)) rest.
Proof.
  intros Hst Hk Hl Hc Hn Ha. destruct (str_int_plain n) as (H1 & H2 & H3 & H4 & H5).
  rewrite feed_field; auto.
  - rewrite decode_dimension by assumption. reflexivity.
  - rewrite H5. reflexivity.
Qed.

Lemma feed_fixed_fields (nsamples nlines nbands : Z) (rest : string) :
  Py.str_int_allowed nsamples = true -> Py.str_int_allowed nlines = true ->
  Py.str_int_allowed nbands = true ->
  feed reader_init (fixed_fields nsamples nlines nbands +:+ rest)
  = feed (idle (fixed_map nsamples nlines nbands)) rest.
Proof.
  intros Has Hal Hab. unfold fixed_fields. rewrite !app_assoc_str.
  rewrite feed_skip by reflexivity.
  rewrite (feed_literal _ _ "description"
             "{Radiometrically corrected reflectance data}" _ eq_refl).
  rewrite feed_field by first [reflexivity|written_key_tac].
  change (decode "description" "{Radiometrically corrected reflectance data}")
    with (Ok (VStr "Radiometrically corrected reflectance data")). cbv iota.
  rewrite (feed_dimension _ "samples") by first [assumption|reflexivity|written_key_tac].
  rewrite (feed_dimension _ "lines") by first [assumption|reflexivity|written_key_tac].
  rewrite (feed_dimension _ "bands") by first [assumption|reflexivity|written_key_tac].
  rewrite (feed_literal _ _ "header offset" "0" _ eq_refl).
  rewrite feed_field by first [reflexivity|written_key_tac].
  change (decode "header offset" "0") with (Ok (VStr "0")). cbv iota.
  rewrite (feed_literal _ _ "file type" "ENVI Standard" _ eq_refl).
  rewrite feed_field by first [reflexivity|written_key_tac].
  change (decode "file type" "ENVI Standard") with (Ok (VStr "ENVI Standard")). cbv iota.
  rewrite (feed_literal _ _ "data type" "4" _ eq_refl).
  rewrite feed_field by first [reflexivity|written_key_tac].
  change (decode "data type" "4") with (Ok (VInt 4)). cbv iota.
  rewrite (feed_literal _ _ "interleave" "bsq" _ eq_refl).
  rewrite feed_field by first [reflexivity|written_key_tac].
  change (decode "interleave" "bsq") with (Ok (VStr "bsq")). cbv iota.
  rewrite (feed_literal _ _ "byte order" "0" _ eq_refl).
  rewrite feed_field by first [reflexivity|written_key_tac].
  change (decode "byte order" "0") with (Ok (VStr "0")). cbv iota.
  reflexivity.
Qed.

(** ** Value coercion *)

Lemma lstrip_app_any (a b : string) :
  Py.lstrip (a +:+ b)
  = if String.eqb (Py.lstrip a) "" then Py.lstrip b else Py.lstrip a +:+ b.
Proof.
  induction a as [|c a IH]; [reflexivity|].
  rewrite app_cons. simpl. destruct (Py.isspace c); [exact IH|].
  rewrite app_cons. reflexivity.
Qed.

(** The terminator of a line is stripped with the blanks around the
    line. *)
Lemma strip_nl (m : string) : Py.strip (m +:+ nl) = Py.strip m.
Proof.
  unfold Py.strip. rewrite lstrip_app_any.
  destruct (String.eqb_spec (Py.lstrip m) "") as [E|E].
  - rewrite E. reflexivity.
  - apply rstrip_app_space. reflexivity.
Qed.

Lemma read_line_middle (st : reader) (cur m : string) :
  collecting st = Some cur -> Py.has_char "}" m = false ->
  read_line st (m +:+ nl)
  = Ok {| header_info := header_info st;
          current_array := current_array st;
          array_data := array_data st ++ line_pieces m |}.
Proof.
  intros Hst Hb. unfold read_line, line_pieces. rewrite strip_nl.
  destruct (String.eqb (Py.strip m) "").
  - destruct st. simpl. rewrite app_nil_r. reflexivity.
  - rewrite Hst, has_char_strip by reflexivity. rewrite Hb. reflexivity.
Qed.

Lemma read_line_closing (st : reader) (cur last tail : string) :
  collecting st = Some cur -> Py.has_char "}" last = false ->
  read_line st ((last +:+ String "}" tail) +:+ nl)
  = Ok (closed st cur (array_data st ++ split_strip (Py.lstrip last))).
Proof.
  intros Hst Hb. unfold read_line. rewrite strip_nl.
  assert (Hline : Py.strip (last +:+ String "}" tail)
                  = Py.lstrip last +:+ String "}" (Py.rstrip tail)).
  { unfold Py.strip. rewrite lstrip_app_any.
    destruct (String.eqb_spec (Py.lstrip last) "") as [E|E].
    - rewrite E. change (Py.lstrip (String "}" tail)) with (String "}" tail).
      rewrite rstrip_cons by reflexivity. reflexivity.
    - rewrite rstrip_app; rewrite rstrip_cons by reflexivity;
        [reflexivity|discriminate]. }
  rewrite Hline.
  replace (String.eqb (Py.lstrip last +:+ String "}" (Py.rstrip tail)) "")
    with false
    by (symmetry; apply String.eqb_neq, app_nonempty_r; discriminate).
  rewrite Hst, has_char_app, has_char_cons, Ascii.eqb_refl.
  cbn [orb]. rewrite orb_true_r. cbn [negb].
  rewrite split_app by (rewrite has_char_lstrip by reflexivity; exact Hb).
  reflexivity.
Qed.

Lemma rstrip_idem (s : string) : Py.rstrip (Py.rstrip s) = Py.rstrip s.
Proof.
  induction s as [|c s IH]; [reflexivity|]. simpl.
  destruct (Py.rstrip s) as [|d r] eqn:E.
  - destruct (Py.isspace c) eqn:Ec; [reflexivity|].
    apply rstrip_cons, Ec.
  - rewrite rstrip_cons_nonempty; rewrite IH; [reflexivity|discriminate].
Qed.

(** The line that opens a list reads as the line without the blanks at
    its end. *)
Lemma read_line_opening (st : reader) (key first : string) :
  written_key key ->
  read_line st ((key +:+ " = " +:+ String "{" first) +:+ nl)
  = read_line st ((key +:+ " = " +:+ String "{" (Py.rstrip first)) +:+ nl).
Proof.
  intros (Hk1 & Hk2 & _).
  assert (Hs : forall f, Py.strip ((key +:+ " = " +:+ String "{" f) +:+ nl)
                         = (key +:+ " = ") +:+ String "{" (Py.rstrip f)).
  { intros f. rewrite strip_line by assumption.
    rewrite <- app_assoc_str. rewrite rstrip_app;
      rewrite rstrip_cons by reflexivity; [reflexivity|discriminate]. }
  unfold read_line. rewrite !Hs, rstrip_idem. reflexivity.
Qed.

Lemma feed_middle (rest : string) (middle : list string) :
  forall (st : reader) (cur : string),
    collecting st = Some cur -> Forall list_line middle ->
    feed st (lines_text middle rest)
    = feed {| header_info := header_info st;
              current_array := current_array st;
              array_data := array_data st ++ flat_map line_pieces middle |} rest.
Proof.
  induction middle as [|m middle IH]; intros st cur Hst Hall.
  - simpl. rewrite app_nil_r. destruct st; reflexivity.
  - apply List.Forall_cons_iff in Hall as [(Hl & Hc & Hb) Hall].
    unfold lines_text. cbn [fold_right flat_map].
    fold (lines_text middle rest). rewrite feed_line by assumption.
    rewrite (read_line_middle st cur) by assumption.
    rewrite (IH _ cur); [|exact Hst|exact Hall].
    cbn [header_info current_array array_data]. rewrite <- app_assoc. reflexivity.
Qed.

(** A list laid out over lines is stored as the pieces of its lines. *)
Lemma read_laid_out_list (key first : string) (middle : list string)
    (last tail : string) :
  written_key key -> Py.has_char LF key = false -> Py.has_char CR key = false ->
  list_line first -> Py.has_char "{" first = false ->
  Forall list_line middle -> list_line last ->
  Py.has_char LF tail = false -> Py.has_char CR tail = false ->
  read_header_text (laid_out_list key first middle last tail)
  = Ok {[ key := close_array (split_strip (Py.rstrip first)
                              ++ flat_map line_pieces middle
                              ++ split_strip (Py.lstrip last)) ]}.
Proof.
  intros Hk Hkl Hkc (Hfl & Hfc & Hfb) Hfo Hmid (Hll & Hlc & Hlb) Htl Htc.
  unfold read_header_text, laid_out_list.
  fold (feed reader_init
          ((key +:+ " = " +:+ String "{" first) +:+ nl +:+
           lines_text middle ((last +:+ String "}" tail) +:+ nl))).
  rewrite feed_line.
  2:{ rewrite !has_char_app, !has_char_cons, Hkl, Hfl. reflexivity. }
  2:{ rewrite !has_char_app, !has_char_cons, Hkc, Hfc. reflexivity. }
  rewrite read_line_opening by exact Hk.
  rewrite read_line_key; [|reflexivity|exact Hk|reflexivity|].
  2:{ rewrite rstrip_cons, rstrip_idem by reflexivity. reflexivity. }
  rewrite !has_char_cons, !has_char_rstrip, Hfo, Hfb by reflexivity.
  cbn [Ascii.eqb Bool.eqb orb andb negb].
  change (String "{" (Py.rstrip first)) with ("" +:+ String "{" (Py.rstrip first)).
  rewrite split_app by reflexivity.
  rewrite split_none by (rewrite has_char_rstrip by reflexivity; exact Hfo).
  unfold Py.item. cbn [nth header_info reader_init].
  assert (Hcol : forall m d, collecting {| header_info := m; current_array := Some key;
                                           array_data := d |} = Some key).
  { intros m d. unfold collecting. cbn [current_array].
    destruct Hk as (_ & Hne & _).
    destruct (String.eqb_spec key ""); [contradiction|reflexivity]. }
  rewrite (feed_middle _ middle _ key) by (apply Hcol || exact Hmid).
  cbn [header_info current_array array_data].
  rewrite <- (app_empty_r ((last +:+ String "}" tail) +:+ nl)).
  rewrite app_assoc_str, feed_line
    by (rewrite has_char_app, has_char_cons, ?Hll, ?Hlc, ?Htl, ?Htc; reflexivity).
  rewrite (read_line_closing _ key) by (apply Hcol || exact Hlb).
  unfold closed. cbn [header_info array_data]. rewrite <- app_assoc. reflexivity.
Qed.

Lemma close_array_no_int (data : list string) (n : Z) : close_array data <> VInt n.
Proof. unfold close_array. destruct (floats _); discriminate. Qed.

(** C5, as the code has it, for every key as it is stored. A value on
    the line of its key is stored as [decode] gives it: with both braces
    and a comma between them, the non-empty trimmed pieces, as floats when
    all of them are floats and as texts otherwise, which under the keys
    samples, lines, bands and data type raises the [TypeError] of [int] on
    a list; in every other case the text between the braces, or the whole
    value when it has no two braces, as an integer when the key is one of
    those four and [int] reads it, and as text otherwise. A list laid out
    over lines (one opening brace on the line of the key, the closing
    brace on a later line, any text behind it) is stored, under every
    key, as the floats of the non-empty pieces of its lines up to the
    closing brace, or as all the pieces as texts when one of them is no
    float. No value with a comma in it is stored as an integer, and no
    list is. *)
Theorem coercion_by_key_and_braces (key : string) :
  written_key key -> Py.has_char LF key = false -> Py.has_char CR key = false ->
  (forall val, one_line_value val ->
     read_header_text (field_line key val)
     = match decode key val with
       | Ok v => Ok {[ key := v ]}
       | Raise e => Raise e
       end)
  /\ (forall val,
        decode key val
        = if braced val && Py.has_char "," (braced_text val) then
            if is_numeric_key key then Raise int_of_list
            else
              Ok (let pieces :=
                    List.filter nonempty (split_strip (braced_text val)) in
                  match floats pieces with
                  | Some fs => VFloats fs
                  | None => VStrs pieces
                  end)
          else if is_numeric_key key then
            Ok (match Py.int (payload val) with
                | Some n => VInt n
                | None => VStr (payload val)
                end)
          else Ok (VStr (payload val)))
  /\ (forall first middle last tail,
        list_line first -> Py.has_char "{" first = false ->
        Forall list_line middle -> list_line last ->
        Py.has_char LF tail = false -> Py.has_char CR tail = false ->
        read_header_text (laid_out_list key first middle last tail)
        = Ok {[ key := close_array (split_strip (Py.rstrip first)
                                    ++ flat_map line_pieces middle
                                    ++ split_strip (Py.lstrip last)) ]})
  /\ (forall val n, decode key val = Ok (VInt n) ->
        is_numeric_key key = true /\ Py.has_char "," (payload val) = false)
  /\ (forall data n, close_array data <> VInt n).
Proof.
  intros Hk Hkl Hkc.
  assert (Htable : forall val,
            decode key val
            = if braced val && Py.has_char "," (braced_text val) then
                if is_numeric_key key then Raise int_of_list
                else
                  Ok (let pieces :=
                        List.filter nonempty (split_strip (braced_text val)) in
                      match floats pieces with
                      | Some fs => VFloats fs
                      | None => VStrs pieces
                      end)
              else if is_numeric_key key then
                Ok (match Py.int (payload val) with
                    | Some n => VInt n
                    | None => VStr (payload val)
                    end)
              else Ok (VStr (payload val))).
  { intros val. unfold decode, payload, braced, convert_numeric, inline_array.
    destruct (Py.has_char "{" val && Py.has_char "}" val); cbn [andb];
      [destruct (Py.has_char "," (braced_text val))|];
      destruct (is_numeric_key key); try reflexivity;
      try (destruct (floats _); reflexivity);
      destruct (Py.int _); reflexivity. }
  split; [|split; [exact Htable|split; [|split]]].
  - intros val (Hv1 & Hv2 & Hvl & Hvc & Hopen).
    unfold read_header_text. fold (feed reader_init (field_line key val)).
    rewrite <- (app_empty_r (field_line key val)).
    rewrite feed_field by (assumption || reflexivity).
    destruct (decode key val); reflexivity.
  - intros first middle last tail Hf Hfo Hmid Hlast Htl Htc.
    apply read_laid_out_list; assumption.
  - intros val n. rewrite Htable.
    destruct (braced val && Py.has_char "," (braced_text val)).
    + destruct (is_numeric_key key); [discriminate|].
      cbv zeta. destruct (floats _); discriminate.
    + destruct (is_numeric_key key); [|discriminate].
      destruct (Py.int (payload val)) eqn:Ei; [|discriminate].
      intros _. split; [reflexivity|]. eapply int_no_comma, Ei.
  - apply close_array_no_int.
Qed.

Lemma coercion_by_key_and_braces_witness :
  read_header_text (field_line "samples" "42") = Ok {[ "samples" := VInt 42 ]}
  /\ decode "samples" "{1, 2}" = Raise int_of_list
  /\ read_header_text (laid_out_list "samples" "" [" 7"] "" "")
     = Ok {[ "samples" := VFloats [F64.of_Z 7] ]}.
Proof.
  assert (Hkey : written_key "samples") by written_key_tac.
  destruct (coercion_by_key_and_braces "samples" Hkey eq_refl eq_refl)
    as (Hline & Htable & Hlist & _).
  split; [|split].
  - rewrite (Hline "42"); [reflexivity|]. repeat split.
  - rewrite (Htable "{1, 2}"). reflexivity.
  - rewrite (Hlist "" [" 7"] "" "");
      [vm_compute; reflexivity| |reflexivity| | |reflexivity|reflexivity];
      repeat constructor.
Defined.

Lemma feed_wavelength_field (m : gmap string value) (o : option value) (rest : string) :
  float_table o ->
  feed (idle m) (fst (wavelength_field o) +:+ rest)
  = feed (idle (put "wavelength" (option_map reread_table o) m)) rest
  /\ snd (wavelength_field o) = None.
Proof.
  intros Ho. destruct o as [[s|n|[|x xs]|l]|]; try contradiction.
  - split; [|reflexivity]. unfold wavelength_field. cbn [truthy fst].
    change (fun x0 : spec_float => " " +:+ F64.format_6f x0) with wl_line.
    rewrite !app_assoc_str.
    rewrite feed_line by reflexivity.
    change (read_line (idle m) ("wavelength = {" +:+ nl))
      with (Ok {| header_info := m; current_array := Some "wavelength";
                  array_data := [""] |}).
    cbv iota.
    rewrite (feed_elements rest xs x _ "wavelength") by reflexivity.
    unfold closed. cbn [header_info array_data app].
    rewrite floats_pieces. reflexivity.
  - split; reflexivity.
Qed.

Lemma feed_optional_field (m rad_header : gmap string value) (key rest : string) :
  written_key key -> Py.has_char LF key = false -> Py.has_char CR key = false ->
  is_numeric_key key = false ->
  text_field (rad_header !! key) ->
  feed (idle m) (optional_field rad_header key +:+ rest)
  = feed (idle (put key (rad_header !! key) m)) rest.
Proof.
  intros Hk Hl Hc Hn Ht. unfold optional_field.
  destruct (rad_header !! key) as [[s|n|l|l]|]; try contradiction.
  - destruct Ht as (H1 & H2 & H3 & H4 & H5). cbn [str_value].
    rewrite feed_field; auto.
    + rewrite decode_text by assumption. reflexivity.
    + rewrite H5. reflexivity.
  - reflexivity.
Qed.

Lemma lookup_put_ne (key k : string) (o : option value) (m : gmap string value) :
  key <> k -> put key o m !! k = m !! k.
Proof. intros H. destruct o; [apply lookup_insert_ne, H|reflexivity]. Qed.

Lemma lookup_put_eq (key : string) (o : option value) (m : gmap string value) :
  m !! key = None -> put key o m !! key = o.
Proof. intros H. destruct o; [apply lookup_insert_eq|exact H]. Qed.

(** C7, as the code has it: the written header of a well-formed model,
    whose dimensions are integers that [str] writes, is read back with
    the three dimensions and the three copied text fields as they were,
    and with every wavelength as the float of its six-decimal text. *)
Theorem written_header_read_back
    (nsamples nlines nbands : Z) (rad_header : gmap string value) :
  Py.str_int_allowed nsamples = true ->
  Py.str_int_allowed nlines = true ->
  Py.str_int_allowed nbands = true ->
  float_table (rad_header !! "wavelength") ->
  text_field (rad_header !! "wavelength units") ->
  text_field (rad_header !! "acquisition date") ->
  text_field (rad_header !! "sensor type") ->
  exists h,
    read_header_text (serialize nsamples nlines nbands rad_header) = Ok h
    /\ h !! "samples" = Some (VInt nsamples)
    /\ h !! "lines" = Some (VInt nlines)
    /\ h !! "bands" = Some (VInt nbands)
    /\ h !! "wavelength" = option_map reread_table (rad_header !! "wavelength")
    /\ h !! "wavelength units" = rad_header !! "wavelength units"
    /\ h !! "acquisition date" = rad_header !! "acquisition date"
    /\ h !! "sensor type" = rad_header !! "sensor type".
Proof.
  intros Hds Hdl Hdb Hw Hu Ha Hs.
  set (m0 := fixed_map nsamples nlines nbands).
  set (m1 := put "wavelength" (option_map reread_table (rad_header !! "wavelength")) m0).
  set (m2 := put "wavelength units" (rad_header !! "wavelength units") m1).
  set (m3 := put "acquisition date" (rad_header !! "acquisition date") m2).
  set (m4 := put "sensor type" (rad_header !! "sensor type") m3).
  exists m4. split.
  - unfold read_header_text, serialize, header_text.
    destruct (feed_wavelength_field m0 (rad_header !! "wavelength")
                (copied_fields rad_header) Hw) as [Hfeed Hstop].
    destruct (wavelength_field (rad_header !! "wavelength")) as [wl stop].
    cbn [fst snd] in Hfeed, Hstop. subst stop. cbn [fst].
    fold (feed reader_init
            (fixed_fields nsamples nlines nbands +:+ wl +:+ copied_fields rad_header)).
    rewrite feed_fixed_fields by assumption. fold m0. rewrite Hfeed. fold m1.
    unfold copied_fields.
    rewrite feed_optional_field by first [assumption|reflexivity|written_key_tac].
    fold m2.
    rewrite feed_optional_field by first [assumption|reflexivity|written_key_tac].
    fold m3.
    rewrite <- (app_empty_r (optional_field rad_header "sensor type")).
    rewrite feed_optional_field by first [assumption|reflexivity|written_key_tac].
    reflexivity.
  - unfold m4, m3, m2, m1, m0. repeat split.
    + rewrite !lookup_put_ne by discriminate. reflexivity.
    + rewrite !lookup_put_ne by discriminate. reflexivity.
    + rewrite !lookup_put_ne by discriminate. reflexivity.
    + rewrite !lookup_put_ne by discriminate. apply lookup_put_eq. reflexivity.
    + rewrite !lookup_put_ne by discriminate. apply lookup_put_eq.
      rewrite lookup_put_ne by discriminate. reflexivity.
    + rewrite !lookup_put_ne by discriminate. apply lookup_put_eq.
      rewrite !lookup_put_ne by discriminate. reflexivity.
    + apply lookup_put_eq. rewrite !lookup_put_ne by discriminate. reflexivity.
Qed.

Lemma written_header_read_back_witness :
  reread (F64.of_Z 500) = F64.of_Z 500
  /\ exists h,
    read_header_text (serialize 1 2 1 model_rad) = Ok h
    /\ h !! "samples" = Some (VInt 1)
    /\ h !! "lines" = Some (VInt 2)
    /\ h !! "bands" = Some (VInt 1)
    /\ h !! "wavelength" = option_map reread_table (model_rad !! "wavelength")
    /\ h !! "wavelength units" = model_rad !! "wavelength units"
    /\ h !! "acquisition date" = model_rad !! "acquisition date"
    /\ h !! "sensor type" = model_rad !! "sensor type".
Proof.
  split; [reflexivity|].
  apply (written_header_read_back 1 2 1 model_rad).
  - reflexivity.
  - reflexivity.
  - reflexivity.
  - vm_compute. exact I.
  - vm_compute. exact I.
  - vm_compute. exact I.
  - vm_compute. repeat split.
Defined.

(** ** Files a run leaves alone *)

Lemma touches_lift {A : Type} (paths : list string) (r : result A) :
  touches_only paths (lift r).
Proof. intros fs p _. reflexivity. Qed.

Lemma touches_bind {A B : Type} (paths : list string) (c : M A) (k : A -> M B) :
  touches_only paths c -> (forall a, touches_only paths (k a)) ->
  touches_only paths (c ≫= k).
Proof.
  intros Hc Hk fs p Hp. unfold mbind, M_bind, bind.
  specialize (Hc fs p Hp). destruct (c fs) as [[a|e] fs']; simpl in *.
  - rewrite (Hk a fs' p Hp). exact Hc.
  - exact Hc.
Qed.

Lemma touches_for_each {A : Type} (paths : list string) (l : list A)
    (body : A -> M unit) :
  (forall x, touches_only paths (body x)) -> touches_only paths (for_each l body).
Proof.
  intros Hb. induction l as [|x l IH].
  - intros fs p _. reflexivity.
  - simpl. apply touches_bind; [apply Hb|]. intros _. exact IH.
Qed.

Lemma touches_insert {A : Type} (paths : list string) (path : string)
    (c : M A) :
  In path paths ->
  (forall fs, snd (c fs) = fs \/ exists f, snd (c fs) = <[path := f]> fs) ->
  touches_only paths c.
Proof.
  intros Hin Hc fs p Hp. destruct (Hc fs) as [->|[f ->]]; [reflexivity|].
  apply lookup_insert_ne. intros <-. contradiction.
Qed.

Lemma touches_ret {A : Type} (paths : list string) (a : A) :
  touches_only paths (mret a).
Proof. intros fs p _. reflexivity. Qed.

Lemma touches_raise {A : Type} (paths : list string) (e : exn) :
  touches_only paths (raise e : M A).
Proof. intros fs p _. reflexivity. Qed.

Lemma touches_memmap_create (paths : list string) (path : string)
    (nbands nlines nsamples : value) :
  In path paths ->
  touches_only paths (memmap_create path nbands nlines nsamples).
Proof.
  intros Hin. apply (touches_insert _ path _ Hin). intros fs.
  unfold memmap_create. destruct nbands, nlines, nsamples; simpl; eauto.
  destruct (_ || _); simpl; eauto.
Qed.

Lemma touches_memmap_open (paths : list string) (path : string) (n : nat) :
  touches_only paths (memmap_open path n).
Proof.
  intros fs p _. unfold memmap_open.
  destruct (fs !! path) as [[|d]|]; try reflexivity.
  destruct (_ <=? _)%nat; reflexivity.
Qed.

Lemma touches_read_view (paths : list string) (path : string) (off n : nat) :
  touches_only paths (read_view path off n).
Proof.
  intros fs p _. unfold read_view. destruct (fs !! path) as [[|d]|]; reflexivity.
Qed.

Lemma touches_write_view (paths : list string) (path : string) (off : nat)
    (new : list spec_float) :
  In path paths -> touches_only paths (write_view path off new).
Proof.
  intros Hin. apply (touches_insert _ path _ Hin). intros fs.
  unfold write_view. destruct (fs !! path) as [[|d]|]; simpl; eauto.
Qed.

Lemma touches_write_text (paths : list string) (path text : string) :
  In path paths -> touches_only paths (write_text path text).
Proof.
  intros Hin. apply (touches_insert _ path _ Hin). intros fs.
  right. eexists. reflexivity.
Qed.

Lemma touches_process_band (paths : list string) (input output : string)
    (nlines nsamples : Z) (wavelengths : option value) (chunk_size band : Z) :
  In output paths ->
  touches_only paths
    (process_band input output nlines nsamples wavelengths chunk_size band).
Proof.
  intros Hin. unfold process_band.
  apply touches_bind; [apply touches_lift|intros factor].
  apply touches_bind; [apply touches_lift|intros starts].
  apply touches_for_each. intros start. unfold process_chunk.
  apply touches_bind; [apply touches_read_view|intros chunk].
  apply touches_write_view, Hin.
Qed.

Lemma touches_write_header (paths : list string) (output_header : string)
    (nsamples nlines nbands : Z) (wavelengths : option value)
    (rad_header : gmap string value) :
  In output_header paths ->
  touches_only paths
    (write_header output_header nsamples nlines nbands wavelengths rad_header).
Proof.
  intros Hin. unfold write_header.
  destruct (header_text nsamples nlines nbands wavelengths rad_header)
    as [text stop].
  apply touches_bind; [apply touches_write_text, Hin|intros _].
  destruct stop; [apply touches_raise|apply touches_ret].
Qed.

(** A run writes to the output cube and to its header, and to nothing
    else. *)
Lemma correct_touches (refl_header rad_header : gmap string value)
    (reflectance_data : string) (chunk_size : Z) :
  let output_file := Py.replace "reflectance" "radcorr" reflectance_data in
  touches_only [output_file; output_file +:+ ".hdr"]
    (correct refl_header rad_header reflectance_data chunk_size).
Proof.
  intros out. unfold correct. fold out.
  apply touches_bind; [apply touches_lift|intros _].
  apply touches_bind; [apply touches_lift|intros nbands].
  apply touches_bind; [apply touches_lift|intros nlines].
  apply touches_bind; [apply touches_lift|intros nsamples].
  apply touches_bind; [apply touches_lift|intros _].
  apply touches_bind; [apply touches_lift|intros _].
  apply touches_bind;
    [apply touches_memmap_create; left; reflexivity|intros [[nb nl] ns]].
  apply touches_bind; [apply touches_memmap_open|intros _].
  apply touches_bind;
    [apply touches_for_each; intros band;
     apply touches_process_band; left; reflexivity|intros _].
  apply touches_bind;
    [apply touches_write_header; right; left; reflexivity|intros _].
  apply touches_ret.
Qed.

(** Where the output path and the path of its header are not the data
    path, the input cube is as it was after the run. *)
Theorem input_cube_unchanged_beside_output
    (reflectance_files radiance_files : files) (chunk_size : Z)
    (fs : gmap string file) :
  let output_file := Py.replace "reflectance" "radcorr" (data reflectance_files) in
  data reflectance_files <> output_file ->
  data reflectance_files <> output_file +:+ ".hdr" ->
  snd (apply_enhanced_radiometric_correction
         reflectance_files radiance_files chunk_size fs) !! data reflectance_files
  = fs !! data reflectance_files.
Proof.
  intros out H1 H2. unfold apply_enhanced_radiometric_correction.
  assert (Hread : forall path,
            touches_only [out; out +:+ ".hdr"] (read_header path)).
  { intros path fs0 p _. unfold read_header.
    destruct (fs0 !! path) as [[|]|]; reflexivity. }
  apply (touches_bind _ _ _ (Hread _)).
  - intros refl_header. apply (touches_bind _ _ _ (Hread _)).
    intros rad_header. apply correct_touches.
  - simpl. intros [E|[E|[]]]; [apply H1|apply H2]; symmetry; exact E.
Qed.

Lemma starts_with_app (p s : string) :
  Py.starts_with p s = true -> exists rest, s = p +:+ rest.
Proof.
  revert s. induction p as [|a p IH]; intros s H.
  - exists s. reflexivity.
  - destruct s as [|b s]; [discriminate|]. simpl in H.
    apply andb_prop in H as [Hab Hp]. apply Ascii.eqb_eq in Hab. subst b.
    destruct (IH s Hp) as [rest ->]. exists rest. reflexivity.
Qed.

(** A data path with [reflectance] in it differs from the output path and
    from the path of the output header: at the first occurrence the one has
    [re], the others have [ra]. *)
Lemma output_paths_differ (path : string) :
  Py.contains "reflectance" path = true ->
  path <> Py.replace "reflectance" "radcorr" path
  /\ path <> Py.replace "reflectance" "radcorr" path +:+ ".hdr".
Proof.
  unfold Py.replace. induction path as [|c path IH]; [discriminate|].
  intros H. unfold Py.contains in H. fold Py.contains in H.
  unfold Py.replace_from. fold Py.replace_from.
  destruct (Py.starts_with "reflectance" (String c path)) eqn:E.
  - destruct (starts_with_app _ _ E) as [rest Hrest]. rewrite Hrest.
    split; intros Heq; discriminate Heq.
  - simpl in H. destruct (IH H) as [H1 H2].
    split.
    + intros Heq. injection Heq as Heq. exact (H1 Heq).
    + rewrite app_cons. intros Heq. injection Heq as Heq. exact (H2 Heq).
Qed.

(** C9 holds where the data path has [reflectance] in it. *)
Corollary input_cube_unchanged (reflectance_files radiance_files : files)
    (chunk_size : Z) (fs : gmap string file) :
  Py.contains "reflectance" (data reflectance_files) = true ->
  snd (apply_enhanced_radiometric_correction
         reflectance_files radiance_files chunk_size fs) !! data reflectance_files
  = fs !! data reflectance_files.
Proof.
  intros H. destruct (output_paths_differ _ H) as [H1 H2].
  apply input_cube_unchanged_beside_output; assumption.
Qed.

(** ** What a run leaves behind *)

Lemma path_not_its_header (p : string) : p <> p +:+ ".hdr".
Proof.
  induction p as [|c p IH]; [discriminate|].
  rewrite app_cons. intros H. injection H as H. exact (IH H).
Qed.

Lemma memmap_create_shape (path : string) (nbands nlines nsamples : value)
    (fs fs' : gmap string file) (b l s : Z) :
  memmap_create path nbands nlines nsamples fs = (Ok (b, l, s), fs') ->
  nbands = VInt b /\ nlines = VInt l /\ nsamples = VInt s.
Proof.
  unfold memmap_create. destruct nbands, nlines, nsamples; try discriminate.
  destruct ((n <? 0) || (n0 <? 0) || (n1 <? 0)); [discriminate|].
  intros [= <- <- <- <-]. auto.
Qed.

Lemma getitem_ok (d : gmap string value) (key : string) (v : value) :
  getitem d key = Ok v -> d !! key = Some v.
Proof. unfold getitem. destruct (d !! key); [intros [= ->]; reflexivity|discriminate]. Qed.

(** The first band of a loop that ends well has a factor. *)
Lemma first_band_factor (input output : string) (nlines nsamples : Z)
    (wavelengths : option value) (chunk_size nbands : Z)
    (fs fs' : gmap string file) :
  0 < nbands ->
  for_each (band_indices nbands)
    (process_band input output nlines nsamples wavelengths chunk_size) fs
  = (Ok tt, fs') ->
  exists f, correction_factor wavelengths 0 = Ok f.
Proof.
  intros Hnb. unfold band_indices.
  destruct (Z.to_nat nbands) as [|n] eqn:E; [lia|]. simpl.
  unfold mbind, M_bind, bind. unfold process_band at 1.
  unfold mbind, M_bind, bind, lift.
  change (Z.to_nat (Z.of_nat 0)) with 0%nat.
  destruct (correction_factor wavelengths 0) as [f|e]; [eauto|discriminate].
Qed.

(** A table that gives band 0 a factor is one the header writer can
    format. *)
Lemma factor_no_stop (wavelengths : option value) (f : spec_float) :
  correction_factor wavelengths 0 = Ok f ->
  snd (wavelength_field wavelengths) = None.
Proof.
  unfold correction_factor, wavelength_field.
  destruct wavelengths as [w|]; [|reflexivity].
  destruct (truthy w) eqn:Et; [|reflexivity].
  destruct w as [s|n|l|l]; simpl; try discriminate; try reflexivity.
  - destruct s; [discriminate Et|]. simpl. discriminate.
  - destruct l; [discriminate Et|]. simpl. discriminate.
Qed.

(** A table that the header writer cannot format stops the writing
    behind the line that opens the list. *)
Lemma wavelength_field_stop (wavelengths : option value) (e : exn) :
  snd (wavelength_field wavelengths) = Some e ->
  fst (wavelength_field wavelengths) = "wavelength = {" +:+ nl.
Proof.
  unfold wavelength_field. destruct wavelengths as [w|]; [|discriminate].
  destruct (truthy w); [|discriminate].
  destruct w; try reflexivity. discriminate.
Qed.

(** What a run leaves at the path of the output header. *)
Lemma header_of_run
    (refl_header rad_header : gmap string value) (reflectance_data : string)
    (chunk_size : Z) (fs : gmap string file) :
  let output_file := Py.replace "reflectance" "radcorr" reflectance_data in
  let run := correct refl_header rad_header reflectance_data chunk_size fs in
  match fst run with
  | Ok returned =>
      returned = output_file
      /\ exists ns nl nb,
           refl_header !! "samples" = Some (VInt ns)
           /\ refl_header !! "lines" = Some (VInt nl)
           /\ refl_header !! "bands" = Some (VInt nb)
           /\ snd run !! (output_file +:+ ".hdr")
              = Some (Text (serialize ns nl nb rad_header))
  | Raise e =>
      snd run !! (output_file +:+ ".hdr") = fs !! (output_file +:+ ".hdr")
      \/ (refl_header !! "bands" = Some (VInt 0)
          /\ snd (wavelength_field (rad_header !! "wavelength")) = Some e
          /\ exists ns nl,
               refl_header !! "samples" = Some (VInt ns)
               /\ refl_header !! "lines" = Some (VInt nl)
               /\ snd run !! (output_file +:+ ".hdr")
                  = Some (Text (partial_header ns nl 0)))
  end.
Proof.
  intros out run. subst run. unfold correct. fold out.
  unfold mbind, M_bind, bind, lift.
  destruct (check_dimensions refl_header rad_header); [|left; reflexivity].
  destruct (getitem refl_header "bands") as [nbands|] eqn:Eb; [|left; reflexivity].
  destruct (getitem refl_header "lines") as [nlines|] eqn:El; [|left; reflexivity].
  destruct (getitem refl_header "samples") as [nsamples|] eqn:Es;
    [|left; reflexivity].
  destruct (report_dimensions nbands nlines nsamples); [|left; reflexivity].
  destruct (report_wavelengths (rad_header !! "wavelength")); [|left; reflexivity].
  assert (Hout : ~ In (out +:+ ".hdr") [out]).
  { intros [H|[]]. exact (path_not_its_header _ H). }
  pose proof (touches_memmap_create [out] out nbands nlines nsamples
                (or_introl eq_refl) fs _ Hout) as Hc.
  destruct (memmap_create out nbands nlines nsamples fs)
    as [[[[b l] s]|e] fs1] eqn:Ec; [|left; exact Hc].
  simpl in Hc.
  pose proof (memmap_create_shape _ _ _ _ _ _ _ _ _ Ec) as (-> & -> & ->).
  apply memmap_create_ok in Ec as (_ & Hb & _ & _ & _).
  pose proof (touches_memmap_open [out] reflectance_data
                (Z.to_nat (b * l * s)) fs1 _ Hout) as Ho.
  destruct (memmap_open reflectance_data (Z.to_nat (b * l * s)) fs1)
    as [[[]|e] fs2]; simpl in Ho; [|left; simpl; congruence].
  pose proof (touches_for_each [out] (band_indices b)
                (process_band reflectance_data out l s
                   (rad_header !! "wavelength") chunk_size)
                (fun band => touches_process_band [out] _ _ _ _ _ _ band
                               (or_introl eq_refl)) fs2 _ Hout) as Hf.
  destruct (for_each (band_indices b) _ fs2) as [[[]|e] fs3] eqn:Ef;
    simpl in Hf; [|left; simpl; congruence].
  unfold write_header, serialize, header_text in *.
  destruct (wavelength_field (rad_header !! "wavelength")) as [wl stop] eqn:Ew.
  destruct stop as [e|].
  - (* the writer stops at the wavelengths: no band had a factor *)
    unfold mbind, M_bind, bind, write_text, raise. simpl. right.
    destruct (Z_lt_le_dec 0 b) as [Hpos|Hzero].
    + destruct (first_band_factor _ _ _ _ _ _ _ _ _ Hpos Ef) as [f Hfac].
      apply factor_no_stop in Hfac. rewrite Ew in Hfac. discriminate.
    + assert (b = 0) as -> by lia.
      apply getitem_ok in Eb, El, Es.
      split; [exact Eb|]. split; [reflexivity|].
      exists s, l. split; [exact Es|]. split; [exact El|].
      rewrite lookup_insert_eq. unfold partial_header.
      pose proof (wavelength_field_stop (rad_header !! "wavelength") e) as Hwl.
      rewrite Ew in Hwl. simpl in Hwl. rewrite (Hwl eq_refl). reflexivity.
  - unfold mbind, M_bind, bind, write_text, mret, M_ret, ret. simpl.
    split; [reflexivity|]. exists s, l, b.
    repeat split; try (apply getitem_ok; assumption).
    apply lookup_insert_eq.
Qed.

(** X3: a run that returns has written the header of the output with the
    dimensions of the reflectance header. A run that raises has left the
    header path as it was, with one exception: when the cube has no band
    and the wavelengths of the radiance header are a text or texts, no
    band stops the run before the header writer, which raises at the
    wavelengths and leaves the fixed fields and the line that opens the
    list. *)
Theorem header_written_by_successful_runs_only
    (refl_header rad_header : gmap string value) (reflectance_data : string)
    (chunk_size : Z) (fs : gmap string file) :
  let output_file := Py.replace "reflectance" "radcorr" reflectance_data in
  let run := correct refl_header rad_header reflectance_data chunk_size fs in
  match fst run with
  | Ok returned =>
      returned = output_file
      /\ exists ns nl nb,
           refl_header !! "samples" = Some (VInt ns)
           /\ refl_header !! "lines" = Some (VInt nl)
           /\ refl_header !! "bands" = Some (VInt nb)
           /\ snd run !! (output_file +:+ ".hdr")
              = Some (Text (serialize ns nl nb rad_header))
  | Raise e =>
      snd run !! (output_file +:+ ".hdr") = fs !! (output_file +:+ ".hdr")
      \/ (refl_header !! "bands" = Some (VInt 0)
          /\ snd (wavelength_field (rad_header !! "wavelength")) = Some e
          /\ exists ns nl,
               refl_header !! "samples" = Some (VInt ns)
               /\ refl_header !! "lines" = Some (VInt nl)
               /\ snd run !! (output_file +:+ ".hdr")
                  = Some (Text (partial_header ns nl 0)))
  end.
Proof. apply header_of_run. Qed.

(** ** The output cube of a run *)

Lemma bands_whole (input output : string) (nbands nlines nsamples : Z)
    (wavelengths : option value) (chunk_size : Z) (fs : gmap string file) :
  0 <= nlines -> 0 <= nsamples -> 1 <= chunk_size ->
  mapped input output (Z.to_nat (nbands * nlines * nsamples)) fs ->
  for_each (band_indices nbands)
    (process_band input output nlines nsamples wavelengths chunk_size) fs
  = for_each (band_indices nbands)
    (whole_band input output nlines nsamples wavelengths) fs.
Proof.
  intros Hl Hs H1 Hm.
  set (total := Z.to_nat (nbands * nlines * nsamples)) in *.
  apply (for_each_agree (mapped input output total)); [|exact Hm].
  intros b fs0 Hb Hm0. apply band_indices_range in Hb.
  assert (Hfit : (Z.to_nat ((b * nlines + nlines) * nsamples) <= total)%nat).
  { unfold total.
    assert (Hp : 0 <= nlines * nsamples) by nia.
    replace ((b * nlines + nlines) * nsamples) with ((b + 1) * (nlines * nsamples)) by ring.
    replace (nbands * nlines * nsamples) with (nbands * (nlines * nsamples)) by ring.
    apply Z2Nat.inj_le; [nia|nia|].
    apply Z.mul_le_mono_nonneg_r; lia. }
  split.
  - apply (process_band_whole _ _ _ _ _ _ _ total); auto; lia.
  - apply whole_band_mapped; auto; lia.
Qed.

(** The bands from [k] on, written one after the other behind the part
    [pre] of the output that holds the bands before [k]. *)
Lemma whole_bands_done (input output : string) (nlines nsamples : Z)
    (wavelengths : option value) (din : list spec_float) (n : nat) :
  0 <= nlines -> 0 <= nsamples -> input <> output ->
  forall (k r : nat) (pre : list spec_float) (fs fs' : gmap string file),
  for_each (map Z.of_nat (seq k n))
    (whole_band input output nlines nsamples wavelengths) fs = (Ok tt, fs') ->
  fs !! input = Some (Cube din) ->
  fs !! output
  = Some (Cube (pre ++ repeat F32.zero ((n + r) * Z.to_nat (nlines * nsamples)))) ->
  length pre = (k * Z.to_nat (nlines * nsamples))%nat ->
  ((k + n) * Z.to_nat (nlines * nsamples) <= length din)%nat ->
  fs' !! output
  = Some (Cube (pre
       ++ flat_map
            (fun band => map (correct_element (factor_at wavelengths band))
                           (band_of nlines nsamples din band))
            (seq k n)
       ++ repeat F32.zero (r * Z.to_nat (nlines * nsamples)))).
Proof.
  intros Hl Hs Hne. set (B := Z.to_nat (nlines * nsamples)).
  induction n as [|n IH]; intros k r pre fs fs' Hrun Hin Hout Hpre Hlen.
  - simpl in Hrun. injection Hrun as <-. exact Hout.
  - simpl in Hrun. unfold mbind, M_bind, bind in Hrun.
    unfold whole_band at 1 in Hrun. rewrite Nat2Z.id in Hrun.
    unfold factor_at at 1. cbn [seq flat_map].
    destruct (correction_factor wavelengths k) as [f|e]; [|discriminate].
    unfold rest_of_band in Hrun. rewrite Hin, Hout in Hrun.
    assert (Hoff : row_offset nlines nsamples (Z.of_nat k) 0 = (k * B)%nat).
    { unfold row_offset, B.
      replace ((Z.of_nat k * nlines + 0) * nsamples)
        with (Z.of_nat k * (nlines * nsamples)) by ring.
      rewrite Z2Nat.inj_mul by nia. rewrite Nat2Z.id. reflexivity. }
    rewrite Hoff in Hrun.
    replace (Z.to_nat ((nlines - 0) * nsamples)) with B in Hrun
      by (unfold B; f_equal; ring).
    set (new := map (correct_element f) (band_of nlines nsamples din k)) in *.
    change (map (correct_element f) (firstn B (skipn (k * B) din))) with new in Hrun.
    assert (Hnew : length new = B).
    { unfold new, band_of. rewrite length_map, length_firstn, length_skipn.
      fold B. nia. }
    assert (Hover : overwrite (pre ++ repeat F32.zero ((S n + r) * B)) (k * B) new
                    = (pre ++ new) ++ repeat F32.zero ((n + r) * B)).
    { unfold overwrite. rewrite <- Hpre at 1.
      rewrite firstn_app, firstn_all, Nat.sub_diag, firstn_O, app_nil_r.
      rewrite <- app_assoc. f_equal. f_equal.
      rewrite skipn_app. rewrite skipn_all2 by lia. simpl.
      rewrite Hnew, Hpre. replace (k * B + B - k * B)%nat with B by lia.
      replace ((S n + r) * B)%nat with (B + (n + r) * B)%nat by lia.
      rewrite repeat_app, skipn_app, repeat_length, Nat.sub_diag.
      rewrite skipn_all2 by (rewrite repeat_length; lia). reflexivity. }
    rewrite Hover in Hrun.
    rewrite (IH (S k) r (pre ++ new) _ fs' Hrun).
    + rewrite <- !app_assoc. reflexivity.
    + rewrite lookup_insert_ne by congruence. exact Hin.
    + apply lookup_insert_eq.
    + rewrite length_app, Hnew, Hpre. lia.
    + lia.
Qed.

Lemma corrected_cube_length (nbands nlines nsamples : Z)
    (wavelengths : option value) (d : list spec_float) :
  0 <= nbands -> 0 <= nlines -> 0 <= nsamples ->
  (Z.to_nat (nbands * nlines * nsamples) <= length d)%nat ->
  length (corrected_cube nbands nlines nsamples wavelengths d)
  = Z.to_nat (nbands * nlines * nsamples).
Proof.
  intros Hb Hl Hs Hlen. unfold corrected_cube.
  set (B := Z.to_nat (nlines * nsamples)).
  assert (Htotal : Z.to_nat (nbands * nlines * nsamples) = (Z.to_nat nbands * B)%nat).
  { unfold B. replace (nbands * nlines * nsamples) with (nbands * (nlines * nsamples))
      by ring. apply Z2Nat.inj_mul; nia. }
  rewrite Htotal in *.
  assert (Hgen : forall n k, ((k + n) * B <= length d)%nat ->
            length (flat_map
                      (fun band => map (correct_element (factor_at wavelengths band))
                                     (band_of nlines nsamples d band))
                      (seq k n)) = (n * B)%nat).
  { induction n as [|n IH]; intros k Hk; [reflexivity|].
    cbn [seq flat_map]. rewrite length_app, length_map, IH by lia.
    unfold band_of. fold B. rewrite length_firstn, length_skipn. nia. }
  apply Hgen. simpl. exact Hlen.
Qed.

(** What a run leaves at the output path. *)
Lemma cube_of_run
    (refl_header rad_header : gmap string value) (reflectance_data : string)
    (chunk_size : Z) (fs fs' : gmap string file) (returned : string)
    (din : list spec_float) :
  let output_file := Py.replace "reflectance" "radcorr" reflectance_data in
  1 <= chunk_size ->
  reflectance_data <> output_file ->
  fs !! reflectance_data = Some (Cube din) ->
  correct refl_header rad_header reflectance_data chunk_size fs
  = (Ok returned, fs') ->
  exists ns nl nb,
    0 <= ns /\ 0 <= nl /\ 0 <= nb
    /\ Py.str_int_allowed ns = true /\ Py.str_int_allowed nl = true
    /\ Py.str_int_allowed nb = true
    /\ refl_header !! "samples" = Some (VInt ns)
    /\ refl_header !! "lines" = Some (VInt nl)
    /\ refl_header !! "bands" = Some (VInt nb)
    /\ (Z.to_nat (nb * nl * ns) <= length din)%nat
    /\ fs' !! output_file
       = Some (Cube (corrected_cube nb nl ns (rad_header !! "wavelength") din)).
Proof.
  intros out Hc Hne Hin. unfold correct. fold out.
  unfold mbind, M_bind, bind, lift.
  destruct (check_dimensions refl_header rad_header); [|discriminate].
  destruct (getitem refl_header "bands") as [nbands|] eqn:Eb; [|discriminate].
  destruct (getitem refl_header "lines") as [nlines|] eqn:El; [|discriminate].
  destruct (getitem refl_header "samples") as [nsamples|] eqn:Es; [|discriminate].
  destruct (report_dimensions nbands nlines nsamples) eqn:Er; [|discriminate].
  destruct (report_wavelengths (rad_header !! "wavelength")); [|discriminate].
  destruct (memmap_create out nbands nlines nsamples fs)
    as [[[[b l] s]|e] fs1] eqn:Ec; [|discriminate].
  pose proof (memmap_create_shape _ _ _ _ _ _ _ _ _ Ec) as (-> & -> & ->).
  assert (Hallowed : Py.str_int_allowed s = true /\ Py.str_int_allowed l = true
                     /\ Py.str_int_allowed b = true).
  { unfold report_dimensions, formattable in Er.
    destruct (Py.str_int_allowed b); [|discriminate].
    destruct (Py.str_int_allowed l); [|discriminate].
    destruct (Py.str_int_allowed s); [|discriminate]. auto. }
  destruct Hallowed as (Hds & Hdl & Hdb).
  apply memmap_create_ok in Ec as (_ & Hb & Hl & Hs & Hfs1).
  destruct (memmap_open reflectance_data (Z.to_nat (b * l * s)) fs1)
    as [[[]|e] fs2] eqn:Eo; [|discriminate].
  apply memmap_open_ok in Eo as (-> & d & Hd & Hlen).
  assert (Hd' : d = din).
  { rewrite Hfs1, lookup_insert_ne in Hd by congruence. congruence. }
  subst d.
  assert (Htotal : Z.to_nat (b * l * s) = (Z.to_nat b * Z.to_nat (l * s))%nat).
  { replace (b * l * s) with (b * (l * s)) by ring. apply Z2Nat.inj_mul; nia. }
  rewrite bands_whole; [|assumption|assumption|assumption|].
  2:{ exists din, (repeat F32.zero (Z.to_nat (b * l * s))).
      split; [rewrite Hfs1, lookup_insert_ne by congruence; exact Hin|].
      split; [rewrite Hfs1; apply lookup_insert_eq|].
      split; [apply repeat_length|exact Hlen]. }
  destruct (for_each (band_indices b) _ fs1) as [[[]|e] fs3] eqn:Ef; [|discriminate].
  pose proof (whole_bands_done reflectance_data out l s (rad_header !! "wavelength")
                din (Z.to_nat b) Hl Hs Hne 0%nat 0%nat [] fs1 fs3 Ef) as Hdone.
  pose proof (touches_write_header [out +:+ ".hdr"] (out +:+ ".hdr") s l b
                (rad_header !! "wavelength") rad_header (or_introl eq_refl)
                fs3 out) as Hw.
  destruct (write_header (out +:+ ".hdr") s l b (rad_header !! "wavelength")
              rad_header fs3) as [[[]|e] fs4]; [|discriminate].
  unfold mret, M_ret, ret. intros [= _ <-].
  exists s, l, b. repeat split; try (apply getitem_ok; assumption); try assumption.
  simpl in Hw. rewrite Hw.
  2:{ intros [H|[]]. symmetry in H. exact (path_not_its_header _ H). }
  rewrite Hdone.
  - simpl. rewrite app_nil_r. reflexivity.
  - rewrite Hfs1, lookup_insert_ne by congruence. exact Hin.
  - simpl. rewrite Nat.add_0_r, <- Htotal, Hfs1. apply lookup_insert_eq.
  - reflexivity.
  - simpl. rewrite <- Htotal. exact Hlen.
Qed.

(** X1: the output cube of a run that succeeds, where the output path is not
    the data path, holds [bands * lines * samples] elements: every element
    of the first that many of the input, in file order, multiplied by the
    factor of its band and clipped. *)
Theorem output_cube_of_successful_run
    (refl_header rad_header : gmap string value) (reflectance_data : string)
    (chunk_size : Z) (fs fs' : gmap string file) (returned : string)
    (din : list spec_float) :
  let output_file := Py.replace "reflectance" "radcorr" reflectance_data in
  1 <= chunk_size ->
  reflectance_data <> output_file ->
  fs !! reflectance_data = Some (Cube din) ->
  correct refl_header rad_header reflectance_data chunk_size fs
  = (Ok returned, fs') ->
  exists ns nl nb,
    refl_header !! "samples" = Some (VInt ns)
    /\ refl_header !! "lines" = Some (VInt nl)
    /\ refl_header !! "bands" = Some (VInt nb)
    /\ fs' !! output_file
       = Some (Cube (corrected_cube nb nl ns (rad_header !! "wavelength") din))
    /\ length (corrected_cube nb nl ns (rad_header !! "wavelength") din)
       = Z.to_nat (nb * nl * ns).
Proof.
  intros out Hc Hne Hin Hrun.
  destruct (cube_of_run _ _ _ _ _ _ _ _ Hc Hne Hin Hrun)
    as (ns & nl & nb & H1 & H2 & H3 & _ & _ & _ & Hs & Hl & Hb & Hlen & Hcube).
  exists ns, nl, nb. repeat split; try assumption.
  apply corrected_cube_length; assumption.
Qed.

Lemma header_written_by_successful_runs_only_witness :
  let rad_header := <["wavelength" := VStr "nm"]> no_band_dims in
  let run := correct no_band_dims rad_header "a_reflectance.dat" 500 small_store in
  fst run = Raise (ValueError "Unknown format code 'f' for object of type 'str'")
  /\ snd run !! "a_radcorr.dat.hdr" = Some (Text (partial_header 1 2 0)).
Proof.
  intros rad_header run.
  pose proof (header_written_by_successful_runs_only no_band_dims rad_header
                "a_reflectance.dat" 500 small_store) as H.
  cbv zeta in H. fold run in H.
  assert (Hrun : fst run
            = Raise (ValueError "Unknown format code 'f' for object of type 'str'"))
    by (vm_compute; reflexivity).
  rewrite Hrun in H. split; [exact Hrun|].
  destruct H as [H|(_ & _ & ns & nl & Hs & Hl & Hh)].
  - exfalso. vm_compute in H. discriminate.
  - vm_compute in Hs. vm_compute in Hl.
    injection Hs as <-. injection Hl as <-. exact Hh.
Defined.

Lemma output_cube_of_successful_run_witness :
  corrected_cube 1 2 1 (small_dims_1500 !! "wavelength") [f32_half; f32_quarter]
  = [F32.one; f32_half]
  /\ exists ns nl nb,
       small_dims !! "samples" = Some (VInt ns)
       /\ small_dims !! "lines" = Some (VInt nl)
       /\ small_dims !! "bands" = Some (VInt nb)
       /\ snd (correct small_dims small_dims_1500 "a_reflectance.dat" 1 small_store)
            !! Py.replace "reflectance" "radcorr" "a_reflectance.dat"
          = Some (Cube (corrected_cube nb nl ns (small_dims_1500 !! "wavelength")
                          [f32_half; f32_quarter]))
       /\ length (corrected_cube nb nl ns (small_dims_1500 !! "wavelength")
                    [f32_half; f32_quarter])
          = Z.to_nat (nb * nl * ns).
Proof.
  split; [vm_compute; reflexivity|].
  apply (output_cube_of_successful_run small_dims small_dims_1500
           "a_reflectance.dat" 1 small_store _ "a_radcorr.dat").
  - lia.
  - vm_compute. discriminate.
  - reflexivity.
  - vm_compute. reflexivity.
Defined.

(** ** Chunk sizes below 1 *)

(** Every band of a loop that ends well has a factor. *)
Lemma loop_factors (input output : string) (nlines nsamples : Z)
    (wavelengths : option value) (chunk_size : Z) (l : list nat) :
  forall fs fs',
  for_each (map Z.of_nat l)
    (process_band input output nlines nsamples wavelengths chunk_size) fs
  = (Ok tt, fs') ->
  forall k, In k l -> exists f, correction_factor wavelengths k = Ok f.
Proof.
  induction l as [|b l IH]; intros fs fs' Hrun k Hk; [destruct Hk|].
  simpl in Hrun. unfold mbind, M_bind, bind in Hrun.
  destruct (process_band input output nlines nsamples wavelengths chunk_size
              (Z.of_nat b) fs) as [[[]|e] fs1] eqn:Eb; [|discriminate].
  destruct Hk as [<-|Hk]; [|exact (IH _ _ Hrun k Hk)].
  unfold process_band, mbind, M_bind, bind, lift in Eb.
  rewrite Nat2Z.id in Eb.
  destruct (correction_factor wavelengths b) as [f|e]; [eauto|discriminate].
Qed.

(** With a negative chunk size a band has no chunk. *)
Lemma negative_chunk_loop (input output : string) (nlines nsamples : Z)
    (wavelengths : option value) (chunk_size : Z) (l : list nat)
    (fs : gmap string file) :
  chunk_size < 0 -> 0 <= nlines ->
  (forall k, In k l -> exists f, correction_factor wavelengths k = Ok f) ->
  for_each (map Z.of_nat l)
    (process_band input output nlines nsamples wavelengths chunk_size) fs
  = (Ok tt, fs).
Proof.
  intros Hc Hl. induction l as [|b l IH]; intros Hf; [reflexivity|].
  simpl. unfold mbind, M_bind, bind.
  unfold process_band at 1. unfold mbind, M_bind, bind, lift.
  rewrite Nat2Z.id. destruct (Hf b (or_introl eq_refl)) as [f ->].
  unfold range.
  replace (chunk_size =? 0) with false by (symmetry; apply Z.eqb_neq; lia).
  replace (0 <? chunk_size) with false by (symmetry; apply Z.ltb_ge; lia).
  replace (Z.to_nat (0 - nlines)) with 0%nat by lia. simpl.
  apply IH. intros k Hk. apply Hf. right. exact Hk.
Qed.

(** X5: with the chunk size 0 a run returns for a cube of no band only.
    Where a positive chunk size gives a run that succeeds, the chunk size
    0 gives the same outcome and files when the cube has no band, and
    otherwise raises the [ValueError] of [range] in the first band: the
    output cube is then created and full of zeros, and nothing else is
    changed, so no header is written. *)
Theorem zero_chunk_size_raises
    (refl_header rad_header : gmap string value) (reflectance_data : string)
    (fs : gmap string file) :
  let output_file := Py.replace "reflectance" "radcorr" reflectance_data in
  (forall returned fs0,
     correct refl_header rad_header reflectance_data 0 fs = (Ok returned, fs0) ->
     refl_header !! "bands" = Some (VInt 0))
  /\ (forall chunk_size returned fs1,
        1 <= chunk_size ->
        correct refl_header rad_header reflectance_data chunk_size fs
        = (Ok returned, fs1) ->
        exists ns nl nb,
          refl_header !! "samples" = Some (VInt ns)
          /\ refl_header !! "lines" = Some (VInt nl)
          /\ refl_header !! "bands" = Some (VInt nb)
          /\ correct refl_header rad_header reflectance_data 0 fs
             = if 0 <? nb
               then (Raise (ValueError "range() arg 3 must not be zero"),
                     <[output_file := zero_cube nb nl ns]> fs)
               else (Ok returned, fs1)).
Proof.
  intros out. unfold correct. fold out. unfold mbind, M_bind, bind, lift.
  destruct (check_dimensions refl_header rad_header);
    [|split; intros; discriminate].
  destruct (getitem refl_header "bands") as [nbands|] eqn:Eb;
    [|split; intros; discriminate].
  destruct (getitem refl_header "lines") as [nlines|] eqn:El;
    [|split; intros; discriminate].
  destruct (getitem refl_header "samples") as [nsamples|] eqn:Es;
    [|split; intros; discriminate].
  destruct (report_dimensions nbands nlines nsamples);
    [|split; intros; discriminate].
  destruct (report_wavelengths (rad_header !! "wavelength"));
    [|split; intros; discriminate].
  destruct (memmap_create out nbands nlines nsamples fs)
    as [[[[b l] s]|e] fs1] eqn:Ec;
    [|split; intros; discriminate].
  pose proof (memmap_create_shape _ _ _ _ _ _ _ _ _ Ec) as (-> & -> & ->).
  apply memmap_create_ok in Ec as (_ & Hb & Hl & Hs & Hfs1).
  destruct (memmap_open reflectance_data (Z.to_nat (b * l * s)) fs1)
    as [[[]|e] fs2] eqn:Eo;
    [|split; intros; discriminate].
  apply memmap_open_ok in Eo as (-> & _).
  apply getitem_ok in Eb, El, Es.
  destruct (Z_lt_le_dec 0 b) as [Hpos|Hzero].
  - (* the cube has a band: [range] raises in the first *)
    assert (Hraise : forall f,
              correction_factor (rad_header !! "wavelength") 0 = Ok f ->
              for_each (band_indices b)
                (process_band reflectance_data out l s (rad_header !! "wavelength") 0)
                fs1
              = (Raise (ValueError "range() arg 3 must not be zero"), fs1)).
    { intros f Hf. unfold band_indices.
      destruct (Z.to_nat b) as [|n] eqn:E; [lia|]. simpl.
      unfold mbind, M_bind, bind. unfold process_band at 1.
      unfold mbind, M_bind, bind, lift.
      change (Z.to_nat (Z.of_nat 0)) with 0%nat. rewrite Hf. reflexivity. }
    split.
    + intros returned fs0.
      destruct (for_each (band_indices b) _ fs1) as [[[]|e] fs3] eqn:Ef;
        [|discriminate].
      exfalso. unfold band_indices in Ef.
      destruct (Z.to_nat b) as [|n] eqn:E; [lia|]. simpl in Ef.
      unfold mbind, M_bind, bind in Ef. unfold process_band at 1 in Ef.
      unfold mbind, M_bind, bind, lift in Ef.
      destruct (correction_factor _ _); discriminate.
    + intros chunk_size returned fs4 Hc Hrun.
      destruct (for_each (band_indices b)
                  (process_band reflectance_data out l s
                     (rad_header !! "wavelength") chunk_size) fs1)
        as [[[]|e] fs3] eqn:Ef; [|discriminate].
      destruct (first_band_factor _ _ _ _ _ _ _ _ _ Hpos Ef) as [f Hf].
      rewrite (Hraise f Hf). exists s, l, b.
      repeat split; try assumption.
      replace (0 <? b) with true by (symmetry; apply Z.ltb_lt; exact Hpos).
      rewrite Hfs1. reflexivity.
  - (* the cube has no band: no chunk size is looked at *)
    assert (b = 0) as -> by lia. unfold band_indices. simpl.
    unfold mret, M_ret, ret. split.
    + intros returned fs0 _. exact Eb.
    + intros chunk_size returned fs4 Hc Hrun.
      exists s, l, 0. repeat split; assumption.
Qed.

Lemma zero_chunk_size_raises_witness :
  correct small_dims small_dims_1500 "a_reflectance.dat" 1 small_store
  = (Ok "a_radcorr.dat",
     <["a_radcorr.dat.hdr" := Text (serialize 1 2 1 small_dims_1500)]>
       (<["a_radcorr.dat" := Cube [F32.one; f32_half]]> small_store))
  /\ correct small_dims small_dims_1500 "a_reflectance.dat" 0 small_store
     = (Raise (ValueError "range() arg 3 must not be zero"),
        <["a_radcorr.dat" := Cube [F32.zero; F32.zero]]> small_store)
  /\ correct no_band_dims no_band_dims "a_reflectance.dat" 0 small_store
     = (Ok "a_radcorr.dat",
        <["a_radcorr.dat.hdr" := Text (serialize 1 2 0 no_band_dims)]>
          (<["a_radcorr.dat" := Cube []]> small_store)).
Proof.
  assert (Hrun : correct small_dims small_dims_1500 "a_reflectance.dat" 1 small_store
            = (Ok "a_radcorr.dat",
               <["a_radcorr.dat.hdr" := Text (serialize 1 2 1 small_dims_1500)]>
                 (<["a_radcorr.dat" := Cube [F32.one; f32_half]]> small_store)))
    by (vm_compute; reflexivity).
  assert (Hrun0 : correct no_band_dims no_band_dims "a_reflectance.dat" 1 small_store
            = (Ok "a_radcorr.dat",
               <["a_radcorr.dat.hdr" := Text (serialize 1 2 0 no_band_dims)]>
                 (<["a_radcorr.dat" := Cube []]> small_store)))
    by (vm_compute; reflexivity).
  split; [exact Hrun|]. split.
  - destruct (proj2 (zero_chunk_size_raises small_dims small_dims_1500
                       "a_reflectance.dat" small_store) 1 _ _ ltac:(lia) Hrun)
      as (ns & nl & nb & Hs & Hl & Hb & Hzero).
    injection Hs as <-. injection Hl as <-. injection Hb as <-.
    exact Hzero.
  - destruct (proj2 (zero_chunk_size_raises no_band_dims no_band_dims
                       "a_reflectance.dat" small_store) 1 _ _ ltac:(lia) Hrun0)
      as (ns & nl & nb & Hs & Hl & Hb & Hzero).
    injection Hb as <-. exact Hzero.
Defined.

(** X6: where a positive chunk size gives a run that succeeds, a negative
    chunk size gives one too, which corrects nothing: it returns the output
    path and leaves the output cube full of zeros. *)
Theorem negative_chunk_size_writes_zeros
    (refl_header rad_header : gmap string value) (reflectance_data : string)
    (positive negative : Z) (fs fs1 : gmap string file) (returned : string) :
  let output_file := Py.replace "reflectance" "radcorr" reflectance_data in
  1 <= positive -> negative < 0 ->
  correct refl_header rad_header reflectance_data positive fs = (Ok returned, fs1) ->
  exists ns nl nb,
    refl_header !! "samples" = Some (VInt ns)
    /\ refl_header !! "lines" = Some (VInt nl)
    /\ refl_header !! "bands" = Some (VInt nb)
    /\ fst (correct refl_header rad_header reflectance_data negative fs)
       = Ok output_file
    /\ snd (correct refl_header rad_header reflectance_data negative fs)
         !! output_file
       = Some (zero_cube nb nl ns).
Proof.
  intros out Hp Hn. unfold correct. fold out. unfold mbind, M_bind, bind, lift.
  destruct (check_dimensions refl_header rad_header); [|discriminate].
  destruct (getitem refl_header "bands") as [nbands|] eqn:Eb; [|discriminate].
  destruct (getitem refl_header "lines") as [nlines|] eqn:El; [|discriminate].
  destruct (getitem refl_header "samples") as [nsamples|] eqn:Es; [|discriminate].
  destruct (report_dimensions nbands nlines nsamples); [|discriminate].
  destruct (report_wavelengths (rad_header !! "wavelength")); [|discriminate].
  destruct (memmap_create out nbands nlines nsamples fs)
    as [[[[b l] s]|e] fs2] eqn:Ec; [|discriminate].
  pose proof (memmap_create_shape _ _ _ _ _ _ _ _ _ Ec) as (-> & -> & ->).
  apply memmap_create_ok in Ec as (_ & Hb & Hl & Hs & Hfs2).
  destruct (memmap_open reflectance_data (Z.to_nat (b * l * s)) fs2)
    as [[[]|e] fs3] eqn:Eo; [|discriminate].
  apply memmap_open_ok in Eo as (-> & _).
  destruct (for_each (band_indices b)
              (process_band reflectance_data out l s
                 (rad_header !! "wavelength") positive) fs2)
    as [[[]|e] fs3] eqn:Ef; [|discriminate].
  unfold band_indices in *.
  rewrite (negative_chunk_loop _ _ _ _ _ _ _ fs2 Hn Hl
             (loop_factors _ _ _ _ _ _ _ _ _ Ef)).
  unfold write_header, header_text.
  destruct (wavelength_field (rad_header !! "wavelength")) as [wl stop].
  destruct stop as [e|]; [simpl; discriminate|]. intros _.
  unfold mbind, M_bind, bind, write_text, mret, M_ret, ret. simpl.
  exists s, l, b. repeat split; try (apply getitem_ok; assumption).
  rewrite lookup_insert_ne by (symmetry; apply path_not_its_header).
  rewrite Hfs2. apply lookup_insert_eq.
Qed.

Lemma negative_chunk_size_writes_zeros_witness :
  exists ns nl nb,
    small_dims !! "samples" = Some (VInt ns)
    /\ small_dims !! "lines" = Some (VInt nl)
    /\ small_dims !! "bands" = Some (VInt nb)
    /\ fst (correct small_dims small_dims_1500 "a_reflectance.dat" (-1) small_store)
       = Ok (Py.replace "reflectance" "radcorr" "a_reflectance.dat")
    /\ snd (correct small_dims small_dims_1500 "a_reflectance.dat" (-1) small_store)
         !! Py.replace "reflectance" "radcorr" "a_reflectance.dat"
       = Some (zero_cube nb nl ns).
Proof.
  apply (negative_chunk_size_writes_zeros small_dims small_dims_1500
           "a_reflectance.dat" 1 (-1) small_store
           (snd (correct small_dims small_dims_1500 "a_reflectance.dat" 1 small_store))
           "a_radcorr.dat").
  - lia.
  - lia.
  - vm_compute. reflexivity.
Defined.

(** ** Headers without a dimension *)

(** X7: when one of the two headers lacks a dimension key, the run raises
    before it creates a file: the [KeyError] of a missing key, or the
    dimension mismatch when a comparison that comes before the missing key
    fails. The file store is left as it was. *)
Theorem missing_dimension_raises
    (refl_header rad_header : gmap string value) (reflectance_data : string)
    (chunk_size : Z) (fs : gmap string file) :
  lacks_dimension refl_header \/ lacks_dimension rad_header ->
  exists e,
    correct refl_header rad_header reflectance_data chunk_size fs = (Raise e, fs)
    /\ (e = dimension_mismatch
        \/ exists key,
             In key ["samples"; "lines"; "bands"] /\ e = KeyError key
             /\ (refl_header !! key = None \/ rad_header !! key = None)).
Proof.
  intros Hlack. unfold correct, mbind, M_bind, bind, lift.
  unfold check_dimensions, getitem.
  assert (Hkey : forall key, In key ["samples"; "lines"; "bands"] ->
            refl_header !! key = None \/ rad_header !! key = None ->
            exists e, (Raise e : result string, fs) = (Raise (KeyError key), fs)
              /\ (e = dimension_mismatch
                  \/ exists key,
                       In key ["samples"; "lines"; "bands"] /\ e = KeyError key
                       /\ (refl_header !! key = None \/ rad_header !! key = None))).
  { intros key Hin Hnone. exists (KeyError key). split; [reflexivity|].
    right. exists key. auto. }
  assert (Hmis : exists e, (Raise e : result string, fs) = (Raise dimension_mismatch, fs)
              /\ (e = dimension_mismatch
                  \/ exists key,
                       In key ["samples"; "lines"; "bands"] /\ e = KeyError key
                       /\ (refl_header !! key = None \/ rad_header !! key = None)))
    by (exists dimension_mismatch; auto).
  destruct (refl_header !! "samples") as [s1|] eqn:Es1;
    [|destruct (Hkey "samples") as (e & <- & H); simpl; eauto].
  destruct (rad_header !! "samples") as [s2|] eqn:Es2;
    [|destruct (Hkey "samples") as (e & <- & H); simpl; eauto].
  destruct (value_eqb s1 s2); simpl;
    [|destruct Hmis as (e & <- & H); eauto].
  destruct (refl_header !! "lines") as [l1|] eqn:El1;
    [|destruct (Hkey "lines") as (e & <- & H); simpl; eauto].
  destruct (rad_header !! "lines") as [l2|] eqn:El2;
    [|destruct (Hkey "lines") as (e & <- & H); simpl; eauto].
  destruct (value_eqb l1 l2); simpl;
    [|destruct Hmis as (e & <- & H); eauto].
  destruct (refl_header !! "bands") as [b1|] eqn:Eb1;
    [|destruct (Hkey "bands") as (e & <- & H); simpl; eauto 6].
  destruct (rad_header !! "bands") as [b2|] eqn:Eb2;
    [|destruct (Hkey "bands") as (e & <- & H); simpl; eauto 6].
  exfalso. unfold lacks_dimension in Hlack.
  rewrite Es1, Es2, El1, El2, Eb1, Eb2 in Hlack.
  destruct Hlack as [[H|[H|H]]|[H|[H|H]]]; discriminate.
Qed.

Lemma missing_dimension_raises_witness :
  exists e,
    correct (delete "lines" small_dims) small_dims "a_reflectance.dat" 500 small_store
    = (Raise e, small_store)
    /\ (e = dimension_mismatch
        \/ exists key,
             In key ["samples"; "lines"; "bands"] /\ e = KeyError key
             /\ (delete "lines" small_dims !! key = None \/ small_dims !! key = None)).
Proof.
  apply (missing_dimension_raises (delete "lines" small_dims) small_dims).
  left. right. left. vm_compute. reflexivity.
Defined.

(** ** The files a run writes *)

(** X4: a run changes no file other than the output cube and its header:
    every other path of the store holds after the run what it held
    before, whether the run succeeds or raises. *)
Theorem run_changes_only_its_outputs
    (reflectance_files radiance_files : files) (chunk_size : Z)
    (fs : gmap string file) (path : string) :
  let output_file := Py.replace "reflectance" "radcorr" (data reflectance_files) in
  path <> output_file -> path <> output_file +:+ ".hdr" ->
  snd (apply_enhanced_radiometric_correction
         reflectance_files radiance_files chunk_size fs) !! path
  = fs !! path.
Proof.
  intros out H1 H2. unfold apply_enhanced_radiometric_correction.
  assert (Hread : forall p, touches_only [out; out +:+ ".hdr"] (read_header p)).
  { intros p fs0 q _. unfold read_header.
    destruct (fs0 !! p) as [[|]|]; reflexivity. }
  apply (touches_bind _ _ _ (Hread _)).
  - intros refl_header. apply (touches_bind _ _ _ (Hread _)).
    intros rad_header. apply correct_touches.
  - simpl. intros [E|[E|[]]]; [apply H1|apply H2]; symmetry; exact E.
Qed.

Lemma run_changes_only_its_outputs_witness :
  let fs : gmap string file :=
    {[ "a_reflectance.dat" := Cube [f32_half; f32_quarter];
       "a_reflectance.hdr" := Text small_header;
       "a_radiance.hdr" := Text small_header_1500 ]} in
  let run := apply_enhanced_radiometric_correction
               (mkFiles "a_reflectance.dat" "a_reflectance.hdr")
               (mkFiles "a_radiance.dat" "a_radiance.hdr") 500 fs in
  fst run = Ok "a_radcorr.dat"
  /\ snd run !! "a_radiance.hdr" = fs !! "a_radiance.hdr".
Proof.
  intros fs run. split; [vm_compute; reflexivity|].
  apply (run_changes_only_its_outputs
           (mkFiles "a_reflectance.dat" "a_reflectance.hdr")
           (mkFiles "a_radiance.dat" "a_radiance.hdr") 500 fs "a_radiance.hdr").
  - vm_compute. discriminate.
  - vm_compute. discriminate.
Defined.

(** ** The output path *)

Lemma replace_without (old new s : string) :
  Py.contains old s = false -> Py.replace old new s = s.
Proof.
  unfold Py.replace. induction s as [|c s IH]; [reflexivity|].
  intros H. unfold Py.contains in H. fold Py.contains in H.
  apply orb_false_elim in H as [Hs Hc].
  unfold Py.replace_from. fold Py.replace_from. rewrite Hs.
  rewrite (IH Hc). reflexivity.
Qed.

(** The output path is the data path exactly when the data path does not
    contain [reflectance]. *)
Lemma output_path_is_data_path_iff (reflectance_data : string) :
  Py.replace "reflectance" "radcorr" reflectance_data = reflectance_data
  <-> Py.contains "reflectance" reflectance_data = false.
Proof.
  split.
  - intros Heq. destruct (Py.contains "reflectance" reflectance_data) eqn:E;
      [|reflexivity].
    destruct (output_paths_differ _ E) as [Hne _]. congruence.
  - apply replace_without.
Qed.

Lemma corrected_zeros_length (nbands nlines nsamples : Z)
    (wavelengths : option value) :
  0 <= nbands -> 0 <= nlines -> 0 <= nsamples ->
  length (corrected_zeros nbands nlines nsamples wavelengths)
  = Z.to_nat (nbands * nlines * nsamples).
Proof.
  intros Hb Hl Hs. unfold corrected_zeros.
  replace (nbands * nlines * nsamples) with (nbands * (nlines * nsamples)) by ring.
  rewrite (Z2Nat.inj_mul nbands (nlines * nsamples)) by nia.
  generalize (Z.to_nat nbands) as n, (Z.to_nat (nlines * nsamples)) as B, 0%nat as k.
  induction n as [|n IH]; intros B k; [reflexivity|].
  cbn [seq flat_map]. rewrite length_app, repeat_length, IH. reflexivity.
Qed.

(** The bands from [k] on, each read from and written to the one file,
    behind the part [pre] that holds the bands before [k]. *)
Lemma whole_bands_in_place (path : string) (nlines nsamples : Z)
    (wavelengths : option value) (n : nat) :
  0 <= nlines -> 0 <= nsamples ->
  forall (k r : nat) (pre : list spec_float) (fs fs' : gmap string file),
  for_each (map Z.of_nat (seq k n))
    (whole_band path path nlines nsamples wavelengths) fs = (Ok tt, fs') ->
  fs !! path
  = Some (Cube (pre ++ repeat F32.zero ((n + r) * Z.to_nat (nlines * nsamples)))) ->
  length pre = (k * Z.to_nat (nlines * nsamples))%nat ->
  fs' !! path
  = Some (Cube (pre
       ++ flat_map
            (fun band => repeat (correct_element (factor_at wavelengths band) F32.zero)
                           (Z.to_nat (nlines * nsamples)))
            (seq k n)
       ++ repeat F32.zero (r * Z.to_nat (nlines * nsamples)))).
Proof.
  intros Hl Hs. set (B := Z.to_nat (nlines * nsamples)).
  induction n as [|n IH]; intros k r pre fs fs' Hrun Hfile Hpre.
  - simpl in Hrun. injection Hrun as <-. exact Hfile.
  - simpl in Hrun. unfold mbind, M_bind, bind in Hrun.
    unfold whole_band at 1 in Hrun. rewrite Nat2Z.id in Hrun.
    unfold factor_at at 1. cbn [seq flat_map].
    destruct (correction_factor wavelengths k) as [f|e]; [|discriminate].
    unfold rest_of_band in Hrun. rewrite Hfile in Hrun.
    assert (Hoff : row_offset nlines nsamples (Z.of_nat k) 0 = (k * B)%nat).
    { unfold row_offset, B.
      replace ((Z.of_nat k * nlines + 0) * nsamples)
        with (Z.of_nat k * (nlines * nsamples)) by ring.
      rewrite Z2Nat.inj_mul by nia. rewrite Nat2Z.id. reflexivity. }
    rewrite Hoff in Hrun.
    replace (Z.to_nat ((nlines - 0) * nsamples)) with B in Hrun
      by (unfold B; f_equal; ring).
    assert (Hread : firstn B (skipn (k * B) (pre ++ repeat F32.zero ((S n + r) * B)))
                    = repeat F32.zero B).
    { rewrite skipn_app, skipn_all2 by lia. rewrite Hpre, Nat.sub_diag.
      change (skipn 0 (repeat F32.zero ((S n + r) * B)))
        with (repeat F32.zero ((S n + r) * B)).
      replace ((S n + r) * B)%nat with (B + (n + r) * B)%nat by lia.
      rewrite repeat_app. cbn [app].
      apply take_app_length'. symmetry. apply repeat_length. }
    rewrite Hread in Hrun.
    set (new := repeat (correct_element f F32.zero) B).
    assert (Hmap : map (correct_element f) (repeat F32.zero B) = new).
    { unfold new. generalize B. intros m.
      induction m as [|m IHm]; [reflexivity|]. simpl. rewrite IHm. reflexivity. }
    rewrite Hmap in Hrun.
    assert (Hnew : length new = B) by apply repeat_length.
    assert (Hover : overwrite (pre ++ repeat F32.zero ((S n + r) * B)) (k * B) new
                    = (pre ++ new) ++ repeat F32.zero ((n + r) * B)).
    { unfold overwrite. rewrite <- Hpre at 1.
      rewrite firstn_app, firstn_all, Nat.sub_diag, firstn_O, app_nil_r.
      rewrite <- app_assoc. f_equal. f_equal.
      rewrite skipn_app. rewrite skipn_all2 by lia. simpl.
      rewrite Hnew, Hpre. replace (k * B + B - k * B)%nat with B by lia.
      replace ((S n + r) * B)%nat with (B + (n + r) * B)%nat by lia.
      rewrite repeat_app, skipn_app, repeat_length, Nat.sub_diag.
      rewrite skipn_all2 by (rewrite repeat_length; lia). reflexivity. }
    rewrite Hover in Hrun.
    rewrite (IH (S k) r (pre ++ new) _ fs' Hrun).
    + rewrite <- !app_assoc. reflexivity.
    + apply lookup_insert_eq.
    + rewrite length_app, Hnew, Hpre. lia.
Qed.

(** X8: when the data path does not contain [reflectance], the output
    path is the data path, and the run creates its output over its input:
    a run that returns has returned the data path and has left there,
    whatever the input cube held, a cube of [bands * lines * samples]
    elements of which each is the correction of 0.0 by the factor of its
    band. *)
Theorem run_over_its_input
    (refl_header rad_header : gmap string value) (reflectance_data : string)
    (chunk_size : Z) (fs fs' : gmap string file) (returned : string) :
  Py.contains "reflectance" reflectance_data = false ->
  1 <= chunk_size ->
  correct refl_header rad_header reflectance_data chunk_size fs
  = (Ok returned, fs') ->
  returned = reflectance_data
  /\ exists ns nl nb,
       refl_header !! "samples" = Some (VInt ns)
       /\ refl_header !! "lines" = Some (VInt nl)
       /\ refl_header !! "bands" = Some (VInt nb)
       /\ fs' !! reflectance_data
          = Some (Cube (corrected_zeros nb nl ns (rad_header !! "wavelength")))
       /\ length (corrected_zeros nb nl ns (rad_header !! "wavelength"))
          = Z.to_nat (nb * nl * ns).
Proof.
  intros Hpath Hc. unfold correct.
  rewrite (replace_without _ "radcorr" _ Hpath).
  set (path := reflectance_data).
  unfold mbind, M_bind, bind, lift.
  destruct (check_dimensions refl_header rad_header); [|discriminate].
  destruct (getitem refl_header "bands") as [nbands|] eqn:Eb; [|discriminate].
  destruct (getitem refl_header "lines") as [nlines|] eqn:El; [|discriminate].
  destruct (getitem refl_header "samples") as [nsamples|] eqn:Es; [|discriminate].
  destruct (report_dimensions nbands nlines nsamples); [|discriminate].
  destruct (report_wavelengths (rad_header !! "wavelength")); [|discriminate].
  destruct (memmap_create path nbands nlines nsamples fs)
    as [[[[b l] s]|e] fs1] eqn:Ec; [|discriminate].
  pose proof (memmap_create_shape _ _ _ _ _ _ _ _ _ Ec) as (-> & -> & ->).
  apply memmap_create_ok in Ec as (_ & Hb & Hl & Hs & Hfs1).
  destruct (memmap_open path (Z.to_nat (b * l * s)) fs1)
    as [[[]|e] fs2] eqn:Eo; [|discriminate].
  apply memmap_open_ok in Eo as (-> & _).
  assert (Hfile : fs1 !! path = Some (Cube (repeat F32.zero (Z.to_nat (b * l * s)))))
    by (rewrite Hfs1; apply lookup_insert_eq).
  assert (Htotal : Z.to_nat (b * l * s) = (Z.to_nat b * Z.to_nat (l * s))%nat).
  { replace (b * l * s) with (b * (l * s)) by ring. apply Z2Nat.inj_mul; nia. }
  rewrite bands_whole; [|assumption|assumption|assumption|].
  2:{ exists (repeat F32.zero (Z.to_nat (b * l * s))),
        (repeat F32.zero (Z.to_nat (b * l * s))).
      rewrite repeat_length. auto. }
  destruct (for_each (band_indices b) _ fs1) as [[[]|e] fs3] eqn:Ef; [|discriminate].
  pose proof (whole_bands_in_place path l s (rad_header !! "wavelength")
                (Z.to_nat b) Hl Hs 0%nat 0%nat [] fs1 fs3 Ef) as Hdone.
  pose proof (touches_write_header [path +:+ ".hdr"] (path +:+ ".hdr") s l b
                (rad_header !! "wavelength") rad_header (or_introl eq_refl)
                fs3 path) as Hw.
  destruct (write_header (path +:+ ".hdr") s l b (rad_header !! "wavelength")
              rad_header fs3) as [[[]|e] fs4]; [|discriminate].
  unfold mret, M_ret, ret. intros [= <- <-].
  split; [reflexivity|]. exists s, l, b.
  repeat split; try (apply getitem_ok; assumption).
  - simpl in Hw. rewrite Hw.
    2:{ intros [H|[]]. symmetry in H. exact (path_not_its_header _ H). }
    rewrite Hdone.
    + simpl. rewrite app_nil_r. reflexivity.
    + simpl. rewrite Nat.add_0_r, <- Htotal. exact Hfile.
    + reflexivity.
  - apply corrected_zeros_length; assumption.
Qed.

Lemma run_over_its_input_witness :
  Py.contains "reflectance" "cube.dat" = false
  /\ corrected_zeros 1 2 1 (small_dims_1500 !! "wavelength") = [F32.zero; F32.zero]
  /\ exists ns nl nb,
       small_dims !! "samples" = Some (VInt ns)
       /\ small_dims !! "lines" = Some (VInt nl)
       /\ small_dims !! "bands" = Some (VInt nb)
       /\ snd (correct small_dims small_dims_1500 "cube.dat" 500
                 {[ "cube.dat" := Cube [f32_half; f32_quarter] ]}) !! "cube.dat"
          = Some (Cube (corrected_zeros nb nl ns (small_dims_1500 !! "wavelength")))
       /\ length (corrected_zeros nb nl ns (small_dims_1500 !! "wavelength"))
          = Z.to_nat (nb * nl * ns).
Proof.
  split; [reflexivity|]. split; [vm_compute; reflexivity|].
  apply (run_over_its_input small_dims small_dims_1500 "cube.dat" 500
           {[ "cube.dat" := Cube [f32_half; f32_quarter] ]} _ "cube.dat").
  - reflexivity.
  - lia.
  - vm_compute. reflexivity.
Defined.

(** ** The wavelength table of a run *)

(** A run that returns had wavelengths that the header writer formats. *)
Lemma run_no_stop (refl_header rad_header : gmap string value)
    (reflectance_data : string) (chunk_size : Z) (fs fs' : gmap string file)
    (returned : string) :
  correct refl_header rad_header reflectance_data chunk_size fs
  = (Ok returned, fs') ->
  snd (wavelength_field (rad_header !! "wavelength")) = None.
Proof.
  unfold correct, mbind, M_bind, bind, lift.
  destruct (check_dimensions refl_header rad_header); [|discriminate].
  destruct (getitem refl_header "bands") as [nbands|]; [|discriminate].
  destruct (getitem refl_header "lines") as [nlines|]; [|discriminate].
  destruct (getitem refl_header "samples") as [nsamples|]; [|discriminate].
  destruct (report_dimensions nbands nlines nsamples); [|discriminate].
  destruct (report_wavelengths (rad_header !! "wavelength")); [|discriminate].
  destruct (memmap_create _ nbands nlines nsamples fs)
    as [[[[b l] s]|e] fs1]; [|discriminate].
  destruct (memmap_open reflectance_data _ fs1) as [[[]|e] fs2]; [|discriminate].
  destruct (for_each (band_indices b) _ fs2) as [[[]|e] fs3]; [|discriminate].
  unfold write_header, header_text.
  destruct (wavelength_field (rad_header !! "wavelength")) as [wl [e|]];
    [|reflexivity].
  unfold mbind, M_bind, bind, write_text, raise. discriminate.
Qed.

(** With one factor for every band the corrected cube is the input,
    element by element, corrected by that factor. *)
Lemma corrected_cube_uniform (nbands nlines nsamples : Z)
    (wavelengths : option value) (f : spec_float) (d : list spec_float) :
  0 <= nbands -> 0 <= nlines -> 0 <= nsamples ->
  (forall band, factor_at wavelengths band = f) ->
  corrected_cube nbands nlines nsamples wavelengths d
  = map (correct_element f) (firstn (Z.to_nat (nbands * nlines * nsamples)) d).
Proof.
  intros Hb Hl Hs Hf. unfold corrected_cube.
  set (B := Z.to_nat (nlines * nsamples)).
  assert (Htotal : Z.to_nat (nbands * nlines * nsamples) = (Z.to_nat nbands * B)%nat).
  { unfold B. replace (nbands * nlines * nsamples) with (nbands * (nlines * nsamples))
      by ring. apply Z2Nat.inj_mul; nia. }
  rewrite Htotal.
  assert (Hgen : forall n k,
            flat_map (fun band => map (correct_element (factor_at wavelengths band))
                                    (band_of nlines nsamples d band)) (seq k n)
            = map (correct_element f) (firstn (n * B) (skipn (k * B) d))).
  { induction n as [|n IH]; intros k; [reflexivity|].
    cbn [seq flat_map]. rewrite IH, Hf. unfold band_of. fold B.
    rewrite <- map_app. f_equal.
    replace (S n * B)%nat with (B + n * B)%nat by lia.
    rewrite firstn_add, skipn_skipn. repeat (f_equal; try lia). }
  rewrite (Hgen (Z.to_nat nbands) 0%nat). reflexivity.
Qed.

(** C8, as the code has it: what the reflectance header declares as
    wavelength changes nothing; a run that returns has corrected every
    band by the factor that the table of the radiance header gives it and
    has written that table into the header of the output; and with no
    table in the radiance header, whatever the reflectance header
    declares, every element is corrected by the factor 1.0 and the header
    of the output is the fixed fields and the copied fields, with no
    wavelength between them. *)
Theorem wavelength_of_reflectance_header_unused
    (refl_header rad_header : gmap string value) (reflectance_data : string)
    (chunk_size : Z) (fs : gmap string file) :
  let output_file := Py.replace "reflectance" "radcorr" reflectance_data in
  let wavelengths := rad_header !! "wavelength" in
  (forall refl_header2,
     (forall key, key <> "wavelength" -> refl_header !! key = refl_header2 !! key) ->
     correct refl_header rad_header reflectance_data chunk_size fs
     = correct refl_header2 rad_header reflectance_data chunk_size fs)
  /\ (forall returned fs' din,
        1 <= chunk_size -> reflectance_data <> output_file ->
        fs !! reflectance_data = Some (Cube din) ->
        correct refl_header rad_header reflectance_data chunk_size fs
        = (Ok returned, fs') ->
        exists ns nl nb,
          refl_header !! "samples" = Some (VInt ns)
          /\ refl_header !! "lines" = Some (VInt nl)
          /\ refl_header !! "bands" = Some (VInt nb)
          /\ fs' !! output_file
             = Some (Cube (corrected_cube nb nl ns wavelengths din))
          /\ fs' !! (output_file +:+ ".hdr")
             = Some (Text (fixed_fields ns nl nb
                           +:+ fst (wavelength_field wavelengths)
                           +:+ copied_fields rad_header))
          /\ (wavelengths = None ->
                fs' !! output_file
                = Some (Cube (map (correct_element f64_one)
                                (firstn (Z.to_nat (nb * nl * ns)) din)))
                /\ fs' !! (output_file +:+ ".hdr")
                   = Some (Text (fixed_fields ns nl nb
                                 +:+ copied_fields rad_header)))).
Proof.
  intros out wavelengths. split.
  - intros refl2 H. apply correct_reads_refl_dimensions; apply H; discriminate.
  - intros returned fs' din Hc Hne Hin Hrun.
    destruct (cube_of_run _ _ _ _ _ _ _ _ Hc Hne Hin Hrun)
      as (ns & nl & nb & Hns & Hnl & Hnb & _ & _ & _ & Es & El & Eb & Hlen & Hcube).
    pose proof (header_of_run refl_header rad_header reflectance_data chunk_size fs)
      as Hhdr.
    cbv zeta in Hhdr. rewrite Hrun in Hhdr. cbn [fst snd] in Hhdr.
    destruct Hhdr as (_ & ns' & nl' & nb' & Es' & El' & Eb' & Htext).
    rewrite Es in Es'. rewrite El in El'. rewrite Eb in Eb'.
    injection Es' as <-. injection El' as <-. injection Eb' as <-.
    pose proof (run_no_stop _ _ _ _ _ _ _ Hrun) as Hstop.
    assert (Hser : serialize ns nl nb rad_header
                   = fixed_fields ns nl nb +:+ fst (wavelength_field wavelengths)
                     +:+ copied_fields rad_header).
    { unfold serialize, header_text. fold wavelengths.
      fold wavelengths in Hstop.
      destruct (wavelength_field wavelengths) as [wl stop]. simpl in Hstop.
      subst stop. reflexivity. }
    exists ns, nl, nb. split; [exact Es|]. split; [exact El|]. split; [exact Eb|].
    split; [exact Hcube|]. split; [fold out in Htext; rewrite Htext, Hser; reflexivity|].
    intros Hnone. unfold wavelengths in *. split.
    + fold out in Hcube. rewrite Hcube. f_equal. f_equal.
      apply corrected_cube_uniform; try assumption.
      intros band. rewrite Hnone. reflexivity.
    + fold out in Htext. rewrite Htext, Hser, Hnone. reflexivity.
Qed.

Lemma wavelength_of_reflectance_header_unused_witness :
  correct (<["wavelength" := VFloats [F64.of_Z 1500]]> small_dims) small_dims
    "a_reflectance.dat" 500 small_store
  = correct small_dims small_dims "a_reflectance.dat" 500 small_store
  /\ snd (correct small_dims small_dims_1500 "a_reflectance.dat" 500 small_store)
       !! "a_radcorr.dat"
     = Some (Cube (corrected_cube 1 2 1 (small_dims_1500 !! "wavelength")
                     [f32_half; f32_quarter]))
  /\ corrected_cube 1 2 1 (small_dims_1500 !! "wavelength") [f32_half; f32_quarter]
     = [F32.one; f32_half].
Proof.
  split; [|split; [|vm_compute; reflexivity]].
  - apply (proj1 (wavelength_of_reflectance_header_unused
                    (<["wavelength" := VFloats [F64.of_Z 1500]]> small_dims)
                    small_dims "a_reflectance.dat" 500 small_store)).
    intros key Hkey. apply lookup_insert_ne. congruence.
  - destruct (proj2 (wavelength_of_reflectance_header_unused
                       small_dims small_dims_1500 "a_reflectance.dat" 500 small_store)
                "a_radcorr.dat" _ [f32_half; f32_quarter]
                ltac:(lia) ltac:(vm_compute; discriminate) eq_refl eq_refl)
      as (ns & nl & nb & Hs & Hl & Hb & Hcube & _).
    injection Hs as <-. injection Hl as <-. injection Hb as <-. exact Hcube.
Defined.

(** ** Range of the written cube *)

Lemma correct_element_clipped (factor x : spec_float) :
  clipped (correct_element factor x) = true.
Proof.
  unfold clipped, correct_element.
  destruct (F32.mul x (F32.of_f64 factor)) as [s|s| |s m e] eqn:E;
    try (rewrite clip_within by discriminate; apply orb_true_r).
  reflexivity.
Qed.

(** A loop keeps what each of its iterations keeps. *)
Lemma for_each_keeps {A : Type} (inv : gmap string file -> Prop)
    (body : A -> M unit) (l : list A) :
  (forall x fs, inv fs -> inv (snd (body x fs))) ->
  forall fs, inv fs -> inv (snd (for_each l body fs)).
Proof.
  intros Hbody. induction l as [|x l IH]; intros fs Hinv; [exact Hinv|].
  simpl. unfold mbind, M_bind, bind.
  pose proof (Hbody x fs Hinv) as Hx.
  destruct (body x fs) as [[[]|e] fs1]; simpl in Hx; [apply IH, Hx|exact Hx].
Qed.

Lemma process_band_keeps_clipped (input output : string) (nlines nsamples : Z)
    (wavelengths : option value) (chunk_size band : Z) (fs : gmap string file) :
  cube_clipped output fs ->
  cube_clipped output
    (snd (process_band input output nlines nsamples wavelengths chunk_size band fs)).
Proof.
  intros Hinv. unfold process_band, mbind, M_bind, bind, lift.
  destruct (correction_factor wavelengths (Z.to_nat band)) as [factor|e];
    [|exact Hinv].
  destruct (range 0 nlines chunk_size) as [starts|e]; [|exact Hinv].
  apply for_each_keeps; [|exact Hinv].
  intros start fs0 (d & Hd & Hall). unfold process_chunk, mbind, M_bind, bind.
  unfold read_view. destruct (fs0 !! input) as [[t|din]|]; simpl;
    try (exists d; split; assumption).
  unfold write_view. rewrite Hd. simpl. eexists. split; [apply lookup_insert_eq|].
  unfold overwrite. apply Forall_app. split; [apply Forall_take, Hall|].
  apply Forall_app. split; [|apply Forall_drop, Hall].
  apply List.Forall_forall. intros x Hx. apply in_map_iff in Hx as (y & <- & _).
  apply correct_element_clipped.
Qed.

(** X2: whatever the inputs and the chunk size, every element of the output
    cube of a run that succeeds is a NaN or a value of [0, 1]. *)
Theorem output_cube_is_clipped
    (refl_header rad_header : gmap string value) (reflectance_data : string)
    (chunk_size : Z) (fs fs' : gmap string file) (returned : string) :
  correct refl_header rad_header reflectance_data chunk_size fs
  = (Ok returned, fs') ->
  exists d,
    fs' !! Py.replace "reflectance" "radcorr" reflectance_data = Some (Cube d)
    /\ Forall (fun x => F32.is_nan x = true
                        \/ F32.within F32.zero F32.one x = true) d.
Proof.
  set (out := Py.replace "reflectance" "radcorr" reflectance_data).
  unfold correct. fold out. unfold mbind, M_bind, bind, lift.
  destruct (check_dimensions refl_header rad_header); [|discriminate].
  destruct (getitem refl_header "bands") as [nbands|]; [|discriminate].
  destruct (getitem refl_header "lines") as [nlines|]; [|discriminate].
  destruct (getitem refl_header "samples") as [nsamples|]; [|discriminate].
  destruct (report_dimensions nbands nlines nsamples); [|discriminate].
  destruct (report_wavelengths (rad_header !! "wavelength")); [|discriminate].
  destruct (memmap_create out nbands nlines nsamples fs)
    as [[[[b l] s]|e] fs1] eqn:Ec; [|discriminate].
  apply memmap_create_ok in Ec as (_ & _ & _ & _ & Hfs1).
  destruct (memmap_open reflectance_data (Z.to_nat (b * l * s)) fs1)
    as [[[]|e] fs2] eqn:Eo; [|discriminate].
  apply memmap_open_ok in Eo as (-> & _).
  assert (Hinv : cube_clipped out fs1).
  { eexists. split; [rewrite Hfs1; apply lookup_insert_eq|].
    apply List.Forall_forall. intros x Hx. apply repeat_spec in Hx. subst x. reflexivity. }
  pose proof (for_each_keeps (cube_clipped out)
                (process_band reflectance_data out l s
                   (rad_header !! "wavelength") chunk_size)
                (band_indices b)
                (fun band fs0 => process_band_keeps_clipped _ _ _ _ _ _ band fs0)
                fs1 Hinv) as Hloop.
  destruct (for_each (band_indices b) _ fs1) as [[[]|e] fs3]; [|discriminate].
  simpl in Hloop. destruct Hloop as (d & Hd & Hall).
  pose proof (touches_write_header [out +:+ ".hdr"] (out +:+ ".hdr") s l b
                (rad_header !! "wavelength") rad_header (or_introl eq_refl)
                fs3 out) as Hw.
  destruct (write_header (out +:+ ".hdr") s l b (rad_header !! "wavelength")
              rad_header fs3) as [[[]|e] fs4]; [|discriminate].
  unfold mret, M_ret, ret. intros [= _ <-]. exists d. split.
  - simpl in Hw. rewrite Hw; [exact Hd|].
    intros [H|[]]. symmetry in H. exact (path_not_its_header _ H).
  - eapply List.Forall_impl; [|exact Hall]. intros x Hx. apply orb_prop, Hx.
Qed.

Lemma output_cube_is_clipped_witness :
  exists d,
    snd (correct small_dims small_dims_1500 "a_reflectance.dat" 1 small_store)
      !! Py.replace "reflectance" "radcorr" "a_reflectance.dat" = Some (Cube d)
    /\ Forall (fun x => F32.is_nan x = true
                        \/ F32.within F32.zero F32.one x = true) d.
Proof.
  apply (output_cube_is_clipped small_dims small_dims_1500 "a_reflectance.dat" 1
           small_store _ "a_radcorr.dat").
  vm_compute. reflexivity.
Defined.

(** ** The viewer reads the written header *)

(** The pieces the viewer collects from the lines of a written list. *)
Fixpoint vpieces (x : spec_float) (xs : list spec_float) : list string :=
  match xs with
  | [] => [F64.format_6f x]
  | y :: ys => (F64.format_6f x +:+ ",") :: vpieces y ys
  end.

Lemma vfeed_line (st : Viewer.loader) (s rest : string) :
  Py.has_char LF s = false -> Py.has_char CR s = false ->
  vfeed st (s +:+ nl +:+ rest) = vfeed (Viewer.load_line st (s +:+ nl)) rest.
Proof.
  intros Hl Hc. unfold vfeed. rewrite readlines_line by assumption. reflexivity.
Qed.

Lemma flush_idle (st : Viewer.loader) :
  Viewer.pending st = None -> Viewer.flush st = st.
Proof. intros H. unfold Viewer.flush. rewrite H. reflexivity. Qed.

(** A line [key = v] outside a list. *)
Lemma load_line_field (st : Viewer.loader) (k v : string) :
  Viewer.pending st = None -> written_key k ->
  Py.lstrip v = v -> Py.rstrip v = v ->
  Viewer.load_line st ((k +:+ " = " +:+ v) +:+ nl) =
    if Py.has_char "{" v && Py.has_char "}" v
    then vassign st k (Viewer.process_value [braced_text v])
    else if Py.has_char "{" v
    then vopened st k (Py.item (Py.split "{" v) 1)
    else vassign st k (Viewer.process_value [v]).
Proof.
  intros Hst (Hk1 & Hk2 & Hk3 & Hk4) Hv1 Hv2. unfold Viewer.load_line.
  rewrite strip_line by assumption.
  assert (Hline : Py.rstrip (k +:+ " = " +:+ v)
                  = (k +:+ " ") +:+ String "=" (Py.rstrip (String " " v))).
  { change (k +:+ " = " +:+ v) with (k +:+ " " +:+ String "=" (String " " v)).
    rewrite <- app_assoc_str. rewrite rstrip_app.
    - rewrite rstrip_cons by reflexivity. reflexivity.
    - rewrite rstrip_cons by reflexivity. discriminate. }
  rewrite Hline.
  assert (Hne : String.eqb ((k +:+ " ") +:+ String "=" (Py.rstrip (String " " v))) "" = false).
  { apply String.eqb_neq. apply app_nonempty_r. discriminate. }
  rewrite Hne.
  rewrite has_char_app, has_char_cons, Ascii.eqb_refl, orb_true_r.
  rewrite (flush_idle st Hst).
  rewrite split1_app by (rewrite has_char_app, Hk3; reflexivity).
  rewrite Hk4. cbn [default from_option id]. rewrite strip_after_blank by assumption.
  reflexivity.
Qed.

Lemma vfeed_field (st : Viewer.loader) (k v rest : string) :
  Viewer.pending st = None -> written_key k ->
  Py.has_char LF k = false -> Py.has_char CR k = false ->
  Py.lstrip v = v -> Py.rstrip v = v ->
  Py.has_char LF v = false -> Py.has_char CR v = false ->
  Py.has_char "{" v = false ->
  vfeed st (field_line k v +:+ rest)
  = vfeed (vassign st k (Viewer.process_value [v])) rest.
Proof.
  intros Hst Hk Hkl Hkc Hv1 Hv2 Hvl Hvc Hb. unfold field_line.
  replace ((k +:+ " = " +:+ v +:+ nl) +:+ rest)
    with ((k +:+ " = " +:+ v) +:+ nl +:+ rest) by (rewrite !app_assoc_str; reflexivity).
  rewrite vfeed_line.
  - rewrite load_line_field by assumption. rewrite Hb. reflexivity.
  - rewrite !has_char_app, Hkl, Hvl. reflexivity.
  - rewrite !has_char_app, Hkc, Hvc. reflexivity.
Qed.

Lemma vfeed_literal (st : Viewer.loader) (line k v rest : string) :
  line = k +:+ " = " +:+ v ->
  vfeed st (line +:+ nl +:+ rest) = vfeed st (field_line k v +:+ rest).
Proof. intros ->. unfold field_line. rewrite !app_assoc_str. reflexivity. Qed.

(** The viewer reads a written dimension as its [int]. *)
Lemma process_value_int (n : Z) :
  Py.str_int_allowed n = true -> Viewer.process_value [Py.str_int n] = VInt n.
Proof.
  intros Hallowed. destruct (str_int_chars n) as [Hc _].
  pose proof (all_chars_impl _ _ _ numeral_char_not_space Hc) as Hs.
  unfold Viewer.process_value. cbn [Py.join]. unfold Py.strip.
  rewrite lstrip_no_space, rstrip_no_space by exact Hs.
  rewrite (all_chars_has_char numeral_char) by (exact Hc || reflexivity).
  rewrite int_str_int by exact Hallowed. reflexivity.
Qed.

Lemma vfeed_dimension (st : Viewer.loader) (k rest : string) (n : Z) :
  Viewer.pending st = None -> written_key k ->
  Py.has_char LF k = false -> Py.has_char CR k = false ->
  Py.str_int_allowed n = true ->
  vfeed st (field_line k (Py.str_int n) +:+ rest) = vfeed (vassign st k (VInt n)) rest.
Proof.
  intros Hst Hk Hl Hc Ha. destruct (str_int_plain n) as (H1 & H2 & H3 & H4 & H5).
  rewrite vfeed_field by assumption. rewrite process_value_int by exact Ha.
  reflexivity.
Qed.

Lemma vfeed_fixed_fields (nsamples nlines nbands : Z) (rest : string) :
  Py.str_int_allowed nsamples = true -> Py.str_int_allowed nlines = true ->
  Py.str_int_allowed nbands = true ->
  vfeed Viewer.loader_init (fixed_fields nsamples nlines nbands +:+ rest)
  = vfeed (vidle (viewer_fixed_map nsamples nlines nbands) []) rest.
Proof.
  intros Has Hal Hab. unfold fixed_fields. rewrite !app_assoc_str.
  rewrite vfeed_line by reflexivity.
  change (Viewer.load_line Viewer.loader_init ("ENVI" +:+ nl)) with Viewer.loader_init.
  replace ("description = {Radiometrically corrected reflectance data}" +:+ nl +:+
           field_line "samples" (Py.str_int nsamples) +:+ _)
    with (("description" +:+ " = " +:+ "{Radiometrically corrected reflectance data}")
          +:+ nl +:+ field_line "samples" (Py.str_int nsamples) +:+
          field_line "lines" (Py.str_int nlines) +:+
          field_line "bands" (Py.str_int nbands) +:+
          "header offset = 0" +:+ nl +:+ "file type = ENVI Standard" +:+ nl +:+
          "data type = 4" +:+ nl +:+ "interleave = bsq" +:+ nl +:+
          "byte order = 0" +:+ nl +:+ rest) by reflexivity.
  rewrite vfeed_line by reflexivity.
  rewrite load_line_field by first [reflexivity|written_key_tac].
  change (Py.has_char "{" "{Radiometrically corrected reflectance data}"
          && Py.has_char "}" "{Radiometrically corrected reflectance data}") with true.
  cbv iota.
  change (Viewer.process_value [braced_text "{Radiometrically corrected reflectance data}"])
    with (VStr "Radiometrically corrected reflectance data").
  rewrite (vfeed_dimension _ "samples") by first [assumption|reflexivity|written_key_tac].
  rewrite (vfeed_dimension _ "lines") by first [assumption|reflexivity|written_key_tac].
  rewrite (vfeed_dimension _ "bands") by first [assumption|reflexivity|written_key_tac].
  rewrite (vfeed_literal _ _ "header offset" "0" _ eq_refl).
  rewrite vfeed_field by first [reflexivity|written_key_tac].
  change (Viewer.process_value ["0"]) with (VInt 0).
  rewrite (vfeed_literal _ _ "file type" "ENVI Standard" _ eq_refl).
  rewrite vfeed_field by first [reflexivity|written_key_tac].
  change (Viewer.process_value ["ENVI Standard"]) with (VStr "ENVI Standard").
  rewrite (vfeed_literal _ _ "data type" "4" _ eq_refl).
  rewrite vfeed_field by first [reflexivity|written_key_tac].
  change (Viewer.process_value ["4"]) with (VInt 4).
  rewrite (vfeed_literal _ _ "interleave" "bsq" _ eq_refl).
  rewrite vfeed_field by first [reflexivity|written_key_tac].
  change (Viewer.process_value ["bsq"]) with (VStr "bsq").
  rewrite (vfeed_literal _ _ "byte order" "0" _ eq_refl).
  rewrite vfeed_field by first [reflexivity|written_key_tac].
  change (Viewer.process_value ["0"]) with (VInt 0).
  reflexivity.
Qed.

(** *** The lines of a list *)

Lemma float_char_no_equals (f : string) :
  all_chars float_char f = true -> Py.has_char "=" f = false.
Proof. intros Hf. apply (all_chars_has_char float_char); auto. Qed.

Lemma load_line_element (st : Viewer.loader) (cur f : string) :
  Viewer.pending st = Some cur -> all_chars float_char f = true -> f <> "" ->
  Viewer.load_line st ((" " +:+ f +:+ ",") +:+ nl)
  = {| Viewer.header := Viewer.header st;
       Viewer.current_key := Viewer.current_key st;
       Viewer.current_value := Viewer.current_value st ++ [f +:+ ","] |}.
Proof.
  intros Hst Hf Hne. destruct (float_text_facts f Hf) as (Hs & Hc & Hb & _).
  unfold Viewer.load_line. rewrite (strip_element f ",") by auto.
  replace (String.eqb (f +:+ ",") "") with false
    by (symmetry; apply String.eqb_neq, app_nonempty_r; discriminate).
  rewrite has_char_app, (float_char_no_equals f Hf).
  cbn [Py.has_char Ascii.eqb orb].
  rewrite Hst, has_char_app, Hb. reflexivity.
Qed.

Lemma load_line_last (st : Viewer.loader) (cur f : string) :
  Viewer.pending st = Some cur -> all_chars float_char f = true -> f <> "" ->
  Viewer.load_line st ((" " +:+ f +:+ "}") +:+ nl)
  = vclosed st cur (Viewer.current_value st ++ [f]).
Proof.
  intros Hst Hf Hne. destruct (float_text_facts f Hf) as (Hs & Hc & Hb & _).
  unfold Viewer.load_line. rewrite (strip_element f "}") by auto.
  replace (String.eqb (f +:+ "}") "") with false
    by (symmetry; apply String.eqb_neq, app_nonempty_r; discriminate).
  rewrite has_char_app, (float_char_no_equals f Hf).
  cbn [Py.has_char Ascii.eqb orb].
  rewrite Hst, has_char_app.
  replace (Py.has_char "}" "}") with true by reflexivity.
  rewrite orb_true_r.
  rewrite split_app by exact Hb. reflexivity.
Qed.

(** The lines of a written list, read inside the list, close it with the
    pieces of its elements behind the pieces that were there. *)
Lemma vfeed_elements (rest : string) (xs : list spec_float) :
  forall (x : spec_float) (st : Viewer.loader) (cur : string),
    Viewer.pending st = Some cur ->
    vfeed st (Py.join ("," +:+ nl) (map wl_line (x :: xs)) +:+ "}" +:+ nl +:+ rest)
    = vfeed (vclosed st cur (Viewer.current_value st ++ vpieces x xs)) rest.
Proof.
  induction xs as [|y ys IH]; intros x st cur Hst;
    destruct (format_6f_chars x) as [Hf Hne];
    destruct (float_text_facts _ Hf) as (_ & _ & _ & Hl & Hc).
  - cbn [map Py.join vpieces]. unfold wl_line.
    replace ((" " +:+ F64.format_6f x) +:+ "}" +:+ nl +:+ rest)
      with ((" " +:+ F64.format_6f x +:+ "}") +:+ nl +:+ rest)
      by (rewrite !app_assoc_str; reflexivity).
    rewrite vfeed_line.
    + rewrite (load_line_last st cur) by auto. reflexivity.
    + rewrite !has_char_app, Hl. reflexivity.
    + rewrite !has_char_app, Hc. reflexivity.
  - change (Py.join ("," +:+ nl) (map wl_line (x :: y :: ys)))
      with (wl_line x +:+ ("," +:+ nl) +:+ Py.join ("," +:+ nl) (map wl_line (y :: ys))).
    unfold wl_line at 1.
    replace (((" " +:+ F64.format_6f x) +:+ ("," +:+ nl) +:+
              Py.join ("," +:+ nl) (map wl_line (y :: ys))) +:+ "}" +:+ nl +:+ rest)
      with ((" " +:+ F64.format_6f x +:+ ",") +:+ nl +:+
            (Py.join ("," +:+ nl) (map wl_line (y :: ys)) +:+ "}" +:+ nl +:+ rest)).
    2:{ rewrite !app_assoc_str. reflexivity. }
    rewrite vfeed_line.
    + rewrite (load_line_element st cur) by auto.
      rewrite (IH y _ cur) by exact Hst.
      unfold vclosed. cbn [Viewer.header Viewer.current_value vpieces].
      rewrite <- app_assoc. reflexivity.
    + rewrite !has_char_app, Hl. reflexivity.
    + rewrite !has_char_app, Hc. reflexivity.
Qed.

(** *** The value of the collected pieces *)

Lemma split_nonempty (c : ascii) (s : string) : Py.split c s <> [].
Proof.
  induction s as [|d s IH]; [discriminate|]. simpl.
  destruct (Ascii.eqb c d); [discriminate|].
  destruct (Py.split c s); [contradiction|discriminate].
Qed.

(** Splitting at a separator splits the text before it and the text after
    it. *)
Lemma split_at (c : ascii) (a b : string) :
  Py.split c (a +:+ String c b) = Py.split c a ++ Py.split c b.
Proof.
  induction a as [|d a IH].
  - simpl. rewrite Ascii.eqb_refl. reflexivity.
  - rewrite app_cons. simpl. rewrite IH.
    destruct (Ascii.eqb c d); [reflexivity|].
    pose proof (split_nonempty c a) as Hne.
    destruct (Py.split c a); [contradiction|reflexivity].
Qed.

Lemma comma_parts_at (a b : string) :
  comma_parts (a +:+ String "," b) = comma_parts a ++ comma_parts b.
Proof.
  unfold comma_parts. rewrite split_at, List.filter_app, map_app. reflexivity.
Qed.

(** The parts of the joined pieces are the parts of the pieces. *)
Lemma comma_parts_join (ps : list string) : forall p,
  comma_parts (Py.join ", " (p :: ps))
  = comma_parts p ++ flat_map (fun q => comma_parts (" " +:+ q)) ps.
Proof.
  induction ps as [|q ps IH]; intros p.
  - cbn [Py.join flat_map]. rewrite app_nil_r. reflexivity.
  - change (Py.join ", " (p :: q :: ps))
      with (p +:+ String "," (" " +:+ Py.join ", " (q :: ps))).
    rewrite comma_parts_at. f_equal.
    destruct ps as [|r ps].
    + cbn [Py.join flat_map]. rewrite app_nil_r. reflexivity.
    + change (Py.join ", " (q :: r :: ps))
        with (q +:+ String "," (" " +:+ Py.join ", " (r :: ps))).
      rewrite <- app_assoc_str, comma_parts_at.
      cbn [flat_map]. f_equal.
      specialize (IH q).
      change (Py.join ", " (q :: r :: ps))
        with (q +:+ String "," (" " +:+ Py.join ", " (r :: ps))) in IH.
      rewrite comma_parts_at in IH. cbn [flat_map] in IH.
      apply app_inv_head in IH.
      destruct ps as [|r2 ps]; exact IH.
Qed.

Lemma comma_parts_float (f : string) :
  all_chars float_char f = true -> f <> "" ->
  comma_parts (" " +:+ f) = [f] /\ comma_parts (" " +:+ f +:+ ",") = [f].
Proof.
  intros Hf Hne. destruct (float_text_facts f Hf) as (Hs & Hc & _).
  assert (Hstrip : Py.strip (" " +:+ f) = f).
  { unfold Py.strip. change (Py.lstrip (" " +:+ f)) with (Py.lstrip f).
    exact Hs. }
  assert (H1 : comma_parts (" " +:+ f) = [f]).
  { unfold comma_parts. rewrite split_none by (simpl; exact Hc).
    cbn [List.filter]. rewrite Hstrip.
    replace (nonempty f) with true
      by (symmetry; apply negb_true_iff, String.eqb_neq, Hne).
    cbn [map]. rewrite Hstrip. reflexivity. }
  split; [exact H1|].
  rewrite <- app_assoc_str. change ("," : string) with (String "," "").
  rewrite comma_parts_at, H1. reflexivity.
Qed.

Lemma comma_parts_vpieces (xs : list spec_float) : forall x,
  flat_map (fun q => comma_parts (" " +:+ q)) (vpieces x xs)
  = map F64.format_6f (x :: xs).
Proof.
  induction xs as [|y ys IH]; intros x; destruct (format_6f_chars x) as [Hf Hne];
    destruct (comma_parts_float _ Hf Hne) as [H1 H2].
  - cbn [vpieces flat_map]. rewrite H1. reflexivity.
  - cbn [vpieces flat_map]. rewrite H2, IH. reflexivity.
Qed.

(** The joined pieces end with the last element. *)
Lemma join_vpieces_end (xs : list spec_float) : forall x (front : list string),
  exists pre last,
    Py.join ", " (front ++ vpieces x xs) = pre +:+ F64.format_6f last.
Proof.
  assert (Hcons : forall (p : string) (l : list string) pre t,
            Py.join ", " l = pre +:+ t -> l <> [] ->
            Py.join ", " (p :: l) = (p +:+ ", " +:+ pre) +:+ t).
  { intros p l pre t H Hl. destruct l as [|q l]; [contradiction|].
    change (Py.join ", " (p :: q :: l)) with (p +:+ ", " +:+ Py.join ", " (q :: l)).
    rewrite H, !app_assoc_str. reflexivity. }
  assert (Hv : forall xs x, vpieces x xs <> []) by (intros [|] ?; discriminate).
  induction xs as [|y ys IH]; intros x front.
  - induction front as [|p front IHf].
    + exists "", x. reflexivity.
    + destruct IHf as (pre & last & H). eexists _, last.
      apply Hcons; [exact H|]. destruct front; discriminate.
  - induction front as [|p front IHf].
    + destruct (IH y []) as (pre & last & H). simpl app in *.
      eexists _, last. cbn [vpieces]. apply Hcons; [exact H|apply Hv].
    + destruct IHf as (pre & last & H). eexists _, last.
      apply Hcons; [exact H|]. destruct front; [apply Hv|discriminate].
Qed.

(** The pieces of a written list behind an empty piece, other pieces
    between them, are read as the floats of the elements. *)
Lemma process_value_pieces (mid : list string) (x : spec_float)
    (xs : list spec_float) (l : list spec_float) :
  flat_map (fun q => comma_parts (" " +:+ q)) mid = map F64.format_6f l ->
  Viewer.process_value ("" :: mid ++ vpieces x xs)
  = VFloats (map reread (l ++ x :: xs)).
Proof.
  intros Hmid. unfold Viewer.process_value.
  destruct (join_vpieces_end xs x mid) as (pre & last & Hend).
  assert (Hjoin : Py.join ", " ("" :: mid ++ vpieces x xs)
                  = String "," (String " " (pre +:+ F64.format_6f last))).
  { destruct (mid ++ vpieces x xs) as [|q r] eqn:E.
    - destruct mid, xs; discriminate.
    - change (Py.join ", " ("" :: q :: r)) with ("" +:+ ", " +:+ Py.join ", " (q :: r)).
      rewrite Hend. reflexivity. }
  assert (Hstrip : Py.strip (Py.join ", " ("" :: mid ++ vpieces x xs))
                   = Py.join ", " ("" :: mid ++ vpieces x xs)).
  { rewrite Hjoin. unfold Py.strip.
    change (Py.lstrip (String "," (String " " (pre +:+ F64.format_6f last))))
      with (String "," (String " " (pre +:+ F64.format_6f last))).
    change (String "," (String " " (pre +:+ F64.format_6f last)))
      with ((", " +:+ pre) +:+ F64.format_6f last).
    destruct (format_6f_chars last) as [Hf Hne].
    pose proof (all_chars_impl _ _ _ float_char_not_space Hf) as Hs.
    rewrite rstrip_app; rewrite rstrip_no_space by exact Hs; auto. }
  rewrite Hstrip.
  replace (Py.has_char "," (Py.join ", " ("" :: mid ++ vpieces x xs)))
    with true by (rewrite Hjoin; reflexivity).
  fold (comma_parts (Py.join ", " ("" :: mid ++ vpieces x xs))).
  rewrite comma_parts_join. change (comma_parts "") with (@nil string).
  rewrite flat_map_app. cbn [app].
  rewrite Hmid, comma_parts_vpieces, <- map_app, floats_format_6f.
  reflexivity.
Qed.

(** *** The whole header *)

Lemma vfeed_wavelength_field (m : gmap string value) (o : option value)
    (rest : string) :
  float_table o ->
  exists pieces,
    vfeed (vidle m []) (fst (wavelength_field o) +:+ rest)
    = vfeed (vidle (put "wavelength" (option_map reread_table o) m) pieces) rest.
Proof.
  intros Ho. destruct o as [[s|n|[|x xs]|l]|]; try contradiction.
  - exists ("" :: vpieces x xs).
    unfold wavelength_field. cbn [truthy fst].
    change (fun x0 : spec_float => " " +:+ F64.format_6f x0) with wl_line.
    rewrite !app_assoc_str.
    replace ("wavelength = {" +:+ nl +:+
             Py.join ("," +:+ nl) (map wl_line (x :: xs)) +:+ "}" +:+ nl +:+ rest)
      with (("wavelength" +:+ " = " +:+ "{") +:+ nl +:+
            Py.join ("," +:+ nl) (map wl_line (x :: xs)) +:+ "}" +:+ nl +:+ rest)
      by reflexivity.
    rewrite vfeed_line by reflexivity.
    rewrite load_line_field by first [reflexivity|written_key_tac].
    change (Py.has_char "{" "{" && Py.has_char "}" "{") with false.
    change (Py.has_char "{" "{") with true. cbv iota.
    rewrite (vfeed_elements rest xs x _ "wavelength") by reflexivity.
    unfold vclosed, vopened, vidle.
    cbn [Viewer.header Viewer.current_value app put option_map reread_table].
    change (Py.item (Py.split "{" "{") 1) with "".
    pose proof (process_value_pieces [] x xs [] eq_refl) as Hv.
    cbn [app] in Hv. rewrite Hv.
    reflexivity.
  - exists []. reflexivity.
Qed.

Lemma vfeed_optional_field (m rad_header : gmap string value)
    (pieces : list string) (key rest : string) :
  written_key key -> Py.has_char LF key = false -> Py.has_char CR key = false ->
  text_field (rad_header !! key) ->
  vfeed (vidle m pieces) (optional_field rad_header key +:+ rest)
  = vfeed (vidle (viewer_put key (rad_header !! key) m) pieces) rest.
Proof.
  intros Hk Hl Hc Ht. unfold optional_field.
  destruct (rad_header !! key) as [[s|n|l|l]|]; try contradiction.
  - destruct Ht as (H1 & H2 & H3 & H4 & H5). cbn [str_value].
    rewrite vfeed_field by (assumption || reflexivity). reflexivity.
  - reflexivity.
Qed.

Lemma lookup_viewer_put_ne (key k : string) (o : option value)
    (m : gmap string value) :
  key <> k -> viewer_put key o m !! k = m !! k.
Proof. intros H. destruct o; [apply lookup_insert_ne, H|reflexivity]. Qed.

(** What the viewer makes of the written header of a well-formed model. *)
Lemma viewer_reads_written (nsamples nlines nbands : Z)
    (rad_header : gmap string value) :
  Py.str_int_allowed nsamples = true ->
  Py.str_int_allowed nlines = true ->
  Py.str_int_allowed nbands = true ->
  float_table (rad_header !! "wavelength") ->
  text_field (rad_header !! "wavelength units") ->
  text_field (rad_header !! "acquisition date") ->
  text_field (rad_header !! "sensor type") ->
  let h := Viewer.load_header_text (serialize nsamples nlines nbands rad_header) in
  h !! "samples" = Some (VInt nsamples)
  /\ h !! "lines" = Some (VInt nlines)
  /\ h !! "bands" = Some (VInt nbands)
  /\ h !! "wavelength" = option_map reread_table (rad_header !! "wavelength").
Proof.
  intros Hds Hdl Hdb Hw Hu Ha Hs.
  set (m0 := viewer_fixed_map nsamples nlines nbands).
  set (m1 := put "wavelength" (option_map reread_table (rad_header !! "wavelength")) m0).
  set (m2 := viewer_put "wavelength units" (rad_header !! "wavelength units") m1).
  set (m3 := viewer_put "acquisition date" (rad_header !! "acquisition date") m2).
  set (m4 := viewer_put "sensor type" (rad_header !! "sensor type") m3).
  assert (Hread : Viewer.load_header_text (serialize nsamples nlines nbands rad_header)
                  = m4).
  { unfold Viewer.load_header_text, serialize, header_text.
    destruct (feed_wavelength_field m0 (rad_header !! "wavelength") "" Hw)
      as [_ Hstop].
    destruct (vfeed_wavelength_field m0 (rad_header !! "wavelength")
                (copied_fields rad_header) Hw) as [pieces Hfeed].
    destruct (wavelength_field (rad_header !! "wavelength")) as [wl stop].
    cbn [fst snd] in Hfeed, Hstop. subst stop. cbn [fst].
    fold (vfeed Viewer.loader_init
            (fixed_fields nsamples nlines nbands +:+ wl +:+ copied_fields rad_header)).
    rewrite vfeed_fixed_fields by assumption. fold m0. rewrite Hfeed. fold m1.
    unfold copied_fields.
    rewrite vfeed_optional_field by first [assumption|reflexivity|written_key_tac].
    fold m2.
    rewrite vfeed_optional_field by first [assumption|reflexivity|written_key_tac].
    fold m3.
    rewrite <- (app_empty_r (optional_field rad_header "sensor type")).
    rewrite vfeed_optional_field by first [assumption|reflexivity|written_key_tac].
    reflexivity. }
  intros h. subst h. rewrite Hread. unfold m4, m3, m2, m1, m0. repeat split.
  - rewrite !lookup_viewer_put_ne, lookup_put_ne by discriminate. reflexivity.
  - rewrite !lookup_viewer_put_ne, lookup_put_ne by discriminate. reflexivity.
  - rewrite !lookup_viewer_put_ne, lookup_put_ne by discriminate. reflexivity.
  - rewrite !lookup_viewer_put_ne by discriminate. apply lookup_put_eq. reflexivity.
Qed.

(** X11: the header reader of the viewer, run on the header the correction
    writes for a well-formed model, whose dimensions are integers that
    [str] writes, finds the three dimensions as the integers that were
    written, and the wavelengths as the floats of their six-decimal
    texts. *)
Theorem viewer_reads_written_header (nsamples nlines nbands : Z)
    (rad_header : gmap string value) :
  Py.str_int_allowed nsamples = true ->
  Py.str_int_allowed nlines = true ->
  Py.str_int_allowed nbands = true ->
  float_table (rad_header !! "wavelength") ->
  text_field (rad_header !! "wavelength units") ->
  text_field (rad_header !! "acquisition date") ->
  text_field (rad_header !! "sensor type") ->
  let h := Viewer.load_header_text (serialize nsamples nlines nbands rad_header) in
  h !! "samples" = Some (VInt nsamples)
  /\ h !! "lines" = Some (VInt nlines)
  /\ h !! "bands" = Some (VInt nbands)
  /\ h !! "wavelength" = option_map reread_table (rad_header !! "wavelength").
Proof. apply viewer_reads_written. Qed.

Lemma viewer_reads_written_header_witness :
  let h := Viewer.load_header_text (serialize 1 2 1 model_rad) in
  h !! "samples" = Some (VInt 1)
  /\ h !! "lines" = Some (VInt 2)
  /\ h !! "bands" = Some (VInt 1)
  /\ h !! "wavelength" = option_map reread_table (model_rad !! "wavelength").
Proof.
  apply (viewer_reads_written_header 1 2 1 model_rad).
  - reflexivity.
  - reflexivity.
  - reflexivity.
  - vm_compute. exact I.
  - vm_compute. exact I.
  - vm_compute. exact I.
  - vm_compute. repeat split.
Defined.

(** ** A second list in the viewer *)

Lemma pending_idle (st : Viewer.loader) :
  Viewer.current_key st = None -> Viewer.pending st = None.
Proof. intros H. unfold Viewer.pending. rewrite H. reflexivity. Qed.

Lemma vfeed_list (st : Viewer.loader) (key rest : string) (x : spec_float)
    (xs : list spec_float) :
  Viewer.current_key st = None -> written_key key ->
  Py.has_char LF key = false -> Py.has_char CR key = false ->
  vfeed st (written_list key (x :: xs) +:+ rest)
  = vfeed (vclosed st key (Viewer.current_value st ++ "" :: vpieces x xs)) rest.
Proof.
  intros Hst Hk Hl Hc. unfold written_list.
  replace ((key +:+ " = {" +:+ nl +:+ Py.join ("," +:+ nl) (map wl_line (x :: xs))
            +:+ "}" +:+ nl) +:+ rest)
    with ((key +:+ " = " +:+ "{") +:+ nl +:+
          Py.join ("," +:+ nl) (map wl_line (x :: xs)) +:+ "}" +:+ nl +:+ rest)
    by (rewrite !app_assoc_str; reflexivity).
  rewrite vfeed_line.
  - rewrite load_line_field by (apply pending_idle, Hst || assumption || reflexivity).
    change (Py.has_char "{" "{" && Py.has_char "}" "{") with false.
    change (Py.has_char "{" "{") with true. cbv iota.
    change (Py.item (Py.split "{" "{") 1) with "".
    rewrite (vfeed_elements rest xs x _ key).
    + unfold vclosed, vopened. cbn [Viewer.header Viewer.current_value].
      rewrite <- app_assoc. reflexivity.
    + unfold Viewer.pending, vopened. cbn [Viewer.current_key].
      destruct Hk as (_ & Hne & _).
      destruct (String.eqb_spec key ""); [contradiction|reflexivity].
  - rewrite !has_char_app, Hl. reflexivity.
  - rewrite !has_char_app, Hc. reflexivity.
Qed.

(** X12: [load_header] empties [current_value] only when a key is still
    pending at a [key = value] line, not when a list is closed: the second
    of two lists, each laid out over lines of its own, is stored with the
    elements of the first in front of its own. *)
Theorem second_list_holds_first_list (key1 key2 : string)
    (x y : spec_float) (xs ys : list spec_float) :
  written_key key1 -> Py.has_char LF key1 = false -> Py.has_char CR key1 = false ->
  written_key key2 -> Py.has_char LF key2 = false -> Py.has_char CR key2 = false ->
  Viewer.load_header_text
    (written_list key1 (x :: xs) +:+ written_list key2 (y :: ys)) !! key2
  = Some (VFloats (map reread ((x :: xs) ++ (y :: ys)))).
Proof.
  intros Hk1 Hl1 Hc1 Hk2 Hl2 Hc2. unfold Viewer.load_header_text.
  fold (vfeed Viewer.loader_init
          (written_list key1 (x :: xs) +:+ written_list key2 (y :: ys))).
  rewrite vfeed_list by (assumption || reflexivity).
  rewrite <- (app_empty_r (written_list key2 (y :: ys))).
  rewrite vfeed_list by (assumption || reflexivity).
  unfold vfeed. cbn [readlines Viewer.load_lines fold_left].
  unfold vclosed. cbn [Viewer.header Viewer.current_value Viewer.loader_init app].
  rewrite lookup_insert_eq. f_equal.
  change ("" :: vpieces x xs ++ "" :: vpieces y ys)
    with ("" :: vpieces x xs ++ [""] ++ vpieces y ys).
  rewrite app_assoc.
  apply (process_value_pieces (vpieces x xs ++ [""]) y ys (x :: xs)).
  rewrite flat_map_app, comma_parts_vpieces. cbn [flat_map].
  change (comma_parts (" " +:+ "")) with (@nil string).
  rewrite !app_nil_r. reflexivity.
Qed.

Lemma second_list_holds_first_list_witness :
  Viewer.load_header_text
    (written_list "wavelength" [F64.of_Z 500; F64.of_Z 600]
     +:+ written_list "fwhm" [F64.of_Z 10]) !! "fwhm"
  = Some (VFloats (map reread ([F64.of_Z 500; F64.of_Z 600] ++ [F64.of_Z 10]))).
Proof.
  apply (second_list_holds_first_list "wavelength" "fwhm"
           (F64.of_Z 500) (F64.of_Z 10) [F64.of_Z 600] []);
    first [reflexivity|written_key_tac].
Defined.

(** ** The viewer on the output of a run *)

(** X13: the viewer, given the output of a run that succeeds on a well-formed
    radiance header (the output path is not the data path, the chunk size
    is positive), reads the header the run wrote and maps the cube the run
    wrote: its dimensions are those of the reflectance header, and its
    wavelengths are those of the radiance header as they come back from
    their six-decimal texts, or the band numbers when there are none. *)
Theorem viewer_opens_run_output
    (refl_header rad_header : gmap string value) (reflectance_data : string)
    (chunk_size : Z) (fs fs' : gmap string file) (returned : string)
    (din : list spec_float) :
  1 <= chunk_size ->
  reflectance_data <> Py.replace "reflectance" "radcorr" reflectance_data ->
  fs !! reflectance_data = Some (Cube din) ->
  float_table (rad_header !! "wavelength") ->
  text_field (rad_header !! "wavelength units") ->
  text_field (rad_header !! "acquisition date") ->
  text_field (rad_header !! "sensor type") ->
  correct refl_header rad_header reflectance_data chunk_size fs
  = (Ok returned, fs') ->
  exists ns nl nb,
    refl_header !! "samples" = Some (VInt ns)
    /\ refl_header !! "lines" = Some (VInt nl)
    /\ refl_header !! "bands" = Some (VInt nb)
    /\ Viewer.init returned (returned +:+ ".hdr") fs'
       = (Ok {| Viewer.samples := ns; Viewer.lines := nl; Viewer.bands := nb;
                Viewer.data := returned;
                Viewer.wavelengths :=
                  match rad_header !! "wavelength" with
                  | Some w => Viewer.FromHeader (reread_table w)
                  | None => Viewer.Arange nb
                  end |}, fs').
Proof.
  intros Hc Hne Hin Hw Hu Ha Hs Hrun.
  destruct (cube_of_run _ _ _ _ _ _ _ _ Hc Hne Hin Hrun)
    as (ns & nl & nb & Hns & Hnl & Hnb & Hds & Hdl & Hdb
        & Es & El & Eb & Hlen & Hcube).
  pose proof (header_of_run refl_header rad_header reflectance_data chunk_size fs)
    as Hhdr.
  cbv zeta in Hhdr. rewrite Hrun in Hhdr. cbn [fst snd] in Hhdr.
  destruct Hhdr as (-> & ns' & nl' & nb' & Es' & El' & Eb' & Htext).
  rewrite Es in Es'. rewrite El in El'. rewrite Eb in Eb'.
  injection Es' as <-. injection El' as <-. injection Eb' as <-.
  exists ns, nl, nb. repeat split; try assumption.
  set (out := Py.replace "reflectance" "radcorr" reflectance_data) in *.
  destruct (viewer_reads_written ns nl nb rad_header Hds Hdl Hdb Hw Hu Ha Hs)
    as (Hvs & Hvl & Hvb & Hvw).
  unfold Viewer.init, Viewer.load_header, mbind, M_bind, bind.
  rewrite Htext.
  set (h := Viewer.load_header_text (serialize ns nl nb rad_header)) in *.
  unfold Viewer.load_data, mbind, M_bind, bind, lift, getitem.
  rewrite Hvs, Hvl, Hvb. unfold Viewer.memmap_read. rewrite Hcube.
  replace (nb * nl * ns <? 0) with false by (symmetry; apply Z.ltb_ge; nia).
  replace ((nb <? 0) || (nl <? 0) || (ns <? 0)) with false
    by (symmetry; rewrite !orb_false_iff, !Z.ltb_ge; auto).
  unfold mbind, M_bind, bind, memmap_open. rewrite Hcube.
  rewrite corrected_cube_length by assumption. rewrite Nat.leb_refl.
  unfold mret, M_ret, ret. rewrite Hvw.
  destruct (rad_header !! "wavelength"); reflexivity.
Qed.

Lemma viewer_opens_run_output_witness :
  exists ns nl nb,
    small_dims !! "samples" = Some (VInt ns)
    /\ small_dims !! "lines" = Some (VInt nl)
    /\ small_dims !! "bands" = Some (VInt nb)
    /\ Viewer.init "a_radcorr.dat" ("a_radcorr.dat" +:+ ".hdr")
         (snd (correct small_dims small_dims_1500 "a_reflectance.dat" 1 small_store))
       = (Ok {| Viewer.samples := ns; Viewer.lines := nl; Viewer.bands := nb;
                Viewer.data := "a_radcorr.dat";
                Viewer.wavelengths :=
                  match small_dims_1500 !! "wavelength" with
                  | Some w => Viewer.FromHeader (reread_table w)
                  | None => Viewer.Arange nb
                  end |},
          snd (correct small_dims small_dims_1500 "a_reflectance.dat" 1 small_store)).
Proof.
  apply (viewer_opens_run_output small_dims small_dims_1500 "a_reflectance.dat" 1
           small_store _ "a_radcorr.dat" [f32_half; f32_quarter]).
  - lia.
  - vm_compute. discriminate.
  - reflexivity.
  - vm_compute. exact I.
  - vm_compute. exact I.
  - vm_compute. exact I.
  - vm_compute. exact I.
  - vm_compute. reflexivity.
Defined.

(** ** Keys *)

Lemma lower_char_lower (c : ascii) :
  Py.lower_char (Py.lower_char c) = Py.lower_char c.
Proof. destruct c as [[] [] [] [] [] [] [] []]; reflexivity. Qed.

Lemma lower_lower (s : string) : Py.lower (Py.lower s) = Py.lower s.
Proof.
  induction s as [|c s IH]; [reflexivity|].
  simpl. rewrite lower_char_lower, IH. reflexivity.
Qed.

Lemma lowered_keys_insert (m : gmap string value) (key : string) (v : value) :
  lowered_keys m -> Py.lower key = key -> lowered_keys (<[key := v]> m).
Proof.
  intros Hm Hk k Hsome. destruct (decide (key = k)) as [<-|Hne]; [exact Hk|].
  rewrite lookup_insert_ne in Hsome by exact Hne. exact (Hm k Hsome).
Qed.

Lemma read_line_lowered (st st' : reader) (raw : string) :
  reader_lowered st -> read_line st raw = Ok st' -> reader_lowered st'.
Proof.
  intros [Hm Hc]. unfold read_line.
  destruct (String.eqb (Py.strip raw) ""); [intros [= <-]; split; assumption|].
  destruct (collecting st) as [cur|] eqn:Ecol.
  - assert (Hcur : Py.lower cur = cur).
    { apply Hc. unfold collecting in Ecol.
      destruct (current_array st) as [k|]; [|discriminate].
      destruct (String.eqb k ""); [discriminate|]. congruence. }
    destruct (negb _); intros [= <-]; split; simpl; auto.
    + apply lowered_keys_insert; assumption.
    + discriminate.
  - destruct (Py.has_char "=" (Py.strip raw)); [|intros [= <-]; split; assumption].
    destruct (Py.split1 "=" (Py.strip raw)) as [k v].
    destruct (_ && _).
    + intros [= <-]. split; simpl; [exact Hm|].
      intros cur [= <-]. apply lower_lower.
    + destruct (decode _ _) as [v2|e]; [|discriminate].
      intros [= <-]. split; simpl; [|exact Hc].
      apply lowered_keys_insert; [exact Hm|apply lower_lower].
Qed.

Lemma read_lines_lowered (lines : list string) : forall st st',
  reader_lowered st -> read_lines st lines = Ok st' -> reader_lowered st'.
Proof.
  induction lines as [|l lines IH]; intros st st' Hst; simpl.
  - intros [= <-]. exact Hst.
  - destruct (read_line st l) as [st1|e] eqn:El; [|discriminate].
    apply IH. exact (read_line_lowered _ _ _ Hst El).
Qed.

Lemma pending_key (st : Viewer.loader) (cur : string) :
  Viewer.pending st = Some cur -> Viewer.current_key st = Some cur.
Proof.
  unfold Viewer.pending. destruct (Viewer.current_key st) as [k|]; [|discriminate].
  destruct (String.eqb k ""); [discriminate|]. intros [= ->]. reflexivity.
Qed.

Lemma load_line_lowered (st : Viewer.loader) (raw : string) :
  loader_lowered st -> loader_lowered (Viewer.load_line st raw).
Proof.
  intros [Hm Hc]. unfold Viewer.load_line.
  destruct (String.eqb (Py.strip raw) ""); [split; assumption|].
  destruct (Py.has_char "=" (Py.strip raw)).
  - assert (Hflush : lowered_keys (Viewer.header (Viewer.flush st))).
    { unfold Viewer.flush. destruct (Viewer.pending st) as [cur|] eqn:Ep; [|exact Hm].
      simpl. apply lowered_keys_insert; [exact Hm|].
      apply Hc, pending_key, Ep. }
    destruct (Py.split1 "=" (Py.strip raw)) as [k v].
    destruct (_ && _); [|destruct (Py.has_char "{" _)]; split; simpl;
      try discriminate;
      try (apply lowered_keys_insert; [exact Hflush|apply lower_lower]);
      try exact Hflush.
    intros cur [= <-]. apply lower_lower.
  - destruct (Viewer.pending st) as [cur|] eqn:Ep; [|split; assumption].
    destruct (Py.has_char "}" (Py.strip raw)); split; simpl; auto;
      try discriminate.
    apply lowered_keys_insert; [exact Hm|]. apply Hc, pending_key, Ep.
Qed.

Lemma load_lines_lowered (lines : list string) : forall st,
  loader_lowered st -> loader_lowered (Viewer.load_lines st lines).
Proof.
  induction lines as [|l lines IH]; intros st Hst; [exact Hst|].
  simpl. apply IH, load_line_lowered, Hst.
Qed.

(** X9: keys are stored in lower case by both header readers, whatever the
    case in the file: every key of the map [read_header] returns, and
    every key of the map the viewer's [load_header] builds, is its own
    lowered form, so a field is found under its lower-case name only. *)
Theorem header_keys_are_lowered (text : string) :
  (forall h, read_header_text text = Ok h -> lowered_keys h)
  /\ lowered_keys (Viewer.load_header_text text).
Proof.
  split.
  - intros h. unfold read_header_text.
    destruct (read_lines reader_init (readlines text)) as [st|e] eqn:E;
      [|discriminate].
    intros [= <-]. eapply read_lines_lowered; [|exact E].
    split; [|discriminate]. intros k [v Hv]. simpl in Hv.
    rewrite lookup_empty in Hv. discriminate.
  - unfold Viewer.load_header_text. apply load_lines_lowered.
    split; [|discriminate]. intros k [v Hv]. simpl in Hv.
    rewrite lookup_empty in Hv. discriminate.
Qed.

Lemma header_keys_are_lowered_witness :
  read_header_text ("Bands = 2" +:+ nl) = Ok {[ "bands" := VInt 2 ]}
  /\ Py.lower "bands" = "bands"
  /\ Viewer.load_header_text ("Bands = 2" +:+ nl) !! "Bands" = None.
Proof.
  assert (Hread : read_header_text ("Bands = 2" +:+ nl) = Ok {[ "bands" := VInt 2 ]})
    by (vm_compute; reflexivity).
  split; [exact Hread|]. split.
  - apply (proj1 (header_keys_are_lowered ("Bands = 2" +:+ nl)) _ Hread "bands").
    vm_compute. eauto.
  - vm_compute. reflexivity.
Defined.

(** ** The subset of the segmentation *)

(** X14: for a requested size that is not negative, the subset of
    [load_subset_hyperspectral] is a window inside the image: it starts at
    a row and a column of the image and ends inside it, the two slices
    select exactly [subset_rows] rows and [subset_cols] columns, the
    margins on the two sides of the window differ by one at most, and a
    request of the size of the image or more gives the whole image. *)
Theorem subset_window_inside_image (subset_size : Z * Z) (rows cols : Z) :
  0 <= rows -> 0 <= cols -> 0 <= fst subset_size -> 0 <= snd subset_size ->
  let '((subset_rows, subset_cols), (start_row, start_col)) :=
    Segmentation.subset_window subset_size rows cols in
  (0 <= start_row /\ start_row + subset_rows <= rows
   /\ Segmentation.slice_length rows start_row (start_row + subset_rows) = subset_rows
   /\ 0 <= (rows - (start_row + subset_rows)) - start_row <= 1
   /\ (rows <= fst subset_size -> start_row = 0 /\ subset_rows = rows))
  /\ (0 <= start_col /\ start_col + subset_cols <= cols
      /\ Segmentation.slice_length cols start_col (start_col + subset_cols) = subset_cols
      /\ 0 <= (cols - (start_col + subset_cols)) - start_col <= 1
      /\ (cols <= snd subset_size -> start_col = 0 /\ subset_cols = cols)).
Proof.
  intros Hr Hc Hsr Hsc. unfold Segmentation.subset_window.
  assert (Haxis : forall n size, 0 <= n -> 0 <= size ->
            let extent := Z.min size n in
            let start := (n - extent) / 2 in
            0 <= start /\ start + extent <= n
            /\ Segmentation.slice_length n start (start + extent) = extent
            /\ 0 <= (n - (start + extent)) - start <= 1
            /\ (n <= size -> start = 0 /\ extent = n)).
  { intros n size Hn Hsize extent start.
    assert (He : 0 <= extent <= n) by (unfold extent; lia).
    assert (Hd : 2 * start <= n - extent <= 2 * start + 1).
    { unfold start. pose proof (Z.div_mod (n - extent) 2 ltac:(lia)).
      pose proof (Z.mod_pos_bound (n - extent) 2 ltac:(lia)). lia. }
    assert (Hs0 : 0 <= start) by (unfold start; apply Z.div_pos; lia).
    split; [exact Hs0|]. split; [lia|]. split; [|split; [lia|]].
    - unfold Segmentation.slice_length, Segmentation.slice_bound.
      replace (start + extent <? 0) with false by (symmetry; apply Z.ltb_ge; lia).
      replace (start <? 0) with false by (symmetry; apply Z.ltb_ge; lia).
      lia.
    - intros Hle. assert (extent = n) by (unfold extent; lia).
      split; [|assumption]. unfold start.
      replace (n - extent) with 0 by lia. reflexivity. }
  split; [apply (Haxis rows (fst subset_size))|apply (Haxis cols (snd subset_size))];
    assumption.
Qed.

Lemma subset_window_inside_image_witness :
  Segmentation.subset_window (500, 500) 1001 300 = ((500, 300), (250, 0))
  /\ Segmentation.slice_length 1001 250 (250 + 500) = 500
  /\ Segmentation.slice_length 300 0 (0 + 300) = 300.
Proof.
  pose proof (subset_window_inside_image (500, 500) 1001 300
                ltac:(lia) ltac:(lia) ltac:(simpl; lia) ltac:(simpl; lia)) as H.
  change (Segmentation.subset_window (500, 500) 1001 300)
    with ((500, 300), (250, 0)) in H.
  destruct H as ((_ & _ & Hrows & _) & (_ & _ & Hcols & _)).
  split; [reflexivity|]. split; assumption.
Defined.

(** ** The segmentation map *)

Lemma put_masked_length {A : Type} (a : list A) : forall mask values,
  length (Segmentation.put_masked a mask values) = length a.
Proof.
  induction a as [|x a IH]; intros mask values; [reflexivity|].
  destruct mask as [|[] mask]; [reflexivity| |]; simpl.
  - destruct values; simpl; rewrite IH; reflexivity.
  - rewrite IH. reflexivity.
Qed.

(** The values come back from the places of the mask, in their order. *)
Lemma select_put_masked {A : Type} (a : list A) : forall mask values,
  length mask = length a -> length values = Segmentation.count mask ->
  Segmentation.select mask (Segmentation.put_masked a mask values) = values.
Proof.
  unfold Segmentation.count.
  induction a as [|x a IH]; intros mask values Hm Hv.
  - destruct mask; [|discriminate]. destruct values; [reflexivity|discriminate].
  - destruct mask as [|[] mask]; [discriminate| |]; simpl in *.
    + destruct values as [|v vs]; [discriminate|]. simpl.
      rewrite IH; [reflexivity|lia|simpl in Hv; lia].
    + apply IH; lia.
Qed.

(** The places outside the mask keep what they held. *)
Lemma select_rest_put_masked {A : Type} (a : list A) : forall mask values,
  length mask = length a ->
  Segmentation.select (map negb mask) (Segmentation.put_masked a mask values)
  = Segmentation.select (map negb mask) a.
Proof.
  induction a as [|x a IH]; intros mask values Hm.
  - destruct mask; reflexivity.
  - destruct mask as [|[] mask]; [discriminate| |]; simpl in *.
    + destruct values; simpl; apply IH; lia.
    + f_equal. apply IH. lia.
Qed.

Lemma select_repeat {A : Type} (x : A) (mask : list bool) : forall n,
  Forall (eq x) (Segmentation.select mask (repeat x n)).
Proof.
  induction mask as [|b mask IH]; intros n; [constructor|].
  destruct n as [|n]; [destruct b; constructor|].
  destruct b; simpl; [constructor; [reflexivity|apply IH]|apply IH].
Qed.

Lemma rows_of_concat {A : Type} (nrows ncols : nat) : forall a : list A,
  length a = (nrows * ncols)%nat ->
  concat (Segmentation.rows_of nrows ncols a) = a
  /\ length (Segmentation.rows_of nrows ncols a) = nrows
  /\ Forall (fun row => length row = ncols) (Segmentation.rows_of nrows ncols a).
Proof.
  induction nrows as [|r IH]; intros a Ha.
  - destruct a; [|discriminate]. repeat split. constructor.
  - simpl in Ha. cbn [Segmentation.rows_of concat length].
    destruct (IH (skipn ncols a)) as (H1 & H2 & H3);
      [rewrite length_skipn; lia|].
    rewrite H1, H2, firstn_skipn. repeat split.
    constructor; [|exact H3]. rewrite length_firstn. lia.
Qed.

(** X15: with a mask of one element to a pixel and one label to a valid pixel,
    [reconstruct_image] returns a map of the shape of the image in which
    the valid pixels hold the labels, in their order, and every other
    pixel holds 0.0, as a pixel of cluster 0 does. *)
Theorem reconstruct_image_places_labels (labels : list Z) (nrows ncols : Z)
    (valid_pixels : list bool) :
  0 <= nrows -> 0 <= ncols ->
  length valid_pixels = Z.to_nat (nrows * ncols) ->
  length labels = Segmentation.count valid_pixels ->
  exists segmentation_map,
    Segmentation.reconstruct_image labels (nrows, ncols) valid_pixels
    = inl segmentation_map
    /\ length segmentation_map = Z.to_nat nrows
    /\ Forall (fun row => length row = Z.to_nat ncols) segmentation_map
    /\ Segmentation.select valid_pixels (concat segmentation_map)
       = map F64.of_Z labels
    /\ Forall (eq (F64.of_Z 0))
         (Segmentation.select (map negb valid_pixels) (concat segmentation_map)).
Proof.
  intros Hr Hc Hmask Hlabels. unfold Segmentation.reconstruct_image.
  replace (nrows * ncols <? 0) with false by (symmetry; apply Z.ltb_ge; nia).
  unfold Segmentation.assign_masked.
  rewrite repeat_length, Hmask, Nat.eqb_refl. cbn [negb].
  rewrite length_map, Hlabels, Nat.eqb_refl.
  replace ((nrows <? 0) || (ncols <? 0)) with false
    by (symmetry; apply orb_false_iff; split; apply Z.ltb_ge; lia).
  set (full := Segmentation.put_masked _ _ _).
  assert (Hfull : length full = (Z.to_nat nrows * Z.to_nat ncols)%nat).
  { unfold full. rewrite put_masked_length, repeat_length. apply Z2Nat.inj_mul; lia. }
  destruct (rows_of_concat (Z.to_nat nrows) (Z.to_nat ncols) full Hfull)
    as (H1 & H2 & H3).
  eexists. split; [reflexivity|]. rewrite H1. repeat split; try assumption.
  - unfold full. apply select_put_masked.
    + rewrite repeat_length. exact Hmask.
    + rewrite length_map. exact Hlabels.
  - unfold full. rewrite select_rest_put_masked
      by (rewrite repeat_length; exact Hmask).
    apply select_repeat.
Qed.

Lemma reconstruct_image_places_labels_witness :
  exists segmentation_map,
    Segmentation.reconstruct_image [2; 0; 1] (2, 2) [true; false; true; true]
    = inl segmentation_map
    /\ length segmentation_map = Z.to_nat 2
    /\ Forall (fun row => length row = Z.to_nat 2) segmentation_map
    /\ Segmentation.select [true; false; true; true] (concat segmentation_map)
       = map F64.of_Z [2; 0; 1]
    /\ Forall (eq (F64.of_Z 0))
         (Segmentation.select (map negb [true; false; true; true])
            (concat segmentation_map)).
Proof.
  apply (reconstruct_image_places_labels [2; 0; 1] 2 2 [true; false; true; true]);
    first [lia|reflexivity].
Defined.

(** ** A list on one line and over several lines *)

(** The line that opens a list under [k]. *)
Lemma read_line_open (st : reader) (k : string) :
  collecting st = None -> written_key k ->
  read_line st ((k +:+ " = " +:+ "{") +:+ nl)
  = Ok {| header_info := header_info st;
          current_array := Some k;
          array_data := [""] |}.
Proof.
  intros Hst (Hk1 & Hk2 & Hk3 & Hk4). unfold read_line.
  rewrite strip_line by assumption.
  assert (Hline : Py.rstrip (k +:+ " = " +:+ "{")
                  = (k +:+ " ") +:+ String "=" " {").
  { change (k +:+ " = " +:+ "{") with (k +:+ " " +:+ String "=" " {").
    rewrite <- app_assoc_str. rewrite rstrip_app; [reflexivity|discriminate]. }
  rewrite Hline.
  assert (Hne : String.eqb ((k +:+ " ") +:+ String "=" " {") "" = false).
  { apply String.eqb_neq. apply app_nonempty_r. discriminate. }
  rewrite Hne, Hst.
  rewrite has_char_app, has_char_cons, Ascii.eqb_refl, orb_true_r.
  rewrite split1_app by (rewrite has_char_app, Hk3; reflexivity).
  rewrite Hk4. reflexivity.
Qed.

(** A written list, read outside a list, is stored as the floats of its
    elements. *)
Lemma feed_written_list (m : gmap string value) (key rest : string)
    (x : spec_float) (xs : list spec_float) :
  written_key key -> Py.has_char LF key = false -> Py.has_char CR key = false ->
  feed (idle m) (written_list key (x :: xs) +:+ rest)
  = feed (idle (<[key := VFloats (map reread (x :: xs))]> m)) rest.
Proof.
  intros Hk Hl Hc. unfold written_list.
  replace ((key +:+ " = {" +:+ nl +:+ Py.join ("," +:+ nl) (map wl_line (x :: xs))
            +:+ "}" +:+ nl) +:+ rest)
    with ((key +:+ " = " +:+ "{") +:+ nl +:+
          Py.join ("," +:+ nl) (map wl_line (x :: xs)) +:+ "}" +:+ nl +:+ rest)
    by (rewrite !app_assoc_str; reflexivity).
  rewrite feed_line.
  - rewrite read_line_open by (reflexivity || assumption).
    rewrite (feed_elements rest xs x _ key).
    + unfold closed. cbn [header_info array_data idle app].
      rewrite floats_pieces. reflexivity.
    + unfold collecting. cbn [current_array].
      destruct Hk as (_ & Hne & _).
      destruct (String.eqb_spec key ""); [contradiction|reflexivity].
  - rewrite !has_char_app, Hl. reflexivity.
  - rewrite !has_char_app, Hc. reflexivity.
Qed.

Lemma inline_elements_cons (x y : spec_float) (ys : list spec_float) :
  inline_elements (x :: y :: ys)
  = F64.format_6f x +:+ String "," (String " " (inline_elements (y :: ys))).
Proof. reflexivity. Qed.

Lemma inline_elements_chars (xs : list spec_float) : forall x,
  all_chars inline_char (inline_elements (x :: xs)) = true.
Proof.
  assert (Hf : forall x, all_chars inline_char (F64.format_6f x) = true).
  { intros x. destruct (format_6f_chars x) as [H _].
    apply (all_chars_impl float_char); [|exact H].
    intros c Hc. unfold inline_char. rewrite Hc. reflexivity. }
  induction xs as [|y ys IH]; intros x; [apply Hf|].
  rewrite inline_elements_cons, all_chars_app, Hf. simpl. apply IH.
Qed.

Lemma inline_elements_end (xs : list spec_float) : forall x,
  exists pre last, inline_elements (x :: xs) = pre +:+ F64.format_6f last.
Proof.
  induction xs as [|y ys IH]; intros x.
  - exists "", x. reflexivity.
  - destruct (IH y) as (pre & last & H).
    exists (F64.format_6f x +:+ ", " +:+ pre), last.
    rewrite inline_elements_cons, H, !app_assoc_str. reflexivity.
Qed.

Lemma inline_elements_split (xs : list spec_float) : forall x,
  split_strip (inline_elements (x :: xs)) = map F64.format_6f (x :: xs).
Proof.
  unfold split_strip.
  induction xs as [|y ys IH]; intros x; destruct (format_6f_chars x) as [Hf Hne];
    destruct (float_text_facts _ Hf) as (Hs & Hc & _).
  - cbn [inline_elements map Py.join]. rewrite split_none by exact Hc.
    cbn [map]. rewrite Hs. reflexivity.
  - rewrite inline_elements_cons, split_app by exact Hc.
    cbn [map]. rewrite Hs. f_equal.
    specialize (IH y).
    assert (Hblank : forall s, map Py.strip (Py.split "," (String " " s))
                               = map Py.strip (Py.split "," s)).
    { intros s. cbn [Py.split].
      change (Ascii.eqb "," " ") with false. cbv iota.
      pose proof (split_nonempty "," s) as Hn.
      destruct (Py.split "," s) as [|w ws]; [contradiction|]. reflexivity. }
    rewrite Hblank. exact IH.
Qed.

(** What the braces of a list on one line hold. *)
Lemma inline_list_facts (x : spec_float) (xs : list spec_float) :
  let elements := inline_elements (x :: xs) in
  let val := String "{" (elements +:+ "}") in
  Py.lstrip val = val /\ Py.rstrip val = val
  /\ Py.has_char LF val = false /\ Py.has_char CR val = false
  /\ Py.has_char "{" val = true /\ Py.has_char "}" val = true
  /\ braced_text val = elements.
Proof.
  intros elements val.
  pose proof (inline_elements_chars xs x) as Hchars. fold elements in Hchars.
  assert (Hno : forall c, inline_char c = false -> Py.has_char c elements = false)
    by (intros c Hc; apply (all_chars_has_char inline_char); assumption).
  destruct (inline_elements_end xs x) as (pre & last & Hend). fold elements in Hend.
  destruct (format_6f_chars last) as [Hlast Hlne].
  pose proof (all_chars_impl _ _ _ float_char_not_space Hlast) as Hls.
  destruct (format_6f_chars x) as [Hx Hxne].
  pose proof (all_chars_impl _ _ _ float_char_not_space Hx) as Hxs.
  assert (Hstrip : Py.strip elements = elements).
  { unfold Py.strip.
    assert (Hl : Py.lstrip elements = elements).
    { unfold elements. destruct xs as [|y ys].
      - apply lstrip_no_space, Hxs.
      - rewrite inline_elements_cons. apply lstrip_app; [|exact Hxne].
        apply lstrip_no_space, Hxs. }
    rewrite Hl, Hend, rstrip_app; rewrite rstrip_no_space by exact Hls; auto. }
  split; [reflexivity|]. split.
  { unfold val. change (String "{" (elements +:+ "}")) with (("{" +:+ elements) +:+ "}").
    rewrite rstrip_app; [reflexivity|discriminate]. }
  unfold val. rewrite !has_char_cons, !has_char_app, !Hno by reflexivity.
  repeat split; try reflexivity.
  unfold braced_text.
  change (String "{" (elements +:+ "}")) with ("" +:+ String "{" (elements +:+ "}")).
  rewrite split_app by reflexivity.
  rewrite (split_none "{" (elements +:+ "}"))
    by (rewrite has_char_app, Hno by reflexivity; reflexivity).
  unfold Py.item. cbn [nth].
  change (elements +:+ "}") with (elements +:+ String "}" "").
  rewrite split_app by (apply Hno; reflexivity).
  cbn [nth]. exact Hstrip.
Qed.

Lemma inline_array_elements (x : spec_float) (xs : list spec_float) :
  inline_array (String "{" (inline_elements (x :: xs) +:+ "}")) = inline_value x xs.
Proof.
  destruct (inline_list_facts x xs) as (_ & _ & _ & _ & _ & _ & Hb).
  unfold inline_array. rewrite Hb. destruct xs as [|y ys].
  - destruct (format_6f_chars x) as [Hf _].
    destruct (float_text_facts _ Hf) as (_ & Hc & _).
    cbn [inline_elements map Py.join]. rewrite Hc. reflexivity.
  - replace (Py.has_char "," (inline_elements (x :: y :: ys))) with true
      by (rewrite inline_elements_cons, has_char_app, has_char_cons, Ascii.eqb_refl,
            orb_true_r; reflexivity).
    rewrite inline_elements_split.
    assert (Hfilter : forall l, List.filter nonempty (map F64.format_6f l)
                                = map F64.format_6f l).
    { induction l as [|z l IH]; [reflexivity|].
      cbn [map List.filter]. rewrite nonempty_format_6f, IH. reflexivity. }
    rewrite Hfilter, floats_format_6f. reflexivity.
Qed.

(** X10: [read_header] reads a list of two or more six-decimal floats as the
    same list of floats whether the list is laid out over lines, as the
    header writer does, or stands on one line; a list of one float is a
    list of floats when laid out over lines and the text of the float when
    it stands on one line. *)
Theorem list_on_one_line_or_several (key : string) (x : spec_float)
    (xs : list spec_float) :
  written_key key -> Py.has_char LF key = false -> Py.has_char CR key = false ->
  is_numeric_key key = false ->
  read_header_text (written_list key (x :: xs))
  = Ok {[ key := VFloats (map reread (x :: xs)) ]}
  /\ read_header_text
       (field_line key (String "{" (inline_elements (x :: xs) +:+ "}")))
     = Ok {[ key := match xs with
                    | [] => VStr (F64.format_6f x)
                    | _ => VFloats (map reread (x :: xs))
                    end ]}.
Proof.
  intros Hk Hl Hc Hn. unfold read_header_text. split.
  - fold (feed reader_init (written_list key (x :: xs))).
    rewrite <- (app_empty_r (written_list key (x :: xs))).
    change reader_init with (idle ∅).
    rewrite feed_written_list by assumption. reflexivity.
  - fold (feed reader_init
            (field_line key (String "{" (inline_elements (x :: xs) +:+ "}")))).
    rewrite <- (app_empty_r (field_line key _)).
    destruct (inline_list_facts x xs) as (H1 & H2 & H3 & H4 & H5 & H6 & _).
    cbv zeta in H1, H2, H3, H4, H5, H6.
    rewrite feed_field; try assumption; try reflexivity.
    + unfold decode, convert_numeric. rewrite H5, H6, Hn. cbn [andb].
      rewrite inline_array_elements. reflexivity.
    + rewrite H5, H6. reflexivity.
Qed.

Lemma list_on_one_line_or_several_witness :
  read_header_text (written_list "fwhm" [F64.of_Z 10])
  = Ok {[ "fwhm" := VFloats (map reread [F64.of_Z 10]) ]}
  /\ read_header_text
       (field_line "fwhm" (String "{" (inline_elements [F64.of_Z 10] +:+ "}")))
     = Ok {[ "fwhm" := VStr (F64.format_6f (F64.of_Z 10)) ]}.
Proof.
  apply (list_on_one_line_or_several "fwhm" (F64.of_Z 10) []);
    first [reflexivity|written_key_tac].
Defined.
